(** * Howto100m: clip-window planning, caption alignment and retry loop

    A shallow embedding of [lib/datasets/howto100m.py].

    Numbers.  Python's [int] is [Z].  Times in seconds and interpolated
    frame positions are rationals [Q], compared with [==] ([Qeq]).
    Where the code takes a discrete decision on a floating-point result
    (the [np.argmax] over the caption overlaps, the frame rate that
    [math.ceil] hands to the pipeline, the test for a duration of zero)
    the operation is followed by [Float64.round], the binary64 rounding
    of its exact result.  The window arithmetic of [get_start_end_idx]
    and of the steps that reconcile a window with the clip duration, and
    the float32 interpolation inside [torch.linspace], are idealised:
    they are computed exactly.

    Randomness.  The module-level generator [random] is a stream of raw
    draws [entropy : nat -> Z] read at a position that is part of the
    threaded state.  [random.random()] is [k / 2^53] for a 53-bit [k]
    and [random.randint a b] is [a + randbelow (b - a + 1)], as in CPython. *)

From Stdlib Require Import ZArith QArith Qminmax Qround Qabs Lqa Lia.
From Stdlib Require Import List String Ascii Bool.
Import ListNotations.

Local Open Scope Z_scope.

(** ** Python helpers *)

Module Py.

(** [l[i]] for a Python list: negative subscripts count from the end;
    [None] stands for [IndexError]. *)
Definition getitem {A : Type} (l : list A) (i : Z) : option A :=
  let n := Z.of_nat (List.length l) in
  if (0 <=? i) && (i <? n) then nth_error l (Z.to_nat i)
  else if (- n <=? i) && (i <? 0) then nth_error l (Z.to_nat (n + i))
  else None.

(** [random.random()]: a multiple of [2^-53] in [[0, 1)]. *)
Definition random_unit (raw : Z) : Q :=
  Qmake (raw mod 2 ^ 53) (Z.to_pos (2 ^ 53)).

(** [random.uniform(a, b)] is [a + (b - a) * random()]. *)
Definition uniform (a b : Q) (raw : Z) : Q :=
  (a + (b - a) * random_unit raw)%Q.

(** [random.randint(a, b)]: [ValueError] on an empty range. *)
Definition randint (a b : Z) (raw : Z) : option Z :=
  if b <? a then None else Some (a + raw mod (b - a + 1)).

(** Truncation toward zero, as [int(x)] and [Tensor.long()] do. *)
Definition trunc (q : Q) : Z := Z.quot (Qnum q) (Zpos (Qden q)).

(** [math.ceil] *)
Definition ceil (q : Q) : Z := Qceiling q.

(** [s.split(sep)] for a non-empty [sep]: cut at every occurrence of
    [sep], left to right.  [skip] counts the characters of a separator
    just matched that are still to be passed over; [cur] is the piece
    being read, reversed. *)
Fixpoint split_aux (sep : string) (skip : nat) (cur : list ascii) (s : string)
  : list string :=
  match s with
  | EmptyString => [string_of_list_ascii (rev cur)]
  | String c s' =>
      match skip with
      | S k => split_aux sep k cur s'
      | O =>
          if String.prefix sep s then
            string_of_list_ascii (rev cur)
              :: split_aux sep (String.length sep - 1) [] s'
          else split_aux sep 0 (c :: cur) s'
      end
  end.

Definition split_on (sep s : string) : list string := split_aux sep 0 [] s.

(** [s.split(sep)]; [None] is the [ValueError] of an empty separator. *)
Definition split (sep s : string) : option (list string) :=
  if String.eqb sep "" then None else Some (split_on sep s).

(** [sep.join(parts)] *)
Fixpoint join (sep : string) (parts : list string) : string :=
  match parts with
  | [] => ""
  | [p] => p
  | p :: rest => p ++ sep ++ join sep rest
  end.

(** [s.replace(old, new)] for a non-empty [old]. *)
Definition replace (old new s : string) : string :=
  join new (split_on old s).

(** [os.path.join(a, b)] on a POSIX system. *)
Definition path_join (a b : string) : string :=
  if String.prefix "/" b then b
  else if String.eqb a "" then b
  else match String.get (String.length a - 1) a with
       | Some "/"%char => a ++ b
       | _ => a ++ "/" ++ b
       end.

(** [lst[i] = v] on an index known to be in range. *)
Fixpoint set_nth {A : Type} (l : list A) (i : nat) (v : A) : list A :=
  match l, i with
  | [], _ => []
  | _ :: t, O => v :: t
  | h :: t, S k => h :: set_nth t k v
  end.

End Py.

(** ** Binary64 rounding *)

Module Float64.

(** [floor (log2 (n / d))] *)
Definition ilog2 (n d : positive) : Z :=
  let e0 := Z.log2 (Zpos n) - Z.log2 (Zpos d) in
  if Qle_bool (Qpower 2 e0) (Zpos n # d) then e0 else e0 - 1.

(** The integer nearest to [n / d], the even one of two that are equally
    near. *)
Definition rint (n : Z) (d : positive) : Z :=
  let f := n / Zpos d in
  match 2 * (n mod Zpos d) ?= Zpos d with
  | Lt => f
  | Gt => f + 1
  | Eq => if Z.even f then f else f + 1
  end.

(** What a binary64 operation returns for the exact result [x]: the
    nearest number with a 53-bit significand (or a multiple of
    [2^-1074] below the normal range), ties to even, in lowest terms.
    Results beyond the largest finite number, infinities and NaN are
    outside the embedding. *)
Definition round (x : Q) : Q :=
  match Qnum x with
  | Z0 => 0%Q
  | Zpos n | Zneg n =>
      let q := Z.max (ilog2 n (Qden x) - 52) (-1074) in
      let m := Qred (x / Qpower 2 q) in
      Qred (inject_Z (rint (Qnum m) (Qden m)) * Qpower 2 q)
  end.

End Float64.

(** ** WindowPlanner *)

(** [check_time(s1, e1, s2, e2)] *)
Definition check_time (s1 e1 s2 e2 : Q) : Q :=
  Qmax (Qmin e1 e2 - Qmax s1 s2) 0.

(** [check_time] as it runs on binary64 caption times: [min] and [max]
    return one of their arguments, the difference is rounded. *)
Definition check_time_f64 (s1 e1 s2 e2 : Q) : Q :=
  Qmax (Float64.round (Qmin e1 e2 - Qmax s1 s2)) 0.

(** [get_start_end_idx(video_size, clip_size, clip_idx, num_clips)];
    [raw] is the draw that [random.uniform] consumes when [clip_idx] is
    [-1]; [None] is the [ZeroDivisionError] of [/ num_clips]. *)
Definition get_start_end_idx
    (video_size clip_size : Q) (clip_idx num_clips : Z) (raw : Z)
  : option (Q * Q) :=
  let delta := Qmax (video_size - clip_size) 0 in
  let start_idx :=
    if clip_idx =? -1 then Some (Py.uniform 0 delta raw)
    else if num_clips =? 0 then None
    else Some (delta * inject_Z clip_idx / inject_Z num_clips)%Q in
  match start_idx with
  | Some start_idx => Some (start_idx, (start_idx + clip_size - 1)%Q)
  | None => None
  end.

(** ** temporal_sampling *)

Module Torch.

(** [torch.linspace(start, end, steps)]: [steps] points, the first at
    [start], the last at [end], equally spaced; one step gives [start]. *)
Definition linspace (start_ end_ : Q) (steps : nat) : list Q :=
  map (fun i : nat =>
         if (steps <=? 1)%nat then start_
         else (start_ + inject_Z (Z.of_nat i) * (end_ - start_)
                        / inject_Z (Z.of_nat steps - 1))%Q)
      (seq 0 steps).

(** [torch.clamp(x, lo, hi)] is [min(max(x, lo), hi)] elementwise. *)
Definition clamp1 (lo hi x : Q) : Q := Qmin (Qmax x lo) hi.
Definition clamp (xs : list Q) (lo hi : Q) : list Q := map (clamp1 lo hi) xs.

(** [Tensor.long()] *)
Definition long (xs : list Q) : list Z := map Py.trunc xs.

(** [torch.index_select(frames, 0, index)]: an index outside
    [[0, len)] is an error. *)
Fixpoint index_select {A : Type} (frames : list A) (index : list Z)
  : option (list A) :=
  match index with
  | [] => Some []
  | i :: rest =>
      if (0 <=? i) && (i <? Z.of_nat (List.length frames)) then
        match nth_error frames (Z.to_nat i), index_select frames rest with
        | Some f, Some fs => Some (f :: fs)
        | _, _ => None
        end
      else None
  end.

End Torch.

(** The index tensor of [temporal_sampling] (its first two statements),
    for a frame tensor with [frame_count] frames. *)
Definition temporal_sampling_index
    (frame_count : nat) (start_idx end_idx : Q) (num_samples : nat) : list Z :=
  let index := Torch.linspace start_idx end_idx num_samples in
  Torch.long (Torch.clamp index 0 (inject_Z (Z.of_nat frame_count - 1))).

(** [temporal_sampling(frames, start_idx, end_idx, num_samples)] *)
Definition temporal_sampling {A : Type}
    (frames : list A) (start_idx end_idx : Q) (num_samples : nat)
  : option (list A) :=
  Torch.index_select frames
    (temporal_sampling_index (List.length frames) start_idx end_idx num_samples).

(** The position the specification gives for sample [i]: linear
    interpolation, clamped to [[0, frame_count - 1]], truncated. *)
Definition interpolated_index
    (frame_count : nat) (start_idx end_idx : Q) (num_samples i : nat) : Z :=
  let x := if (num_samples <=? 1)%nat then start_idx
           else (start_idx + inject_Z (Z.of_nat i) * (end_idx - start_idx)
                             / inject_Z (Z.of_nat num_samples - 1))%Q in
  Py.trunc (Qmin (Qmax x 0) (inject_Z (Z.of_nat frame_count - 1))).

Fixpoint nondecreasing (l : list Z) : bool :=
  match l with
  | a :: (b :: _) as rest => (a <=? b) && nondecreasing rest
  | _ => true
  end.

Local Open Scope string_scope.
Local Open Scope list_scope.
Local Open Scope Z_scope.

(** ** Exceptions *)

Inductive PyExn : Type :=
| IndexError | KeyError | TypeError | ValueError
| ZeroDivisionError | AttributeError | FileNotFoundError | AssertionError.

(** What a Python call does: it returns a value or raises. *)
Inductive Outcome (A : Type) : Type :=
| Ok (a : A)
| Raise (e : PyExn).
Arguments Ok {A} a.
Arguments Raise {A} e.

Definition obind {A B : Type} (o : Outcome A) (k : A -> Outcome B) : Outcome B :=
  match o with
  | Ok a => k a
  | Raise e => Raise e
  end.

Definition of_option {A : Type} (e : PyExn) (o : option A) : Outcome A :=
  match o with
  | Some a => Ok a
  | None => Raise e
  end.

(** ** Data model *)

Inductive Mode : Type := Train | Val | Test.

Definition mode_eqb (a b : Mode) : bool :=
  match a, b with
  | Train, Train | Val, Val | Test, Test => true
  | _, _ => false
  end.

(** The options of [cfg] that the loader reads.  An [option] field is an
    attribute looked up with [hasattr]. *)
Record Cfg : Type := {
  DATA_PATH_PREFIX : string;
  DATA_PATH_LABEL_SEPARATOR : string;
  DATA_DECODING_BACKEND : string;
  DATA_NUM_FRAMES : Z;
  DATA_FD : Q;
  DATA_FIX_END : option bool;
  TEST_NUM_ENSEMBLE_VIEWS : Z;
  TEST_NUM_SPATIAL_CROPS : Z;
  TRAIN_TEXT : string;
  TRAIN_TEXT_EMB : string;
  TRAIN_TEXT_SAMPLE : Z;
  TRAIN_EPOCH_MUL : option Z;
  MODEL_NUM_SEG : option Z;
  MODEL_TEXT_MODEL : string;
  MODEL_MIN_LEN : option Z;
  MODEL_MAX_LEN : option Z
}.

(** One row of a per-video caption table ([pd.read_csv]); a [text] cell
    that is not a [str] (an empty cell is read as NaN) is [None]. *)
Record CapRow : Type := {
  cap_start : Q;
  cap_end : Q;
  cap_text : option string
}.

(** The attributes of a [Howto100m] object.  [_video_meta] holds the keys
    of that dict; the per-video dicts stored under them are a cache that
    belongs to the decoder. *)
Record Howto100m : Type := {
  mode : Mode;
  cfg : Cfg;
  _num_retries : Z;
  _num_clips : Z;
  textind : bool;
  sample : Z;
  caps : option string;
  labels : option (list string);
  caps_emb : option string;
  has_tokenizer : bool;
  max_len : Z;
  min_len : option Z;
  em : option Z;
  _video_meta : list Z;
  _path_to_videos : list string;
  _labels : list Z;
  _durations : list Z;
  _start : list (option Z);
  _end : list (option Z);
  _spatial_temporal_idx : list Z
}.

(** ** ManifestStore: [_construct_loader] *)

Definition default_num_retries : Z := 20.

Section Loader.

(** [int(s)] and [int(float(s))] on a manifest field; [None] is
    [ValueError]. *)
Variable int_of_str : string -> option Z.
Variable int_of_float_str : string -> option Z.

(** The lists that [_construct_loader] fills. *)
Record Loaded : Type := {
  l_path_to_videos : list string;
  l_labels : list Z;
  l_durations : list Z;
  l_start : list (option Z);
  l_end : list (option Z);
  l_spatial_temporal_idx : list Z;
  l_tmp : list string;
  l_video_meta : list Z
}.

Definition empty_loaded : Loaded :=
  {| l_path_to_videos := []; l_labels := []; l_durations := [];
     l_start := []; l_end := []; l_spatial_temporal_idx := [];
     l_tmp := []; l_video_meta := [] |}.

(** [path = path.split(".")[0]] *)
Definition strip_path (path : string) : string :=
  hd "" (Py.split_on "." path).

(** [d[k] = {}] on the keys of a dict. *)
Definition dict_set_key (keys : list Z) (k : Z) : list Z :=
  if existsb (Z.eqb k) keys then keys else keys ++ [k].

(** The body of [for idx in range(self._num_clips)]. *)
Definition add_clip (c : Cfg) (num_clips : Z) (clip_idx : Z)
    (fields : list string) (path : string) (acc : Loaded) (idx : Z)
  : Outcome Loaded :=
  let label := nth 1 fields "" in
  let duration := nth 2 fields "" in
  obind (of_option ValueError (int_of_str label)) (fun label =>
  obind (of_option ValueError (int_of_float_str duration)) (fun duration =>
  obind
    (if (List.length fields =? 3)%nat then Ok (None, None)
     else
       obind (of_option ValueError (int_of_float_str (nth 3 fields "")))
         (fun s =>
       obind (of_option ValueError (int_of_float_str (nth 4 fields "")))
         (fun e => Ok (Some s, Some e))))
    (fun se =>
  Ok {| l_path_to_videos :=
          l_path_to_videos acc ++ [Py.path_join (DATA_PATH_PREFIX c) path];
        l_labels := l_labels acc ++ [label];
        l_durations := l_durations acc ++ [duration];
        l_start := l_start acc ++ [fst se];
        l_end := l_end acc ++ [snd se];
        l_spatial_temporal_idx := l_spatial_temporal_idx acc ++ [idx];
        l_tmp :=
          if (List.length fields =? 6)%nat
          then l_tmp acc ++ [Py.replace "<>" " " (nth 5 fields "")]
          else l_tmp acc;
        l_video_meta :=
          dict_set_key (l_video_meta acc) (clip_idx * num_clips + idx) |}))).

Fixpoint add_clips (c : Cfg) (num_clips clip_idx : Z) (fields : list string)
    (path : string) (idxs : list nat) (acc : Loaded) : Outcome Loaded :=
  match idxs with
  | [] => Ok acc
  | idx :: rest =>
      obind (add_clip c num_clips clip_idx fields path acc (Z.of_nat idx))
            (add_clips c num_clips clip_idx fields path rest)
  end.

(** The body of [for clip_idx, path_label in enumerate(...)]. *)
Definition add_line (c : Cfg) (num_clips : Z) (acc : Loaded)
    (clip_idx : nat) (path_label : string) : Outcome Loaded :=
  obind (of_option ValueError
           (Py.split (DATA_PATH_LABEL_SEPARATOR c) path_label))
    (fun fields =>
  let n := List.length fields in
  if negb ((n =? 3) || (n =? 5) || (n =? 6))%nat then Raise AssertionError
  else
    let path := strip_path (nth 0 fields "") in
    add_clips c num_clips (Z.of_nat clip_idx) fields path
      (seq 0 (Z.to_nat num_clips)) acc).

Fixpoint add_lines (c : Cfg) (num_clips : Z) (clip_idx : nat)
    (lines : list string) (acc : Loaded) : Outcome Loaded :=
  match lines with
  | [] => Ok acc
  | path_label :: rest =>
      obind (add_line c num_clips acc clip_idx path_label)
            (add_lines c num_clips (S clip_idx) rest)
  end.

(** [_construct_loader]; [file] is the content of [<mode>.csv] split into
    lines, [None] when the file does not exist.  The message of the last
    [assert] reads [self._split_idx], which is never set: on an empty
    result the statement ends in [AttributeError]. *)
Definition _construct_loader (c : Cfg) (num_clips : Z)
    (file : option (list string)) : Outcome Loaded :=
  match file with
  | None => Raise AssertionError
  | Some lines =>
      obind (add_lines c num_clips 0 lines empty_loaded) (fun l =>
      if (0 <? List.length (l_path_to_videos l))%nat then Ok l
      else Raise AttributeError)
  end.

(** [__init__(cfg, mode, num_retries=20)]; [num_retries] is [None]
    when the caller leaves it out. *)
Definition __init__ (c : Cfg) (m : Mode) (num_retries : option Z)
    (file : option (list string)) : Outcome Howto100m :=
  let num_retries :=
    match num_retries with Some n => n | None => default_num_retries end in
  let c' :=
    match MODEL_NUM_SEG c with
    | Some seg =>
        if 0 <? seg then
          {| DATA_PATH_PREFIX := DATA_PATH_PREFIX c;
             DATA_PATH_LABEL_SEPARATOR := DATA_PATH_LABEL_SEPARATOR c;
             DATA_DECODING_BACKEND := DATA_DECODING_BACKEND c;
             DATA_NUM_FRAMES := DATA_NUM_FRAMES c * seg;
             DATA_FD := DATA_FD c;
             DATA_FIX_END := DATA_FIX_END c;
             TEST_NUM_ENSEMBLE_VIEWS := TEST_NUM_ENSEMBLE_VIEWS c;
             TEST_NUM_SPATIAL_CROPS := TEST_NUM_SPATIAL_CROPS c;
             TRAIN_TEXT := TRAIN_TEXT c;
             TRAIN_TEXT_EMB := TRAIN_TEXT_EMB c;
             TRAIN_TEXT_SAMPLE := TRAIN_TEXT_SAMPLE c;
             TRAIN_EPOCH_MUL := TRAIN_EPOCH_MUL c;
             MODEL_NUM_SEG := MODEL_NUM_SEG c;
             MODEL_TEXT_MODEL := MODEL_TEXT_MODEL c;
             MODEL_MIN_LEN := MODEL_MIN_LEN c;
             MODEL_MAX_LEN := MODEL_MAX_LEN c |}
        else c
    | None => c
    end in
  let num_clips :=
    match m with
    | Train => 1
    | Val => 1
    | Test => TEST_NUM_ENSEMBLE_VIEWS c * TEST_NUM_SPATIAL_CROPS c
    end in
  let has_text := (0 <? String.length (TRAIN_TEXT c))%nat in
  obind (_construct_loader c' num_clips file) (fun l =>
  Ok {| mode := m;
        cfg := c';
        _num_retries := num_retries;
        _num_clips := num_clips;
        textind := has_text;
        sample := TRAIN_TEXT_SAMPLE c;
        caps := if has_text then Some (TRAIN_TEXT c) else None;
        labels := if (0 <? List.length (l_tmp l))%nat
                  then Some (l_tmp l) else None;
        caps_emb := if (0 <? String.length (TRAIN_TEXT_EMB c))%nat
                    then Some (TRAIN_TEXT_EMB c) else None;
        has_tokenizer :=
          has_text
          && String.eqb (MODEL_TEXT_MODEL c) "paraphrase-mpnet-base-v2";
        max_len := match MODEL_MAX_LEN c with Some n => n | None => 64 end;
        min_len := if has_text
                   then Some match MODEL_MIN_LEN c with
                             | Some n => n | None => 0 end
                   else None;
        em := TRAIN_EPOCH_MUL c;
        _video_meta := l_video_meta l;
        _path_to_videos := l_path_to_videos l;
        _labels := l_labels l;
        _durations := l_durations l;
        _start := l_start l;
        _end := l_end l;
        _spatial_temporal_idx := l_spatial_temporal_idx l |}).

End Loader.

(** [__len__] *)
Definition __len__ (self : Howto100m) : Z :=
  let n := Z.of_nat (List.length (_path_to_videos self)) in
  match em self with
  | Some m =>
      if (1 <? m) && mode_eqb (mode self) Train then n * m else n
  | None => n
  end.

(** ** CaptionAligner *)

Module Np.

(** [np.argmax]: the running maximum is replaced only by a strictly
    larger value, so the first occurrence of the maximum wins. *)
Fixpoint argmax_from (best_i : nat) (best : Q) (i : nat) (l : list Q) : nat :=
  match l with
  | [] => best_i
  | x :: t =>
      if Qle_bool x best then argmax_from best_i best (S i) t
      else argmax_from i x (S i) t
  end.

(** [None] is the [ValueError] of an empty sequence. *)
Definition argmax (l : list Q) : option nat :=
  match l with
  | [] => None
  | x :: t => Some (argmax_from 0 x 1 t)
  end.

End Np.

(** The list [temp] of overlaps and the record [np.argmax(temp)] picks,
    for a known window [(start, end)]. *)
Definition overlaps (start end_ : Q) (cap : list CapRow) : list Q :=
  map (fun r => check_time_f64 start end_ (cap_start r) (cap_end r)) cap.

Definition select_by_overlap (start end_ : Q) (cap : list CapRow) : option nat :=
  Np.argmax (overlaps start end_ cap).

(** *** Minimum-length expansion *)

(** [len(q.split(" "))] *)
Definition word_count (q : string) : Z :=
  Z.of_nat (List.length (Py.split_on " " q)).

(** The variables of the [while] loop; [m_reads] lists the subscripts at
    which the caption table has been read so far. *)
Record Merge : Type := {
  m_mi : Z;
  m_q : string;
  m_s : Q;
  m_e : Q;
  m_reads : list Z
}.

Inductive LoopResult : Type :=
| Finished (st : Merge)
| Failed
| OutOfFuel.

(** [if ind - mi > 0 and isinstance(cap["text"].values[ind - mi], str)] *)
Definition pull_before (cap : list CapRow) (ind : Z) (st : Merge)
  : option Merge :=
  let i := ind - m_mi st in
  if 0 <? i then
    match Py.getitem cap i with
    | None => None
    | Some r =>
        match cap_text r with
        | Some t =>
            Some {| m_mi := m_mi st;
                    m_q := (t ++ " " ++ m_q st)%string;
                    m_s := cap_start r;
                    m_e := m_e st;
                    m_reads := m_reads st ++ [i] |}
        | None =>
            Some {| m_mi := m_mi st; m_q := m_q st; m_s := m_s st;
                    m_e := m_e st; m_reads := m_reads st ++ [i] |}
        end
    end
  else Some st.

(** [if ind + mi < len(cap) and isinstance(cap["text"].values[ind + mi], str)] *)
Definition pull_after (cap : list CapRow) (ind : Z) (st : Merge)
  : option Merge :=
  let i := ind + m_mi st in
  if i <? Z.of_nat (List.length cap) then
    match Py.getitem cap i with
    | None => None
    | Some r =>
        match cap_text r with
        | Some t =>
            Some {| m_mi := m_mi st;
                    m_q := (m_q st ++ " " ++ t)%string;
                    m_s := m_s st;
                    m_e := cap_end r;
                    m_reads := m_reads st ++ [i] |}
        | None =>
            Some {| m_mi := m_mi st; m_q := m_q st; m_s := m_s st;
                    m_e := m_e st; m_reads := m_reads st ++ [i] |}
        end
    end
  else Some st.

Definition next_mi (st : Merge) : Merge :=
  {| m_mi := m_mi st + 1; m_q := m_q st; m_s := m_s st; m_e := m_e st;
     m_reads := m_reads st |}.

(** [not ind - mi > 0 and not ind + mi < len(cap)] *)
Definition exhausted (cap : list CapRow) (ind mi : Z) : bool :=
  negb (0 <? ind - mi) && negb (ind + mi <? Z.of_nat (List.length cap)).

(** The [while] loop, run for at most [fuel] rounds. *)
Fixpoint merge_loop (fuel : nat) (cap : list CapRow) (ind min_len : Z)
    (st : Merge) : LoopResult :=
  if word_count (m_q st) <? min_len then
    match fuel with
    | O => OutOfFuel
    | S fuel' =>
        match pull_before cap ind st with
        | None => Failed
        | Some st1 =>
            match pull_after cap ind st1 with
            | None => Failed
            | Some st2 =>
                let st3 := next_mi st2 in
                if exhausted cap ind (m_mi st3) then Finished st3
                else merge_loop fuel' cap ind min_len st3
            end
        end
    end
  else Finished st.

(** Rounds after which the [break] test holds whatever [ind] is. *)
Definition merge_fuel (cap : list CapRow) (ind : Z) : nat :=
  S (Z.to_nat (Z.max ind (Z.of_nat (List.length cap) - ind))).

(** Lines 395-413: the merged text and window for record [ind]. *)
Definition min_len_merge (cap : list CapRow) (ind min_len : Z) : LoopResult :=
  match Py.getitem cap ind with
  | None => Failed
  | Some r =>
      merge_loop (merge_fuel cap ind) cap ind min_len
        {| m_mi := 0;
           m_q := match cap_text r with Some t => t | None => " " end;
           m_s := cap_start r;
           m_e := cap_end r;
           m_reads := [ind] |}
  end.

(** Lines 414-416: the three stores into row [ind] of the table. *)
Definition store_merged (cap : list CapRow) (ind : Z) (st : Merge)
  : list CapRow :=
  let n := Z.of_nat (List.length cap) in
  let i := if ind <? 0 then n + ind else ind in
  Py.set_nth cap (Z.to_nat i)
    {| cap_start := m_s st; cap_end := m_e st; cap_text := Some (m_q st) |}.

(** ** Window reconciliation (lines 438-440) *)

(** The re-centred window of a window shorter than [FD - 1]. *)
Definition recenter (start end_ fd : Q) (duration : Q) : Q * Q :=
  let start' := Qmax ((end_ + start) / 2 - fd / 2) 0 in
  (start', Qmin (start' + fd) duration).

Definition reconcile_short (start end_ fd duration : Q) : Q * Q :=
  if Qle_bool (fd - 1) (end_ - start) then (start, end_)
  else recenter start end_ fd duration.

(** ** RetryOrchestrator: [__getitem__] *)

(** A warning written by [logger.warning], with the index and trial it
    reports. *)
Inductive LogRecord : Type :=
| FailedMetaLoad (index : Z) (i_try : nat)
| FailedDecode (index : Z) (i_try : nat).

(** What a call can read and write: the dataset object, the caption
    tables on disk (by file name), the position in the random stream and
    the log.  [trials] is a ghost counter of loop bodies entered. *)
Record World : Type := {
  self_ : Howto100m;
  disk : string -> option (list CapRow);
  rng_pos : nat;
  log : list LogRecord;
  trials : nat
}.

Definition M (A : Type) : Type := World -> Outcome A * World.

Definition ret {A : Type} (a : A) : M A := fun w => (Ok a, w).

Definition bind {A B : Type} (m : M A) (k : A -> M B) : M B :=
  fun w =>
    match m w with
    | (Ok a, w') => k a w'
    | (Raise e, w') => (Raise e, w')
    end.

Definition raise {A : Type} (e : PyExn) : M A := fun w => (Raise e, w).

Definition gets {A : Type} (f : World -> A) : M A := fun w => (Ok (f w), w).

Definition modify (f : World -> World) : M unit := fun w => (Ok tt, f w).

(** [try: m  except: pass] *)
Definition try_ {A : Type} (m : M A) : M (option A) :=
  fun w =>
    match m w with
    | (Ok a, w') => (Ok (Some a), w')
    | (Raise _, w') => (Ok None, w')
    end.

Definition lift {A : Type} (e : PyExn) (o : option A) : M A :=
  match o with
  | Some a => ret a
  | None => raise e
  end.

Declare Scope py_scope.
Delimit Scope py_scope with py.
Notation "x <- m ;; k" := (bind m (fun x => k))
  (at level 61, m at next level, right associativity) : py_scope.
Notation "m ;;; k" := (bind m (fun _ => k))
  (at level 61, right associativity) : py_scope.
Local Open Scope py_scope.

Definition set_rng_pos (n : nat) (w : World) : World :=
  {| self_ := self_ w; disk := disk w; rng_pos := n; log := log w;
     trials := trials w |}.

Definition add_log (r : LogRecord) (w : World) : World :=
  {| self_ := self_ w; disk := disk w; rng_pos := rng_pos w;
     log := log w ++ [r]; trials := trials w |}.

Definition add_trial (w : World) : World :=
  {| self_ := self_ w; disk := disk w; rng_pos := rng_pos w; log := log w;
     trials := S (trials w) |}.

(** The caption payload of a result: the [text] dict. *)
Record Payload (Encoded Emb : Type) : Type := {
  p_text : option Encoded;
  p_label : list Z;
  p_emb : option Emb
}.
Arguments p_text {Encoded Emb} _.
Arguments p_label {Encoded Emb} _.
Arguments p_emb {Encoded Emb} _.

(** [(frames, label, index, text)]; an empty dict is [None]. *)
Record SampleResult (Clip Encoded Emb : Type) : Type := {
  r_frames : Clip;
  r_label : Z;
  r_index : Z;
  r_text : option (Payload Encoded Emb)
}.
Arguments r_frames {Clip Encoded Emb} _.
Arguments r_label {Clip Encoded Emb} _.
Arguments r_index {Clip Encoded Emb} _.
Arguments r_text {Clip Encoded Emb} _.

(** How one round of the [for] loop ends: [continue] with the index the
    next round uses, or [return]. *)
Inductive Step (R : Type) : Type :=
| Continue (index : Z)
| Return (r : R).
Arguments Continue {R} index.
Arguments Return {R} r.

(** External collaborators.  Each call that touches the file system or
    a decoder takes the trial number, so that two calls on the same
    arguments may differ. *)
Record External : Type := {
  Container : Type;
  Frame : Type;
  Clip : Type;
  Encoded : Type;
  Emb : Type;

  (** The raw draws of the generator [random]. *)
  entropy : nat -> Z;

  (** [container.get_video_container]; [None] when it raises. *)
  get_video_container : nat -> string -> option Container;

  (** [decoder.decode(container, ..., NUM_FRAMES, temporal_sample_index,
      NUM_ENSEMBLE_VIEWS, ..., duration, start, end)]; [None] is its
      [None]. *)
  decoder_decode :
    nat -> Container -> Z -> Z -> Z -> Z -> Q -> Q -> option (list Frame);

  (** The [ffmpeg] pipeline of [get_video] on [(path, ss, t, fps)];
      [None] when it raises. *)
  ffmpeg_run : nat -> string -> Q -> Q -> Z -> option (list Frame);

  (** [np.load(path)], the rows of an embedding file. *)
  np_load : string -> option (list Emb);

  (** [tokenizer.encode_plus(sen, max_length=...)] *)
  encode_plus : string -> Z -> Encoded;

  (** Normalisation, spatial sampling and pathway packing of the decoded
      frames, with the crop and scale settings that the mode, the
      spatial index and the short-cycle index select. *)
  augment : Cfg -> Mode -> Z -> option Z -> list Frame -> Clip
}.

Section Fetch.

Variable ext : External.

Definition Result : Type :=
  SampleResult (Clip ext) (Encoded ext) (Emb ext).

(** One raw draw. *)
Definition draw : M Z :=
  fun w => (Ok (entropy ext (rng_pos w)), set_rng_pos (S (rng_pos w)) w).

(** [random.randint(a, b)] *)
Definition randint (a b : Z) : M Z :=
  if b <? a then raise ValueError
  else (raw <- draw ;; lift ValueError (Py.randint a b raw)).

(** A call of [get_start_end_idx]: the generator is read only when
    [clip_idx] is [-1]. *)
Definition call_get_start_end_idx
    (video_size clip_size : Q) (clip_idx num_clips : Z) : M (Q * Q) :=
  if clip_idx =? -1 then
    raw <- draw ;;
    lift ZeroDivisionError
         (get_start_end_idx video_size clip_size clip_idx num_clips raw)
  else
    lift ZeroDivisionError
         (get_start_end_idx video_size clip_size clip_idx num_clips 0).

(** [get_video(video_path, start, end, number_frames)]; [None] when
    anything in it raises.  The duration [end - start] and the quotient
    that [math.ceil] receives are binary64 results. *)
Definition get_video (i_try : nat) (video_path : string) (start end_ : Q)
    (number_frames : Z) : option (list (Frame ext)) :=
  let t := Float64.round (end_ - start) in
  if Qeq_bool t 0 then None
  else
    let fps := Py.ceil (Float64.round (inject_Z number_frames / t)) in
    match ffmpeg_run ext i_try video_path start t fps with
    | None => None
    | Some video =>
        if number_frames <? 0 then None
        else temporal_sampling video 0
               (inject_Z (Z.of_nat (List.length video)))
               (Z.to_nat number_frames)
    end.

(** [len(self._path_to_videos)] *)
Definition num_videos (self : Howto100m) : Z :=
  Z.of_nat (List.length (_path_to_videos self)).

(** Lines 350-360: the container could not be opened. *)
Definition on_open_failure (i_try : nat) (index : Z) : M Z :=
  self <- gets self_ ;;
  _ <- lift IndexError (Py.getitem (_path_to_videos self) index) ;;
  modify (add_log (FailedMetaLoad index i_try)) ;;;
  if negb (mode_eqb (mode self) Test)
     && (_num_retries self / 2 <? Z.of_nat i_try)
  then randint 0 (num_videos self - 1)
  else ret index.

(** Lines 498-510: decoding gave no frames. *)
Definition on_decode_failure (i_try : nat) (index : Z) : M Z :=
  self <- gets self_ ;;
  _ <- lift IndexError (Py.getitem (_path_to_videos self) index) ;;
  modify (add_log (FailedDecode index i_try)) ;;;
  index <- (if negb (mode_eqb (mode self) Test)
            then randint 0 (num_videos self - 1)
            else ret index) ;;
  if mode_eqb (mode self) Test && (_num_retries self / 2 <? Z.of_nat i_try)
  then randint 0 (num_videos self - 1)
  else ret index.

(** [vidid = path.split("/")[-1].split(".")[0]] *)
Definition vidid_of (path : string) : string :=
  hd "" (Py.split_on "." (last (Py.split_on "/" path) "")).

(** What the caption block (lines 369-430) leaves in the local
    variables. *)
Record Aligned : Type := {
  a_text : option (Encoded ext);
  a_cap_emb : option (Emb ext);
  a_start : option Q;
  a_end : option Q
}.

(** Lines 372-430, entered with the manifest window [(start, end)]. *)
Definition align_caption (index : Z) (start end_ : option Q) : M Aligned :=
  self <- gets self_ ;;
  path <- lift IndexError (Py.getitem (_path_to_videos self) index) ;;
  let vidid := vidid_of path in
  caps_dir <- lift TypeError (caps self) ;;
  table <- gets (fun w => disk w (caps_dir ++ vidid ++ ".csv")%string) ;;
  cap <- lift FileNotFoundError table ;;
  ind <- match start with
         | None => randint 0 (Z.of_nat (List.length cap) - 1)
         | Some s =>
             match cap with
             | [] => raise ValueError
             | _ :: _ =>
                 e <- lift TypeError end_ ;;
                 i <- lift ValueError (select_by_overlap s e cap) ;;
                 ret (Z.of_nat i)
             end
         end ;;
  cap_emb <- match caps_emb self with
             | Some emb_dir =>
                 rows <- lift FileNotFoundError
                           (np_load ext (emb_dir ++ vidid ++ ".npy")%string) ;;
                 v <- lift IndexError (Py.getitem rows ind) ;;
                 ret (Some v)
             | None => ret None
             end ;;
  cap <- match min_len self with
         | Some ml =>
             if 0 <? ml then
               match min_len_merge cap ind ml with
               | Finished st => ret (store_merged cap ind st)
               | Failed => raise IndexError
               | OutOfFuel => raise IndexError
               end
             else ret cap
         | None => ret cap
         end ;;
  row <- lift IndexError (Py.getitem cap ind) ;;
  text <- (if (sample self <? 1) || negb (mode_eqb (mode self) Train) then
             let sen := match cap_text row with
                        | Some t => if String.eqb t "" then " " else t
                        | None => " "
                        end in
             if has_tokenizer self
             then ret (Some (encode_plus ext sen (max_len self)))
             else raise AttributeError
           else ret None) ;;
  ret {| a_text := text; a_cap_emb := cap_emb;
         a_start := Some (cap_start row); a_end := Some (cap_end row) |}.

(** Lines 441-458: the [try] block; an exception inside it leaves the
    window as it was. *)
Definition rederive (tsi : Z) (start end_ : Q) : M (Q * Q) :=
  c <- gets (fun w => cfg (self_ w)) ;;
  let fd := DATA_FD c in
  let nf := inject_Z (DATA_NUM_FRAMES c) in
  if negb (Qle_bool (end_ - start) nf) && Qeq_bool fd 0 then
    ret (((end_ + start) / 2 - nf / 2)%Q, ((end_ + start) / 2 + nf / 2)%Q)
  else if negb (Qle_bool fd 0) && negb (Qle_bool (end_ - start) fd) then
    r <- try_ (call_get_start_end_idx (end_ - start) fd tsi
                 (TEST_NUM_ENSEMBLE_VIEWS c)) ;;
    match r with
    | Some (s, e) => ret ((s + start)%Q, (e + start)%Q)
    | None => ret (start, end_)
    end
  else ret (start, end_).

(** Lines 459-468: [FIX_END]. *)
Definition fix_end (tsi : Z) (index : Z) (start end_ : Q) : M (Q * Q) :=
  self <- gets self_ ;;
  let c := cfg self in
  match DATA_FIX_END c with
  | Some true =>
      s <- lift IndexError (Py.getitem (_start self) index) ;;
      e <- lift IndexError (Py.getitem (_end self) index) ;;
      e <- lift TypeError e ;;
      s <- lift TypeError s ;;
      let s := inject_Z s in
      let e := inject_Z e in
      if negb (Qle_bool (e - s) (DATA_FD c)) then
        call_get_start_end_idx (e - s) (DATA_FD c) tsi
          (TEST_NUM_ENSEMBLE_VIEWS c)
      else ret (s, e)
  | _ => ret (start, end_)
  end.

(** Lines 362-468: the window to decode and the caption locals. *)
Definition plan_window (tsi : Z) (index : Z) : M (Q * Q * Aligned) :=
  self <- gets self_ ;;
  let c := cfg self in
  duration <- lift IndexError (Py.getitem (_durations self) index) ;;
  start <- lift IndexError (Py.getitem (_start self) index) ;;
  end_ <- lift IndexError (Py.getitem (_end self) index) ;;
  let start := option_map inject_Z start in
  let end_ := option_map inject_Z end_ in
  al <- (if (match start with None => true | Some _ => false end
             || match caps self with Some _ => true | None => false end)
            && negb (match caps self, labels self with
                     | None, None => true
                     | _, _ => false
                     end)
         then align_caption index start end_
         else ret {| a_text := None; a_cap_emb := None;
                     a_start := start; a_end := end_ |}) ;;
  se <- match a_start al with
        | None =>
            se <- call_get_start_end_idx (inject_Z duration) (DATA_FD c)
                    tsi (TEST_NUM_ENSEMBLE_VIEWS c) ;;
            ret (fst se, Some (snd se))
        | Some s => ret (s, a_end al)
        end ;;
  end_ <- lift TypeError (snd se) ;;
  let '(start, end_) :=
    reconcile_short (fst se) end_ (DATA_FD c) (inject_Z duration) in
  se <- rederive tsi start end_ ;;
  se <- fix_end tsi index (fst se) (snd se) ;;
  ret (se, al).

(** One round of the loop (lines 335-542). *)
Definition attempt (tsi ssi : Z) (short_cycle_idx : option Z)
    (i_try : nat) (index : Z) : M (Step Result) :=
  self <- gets self_ ;;
  let c := cfg self in
  let ffmpeg := String.eqb (DATA_DECODING_BACKEND c) "ffmpeg" in
  vc <- (if ffmpeg then ret (Some None)
         else
           match Py.getitem (_path_to_videos self) index with
           | None => raise IndexError
           | Some path =>
               match get_video_container ext i_try path with
               | Some vc => ret (Some (Some vc))
               | None => ret None
               end
           end) ;;
  match vc with
  | None => index' <- on_open_failure i_try index ;; ret (Continue index')
  | Some video_container =>
      plan <- plan_window tsi index ;;
      let '(start, end_, al) := plan in
      duration <- lift IndexError (Py.getitem (_durations self) index) ;;
      frames <-
        match video_container with
        | Some vc =>
            if existsb (Z.eqb index) (_video_meta self) then
              ret (decoder_decode ext i_try vc (DATA_NUM_FRAMES c) tsi
                     (TEST_NUM_ENSEMBLE_VIEWS c) duration start end_)
            else raise KeyError
        | None =>
            ret match Py.getitem (_path_to_videos self) index with
                | Some path =>
                    get_video i_try path start end_ (DATA_NUM_FRAMES c)
                | None => None
                end
        end ;;
      match frames with
      | None =>
          index' <- on_decode_failure i_try index ;; ret (Continue index')
      | Some frames =>
          label <- lift IndexError (Py.getitem (_labels self) index) ;;
          let clip := augment ext c (mode self) ssi short_cycle_idx frames in
          ret (Return
                 {| r_frames := clip;
                    r_label := label;
                    r_index := index;
                    r_text :=
                      if textind self then
                        Some {| p_text := a_text al;
                                p_label :=
                                  1 :: repeat 0 (Z.to_nat (sample self));
                                p_emb := match caps_emb self with
                                         | Some _ => a_cap_emb al
                                         | None => None
                                         end |}
                      else None |})
      end
  end.

(** [for i_try in range(n)], from trial [i_try] on; falling out of the
    loop returns Python's [None]. *)
Fixpoint retry_loop (tsi ssi : Z) (short_cycle_idx : option Z)
    (n : nat) (i_try : nat) (index : Z) : M (option Result) :=
  match n with
  | O => ret None
  | S n' =>
      modify add_trial ;;;
      step <- attempt tsi ssi short_cycle_idx i_try index ;;
      match step with
      | Continue index' =>
          retry_loop tsi ssi short_cycle_idx n' (S i_try) index'
      | Return r => ret (Some r)
      end
  end.

(** Line 283: the index wraps when the epoch multiplier is above one. *)
Definition wrap_index (self : Howto100m) (index : Z) : Outcome Z :=
  match em self with
  | Some m =>
      if 1 <? m then
        if num_videos self =? 0 then Raise ZeroDivisionError
        else Ok (index mod num_videos self)
      else Ok index
  | None => Ok index
  end.

(** Lines 285-327: the temporal and spatial sample indices. *)
Definition sample_indices (self : Howto100m) (index : Z) : Outcome (Z * Z) :=
  match mode self with
  | Train | Val => Ok (-1, -1)
  | Test =>
      let crops := TEST_NUM_SPATIAL_CROPS (cfg self) in
      obind (of_option IndexError
               (Py.getitem (_spatial_temporal_idx self) index)) (fun sti =>
      if crops =? 0 then Raise ZeroDivisionError
      else Ok (sti / crops, if 1 <? crops then sti mod crops else 1))
  end.

(** [__getitem__(index)], or [__getitem__((index, short_cycle_idx))]. *)
Definition __getitem__ (index : Z) (short_cycle_idx : option Z)
  : M (option Result) :=
  self <- gets self_ ;;
  match obind (wrap_index self index) (fun index =>
        obind (sample_indices self index) (fun ts => Ok (index, ts))) with
  | Raise e => raise e
  | Ok (index, (tsi, ssi)) =>
      retry_loop tsi ssi short_cycle_idx (Z.to_nat (_num_retries self))
        0 index
  end.

End Fetch.

(** ** Specification-level definitions *)

(** The overlap score in the words of the specification, the
    difference being the one binary64 computes. *)
Definition overlap_of (start end_ : Q) (r : CapRow) : Q :=
  Qmax (Float64.round (Qmin end_ (cap_end r) - Qmax start (cap_start r))) 0.

(** Round [i_try] on [index], entered in the world [w], cannot open its
    container. *)
Definition open_fails (ext : External) (i_try : nat) (index : Z) (w : World)
  : Prop :=
  String.eqb (DATA_DECODING_BACKEND (cfg (self_ w))) "ffmpeg" = false
  /\ exists path,
       Py.getitem (_path_to_videos (self_ w)) index = Some path
       /\ get_video_container ext i_try path = None.

(** Round [i_try] on [index], entered in the world [w], has its
    container, plans its window, which leaves the world [w2], and
    decodes no frames. *)
Definition decode_fails (ext : External) (tsi : Z) (i_try : nat) (index : Z)
    (w w2 : World) : Prop :=
  let self := self_ w in
  let c := cfg self in
  exists path duration start end_ al,
    Py.getitem (_path_to_videos self) index = Some path
    /\ Py.getitem (_durations self) index = Some duration
    /\ plan_window ext tsi index w = (Ok (start, end_, al), w2)
    /\ if String.eqb (DATA_DECODING_BACKEND c) "ffmpeg"
       then get_video ext i_try path start end_ (DATA_NUM_FRAMES c) = None
       else exists vc,
              get_video_container ext i_try path = Some vc
              /\ existsb (Z.eqb index) (_video_meta self) = true
              /\ decoder_decode ext i_try vc (DATA_NUM_FRAMES c) tsi
                   (TEST_NUM_ENSEMBLE_VIEWS c) duration start end_ = None.

(** The caption table after lines 394-416, for the selected row
    [ind]. *)
Definition merged_table (self : Howto100m) (cap : list CapRow) (ind : Z)
  : list CapRow :=
  match min_len self with
  | Some ml =>
      if 0 <? ml then
        match min_len_merge cap ind ml with
        | Finished st => store_merged cap ind st
        | _ => cap
        end
      else cap
  | None => cap
  end.

Fixpoint has_dot (s : string) : bool :=
  match s with
  | EmptyString => false
  | String c s' => Ascii.eqb c "." || has_dot s'
  end.

Fixpoint count_dots (s : string) : nat :=
  match s with
  | EmptyString => 0%nat
  | String c s' => ((if Ascii.eqb c "." then 1 else 0) + count_dots s')%nat
  end.

(** The text before the first ['.'] of a path. *)
Fixpoint before_first_dot (s : string) : string :=
  match s with
  | EmptyString => ""
  | String c s' =>
      if Ascii.eqb c "." then "" else String c (before_first_dot s')
  end.

(** The path without its trailing extension: what is left when the final
    ['.'] and the text after it are removed. *)
Fixpoint without_extension (s : string) : string :=
  match s with
  | EmptyString => ""
  | String c s' =>
      if has_dot s' then String c (without_extension s')
      else if Ascii.eqb c "." then "" else String c (without_extension s')
  end.

(** A subscript inside the caption table. *)
Definition in_table (cap : list CapRow) (i : Z) : Prop :=
  0 <= i < Z.of_nat (List.length cap).

(** A computation that leaves the component [proj] of the world as it
    found it. *)
Definition keeps {X A : Type} (proj : World -> X) (m : M A) : Prop :=
  forall w, proj (snd (m w)) = proj w.

(** Each of the [n] rounds from trial [i_try] on ends in [continue]. *)
Fixpoint every_attempt_fails (ext : External) (tsi ssi : Z)
    (short_cycle_idx : option Z) (n i_try : nat) (index : Z) (w : World)
  : Prop :=
  match n with
  | O => True
  | S n' =>
      exists index' w',
        attempt ext tsi ssi short_cycle_idx i_try index (add_trial w)
        = (Ok (Continue index'), w')
        /\ every_attempt_fails ext tsi ssi short_cycle_idx n' (S i_try)
             index' w'
  end.

(** ** Concrete datasets and collaborators *)

Module Demo.

(** [int(s)] on a string of decimal digits. *)
Fixpoint digits (acc : Z) (s : string) : option Z :=
  match s with
  | EmptyString => Some acc
  | String c s' =>
      let d := Z.of_nat (nat_of_ascii c) - 48 in
      if (0 <=? d) && (d <=? 9) then digits (10 * acc + d) s' else None
  end.

Definition int_of_digits (s : string) : option Z :=
  match s with
  | EmptyString => None
  | _ => digits 0 s
  end.

Definition config (backend text : string) (epoch_mul min_len : option Z)
    (views crops : Z) : Cfg :=
  {| DATA_PATH_PREFIX := "/data";
     DATA_PATH_LABEL_SEPARATOR := " ";
     DATA_DECODING_BACKEND := backend;
     DATA_NUM_FRAMES := 8;
     DATA_FD := 0;
     DATA_FIX_END := None;
     TEST_NUM_ENSEMBLE_VIEWS := views;
     TEST_NUM_SPATIAL_CROPS := crops;
     TRAIN_TEXT := text;
     TRAIN_TEXT_EMB := "";
     TRAIN_TEXT_SAMPLE := 0;
     TRAIN_EPOCH_MUL := epoch_mul;
     MODEL_NUM_SEG := None;
     MODEL_TEXT_MODEL := "paraphrase-mpnet-base-v2";
     MODEL_MIN_LEN := min_len;
     MODEL_MAX_LEN := None |}.

Definition manifest3 : list string :=
  ["v0.mp4 0 30"; "v1.mp4 1 40"; "v2.mp4 0 50"].

Definition manifest10 : list string :=
  ["a0.mp4 0 30"; "a1.mp4 1 40"; "a2.mp4 0 50"; "a3.mp4 0 30"; "a4.mp4 1 40";
   "a5.mp4 0 50"; "a6.mp4 0 30"; "a7.mp4 1 40"; "a8.mp4 0 50"; "a9.mp4 0 50"].

Definition load (c : Cfg) (m : Mode) (lines : list string)
  : Outcome Howto100m :=
  __init__ int_of_digits int_of_digits c m None (Some lines).

(** The object that [load c m manifest3] builds for a train or val
    split, written out. *)
Definition dataset3 (c : Cfg) (m : Mode) : Howto100m :=
  let has_text := (0 <? String.length (TRAIN_TEXT c))%nat in
  {| mode := m; cfg := c; _num_retries := 20; _num_clips := 1;
     textind := has_text; sample := 0;
     caps := if has_text then Some (TRAIN_TEXT c) else None;
     labels := None; caps_emb := None;
     has_tokenizer := has_text; max_len := 64;
     min_len := if has_text
                then Some match MODEL_MIN_LEN c with
                          | Some n => n | None => 0 end
                else None;
     em := TRAIN_EPOCH_MUL c;
     _video_meta := [0; 1; 2];
     _path_to_videos := ["/data/v0"; "/data/v1"; "/data/v2"];
     _labels := [0; 1; 0];
     _durations := [30; 40; 50];
     _start := [None; None; None];
     _end := [None; None; None];
     _spatial_temporal_idx := [0; 0; 0] |}.

Definition world (self : Howto100m) (tables : string -> option (list CapRow))
  : World :=
  {| self_ := self; disk := tables; rng_pos := 0; log := []; trials := 0 |}.

Definition no_tables : string -> option (list CapRow) := fun _ => None.

Definition rows_abc : list CapRow :=
  [ {| cap_start := 0; cap_end := 5; cap_text := Some "a" |};
    {| cap_start := 4; cap_end := 10; cap_text := Some "b" |};
    {| cap_start := 20; cap_end := 25; cap_text := Some "c" |} ].

Definition rows_xa : list CapRow :=
  [ {| cap_start := 0; cap_end := 1; cap_text := Some "x y z" |};
    {| cap_start := 1; cap_end := 2; cap_text := Some "a b" |} ].

Definition tables_v : string -> option (list CapRow) :=
  fun name => if String.prefix "/caps/v" name then Some rows_xa else None.

(** Collaborators that never deliver a container or a frame; every draw
    is [1]. *)
Definition broken : External :=
  {| Container := unit; Frame := unit; Clip := list unit;
     Encoded := string; Emb := unit;
     entropy := fun _ => 1;
     get_video_container := fun _ _ => None;
     decoder_decode := fun _ _ _ _ _ _ _ _ => None;
     ffmpeg_run := fun _ _ _ _ _ => None;
     np_load := fun _ => None;
     encode_plus := fun sen _ => sen;
     augment := fun _ _ _ _ frames => frames |}.

(** Collaborators that always deliver four frames. *)
Definition working : External :=
  {| Container := unit; Frame := unit; Clip := list unit;
     Encoded := string; Emb := unit;
     entropy := fun _ => 1;
     get_video_container := fun _ _ => Some tt;
     decoder_decode := fun _ _ _ _ _ _ _ _ => Some [tt; tt; tt; tt];
     ffmpeg_run := fun _ _ _ _ _ => Some [tt; tt; tt; tt];
     np_load := fun _ => None;
     encode_plus := fun sen _ => sen;
     augment := fun _ _ _ _ frames => frames |}.

Definition train_em3 : Howto100m :=
  dataset3 (config "pyav" "" (Some 3) None 1 1) Train.

Definition pyav_train : World :=
  world (dataset3 (config "pyav" "" None None 1 1) Train) no_tables.

Definition ffmpeg_val_captions : World :=
  world (dataset3 (config "ffmpeg" "/caps/" None (Some 5) 1 1) Val) tables_v.

End Demo.

(** ** Further specification-level definitions *)

(** What [_construct_loader] has built after [k] logical samples: five
    arrays of length [k], the clip number of every sample and the keys
    of [_video_meta]. *)
Definition loaded_aligned (num_clips : Z) (k : nat) (l : Loaded) : Prop :=
  List.length (l_path_to_videos l) = k
  /\ List.length (l_labels l) = k
  /\ List.length (l_durations l) = k
  /\ List.length (l_start l) = k
  /\ List.length (l_end l) = k
  /\ l_spatial_temporal_idx l
     = map (fun j : nat => Z.of_nat j mod num_clips) (seq 0 k)
  /\ l_video_meta l = map Z.of_nat (seq 0 k).

(** A manifest row the loader accepts: 3, 5 or 6 fields. *)
Definition row_ok (sep line : string) : Prop :=
  exists fields,
    Py.split sep line = Some fields
    /\ (List.length fields = 3 \/ List.length fields = 5
        \/ List.length fields = 6)%nat.

(** The index and the trial a warning reports. *)
Definition record_index (r : LogRecord) : Z :=
  match r with
  | FailedMetaLoad index _ => index
  | FailedDecode index _ => index
  end.

Definition record_trial (r : LogRecord) : nat :=
  match r with
  | FailedMetaLoad _ i_try => i_try
  | FailedDecode _ i_try => i_try
  end.

(** The container of the round is there: the [ffmpeg] backend opens
    none, any other backend has opened one. *)
Definition container_ready (ext : External) (self : Howto100m) (i_try : nat)
    (index : Z) : Prop :=
  String.eqb (DATA_DECODING_BACKEND (cfg self)) "ffmpeg" = true
  \/ exists path vc,
       Py.getitem (_path_to_videos self) index = Some path
       /\ get_video_container ext i_try path = Some vc.

(** What lines 218-248 store for one manifest row, in every one of its
    [_num_clips] samples. *)
Record Row : Type := {
  row_path : string;
  row_label : Z;
  row_duration : Z;
  row_start : option Z;
  row_end : option Z;
  row_text : option string
}.

Section Rows.

Variable int_of_str : string -> option Z.
Variable int_of_float_str : string -> option Z.

(** The row that a list of 3, 5 or 6 fields stands for; [None] when a
    number does not parse. *)
Definition row_of_fields (c : Cfg) (fields : list string) : option Row :=
  match int_of_str (nth 1 fields ""), int_of_float_str (nth 2 fields "") with
  | Some label, Some duration =>
      let row s e :=
        {| row_path := Py.path_join (DATA_PATH_PREFIX c)
                         (strip_path (nth 0 fields ""));
           row_label := label; row_duration := duration;
           row_start := s; row_end := e;
           row_text := if (List.length fields =? 6)%nat
                       then Some (Py.replace "<>" " " (nth 5 fields ""))
                       else None |} in
      if (List.length fields =? 3)%nat then Some (row None None)
      else
        match int_of_float_str (nth 3 fields ""),
              int_of_float_str (nth 4 fields "") with
        | Some s, Some e => Some (row (Some s) (Some e))
        | _, _ => None
        end
  | _, _ => None
  end.

(** The row of a manifest line. *)
Definition parse_row (c : Cfg) (line : string) : option Row :=
  match Py.split (DATA_PATH_LABEL_SEPARATOR c) line with
  | Some fields =>
      let n := List.length fields in
      if ((n =? 3) || (n =? 5) || (n =? 6))%nat then row_of_fields c fields
      else None
  | None => None
  end.

End Rows.

(** [acc'] is [acc] with [n] samples of every row of [rows] appended, row
    after row. *)
Definition appended (rows : list Row) (n : nat) (acc acc' : Loaded) : Prop :=
  let rep {B : Type} (f : Row -> B) :=
    flat_map (fun r => repeat (f r) n) rows in
  l_path_to_videos acc' = l_path_to_videos acc ++ rep row_path
  /\ l_labels acc' = l_labels acc ++ rep row_label
  /\ l_durations acc' = l_durations acc ++ rep row_duration
  /\ l_start acc' = l_start acc ++ rep row_start
  /\ l_end acc' = l_end acc ++ rep row_end
  /\ l_tmp acc' = l_tmp acc
                  ++ flat_map (fun r => match row_text r with
                                        | Some t => repeat t n
                                        | None => []
                                        end) rows.

(** ** Further concrete datasets *)

Module Demo2.

(** A val dataset with a caption directory whose tables are missing. *)
Definition captions_missing : World :=
  Demo.world
    (Demo.dataset3 (Demo.config "ffmpeg" "/caps/" None (Some 5) 1 1) Val)
    Demo.no_tables.

(** Collaborators whose pipeline delivers four frames at 3 frames per
    second and fails at every other rate. *)
Definition rate3 : External :=
  {| Container := unit; Frame := unit; Clip := list unit;
     Encoded := string; Emb := unit;
     entropy := fun _ => 1;
     get_video_container := fun _ _ => None;
     decoder_decode := fun _ _ _ _ _ _ _ _ => None;
     ffmpeg_run := fun _ _ _ _ fps =>
                     if fps =? 3 then Some [tt; tt; tt; tt] else None;
     np_load := fun _ => None;
     encode_plus := fun sen _ => sen;
     augment := fun _ _ _ _ frames => frames |}.

(** A train dataset on [Demo.manifest3] decoded through [ffmpeg]. *)
Definition ffmpeg_train : World :=
  Demo.world (Demo.dataset3 (Demo.config "ffmpeg" "" None None 1 1) Train)
    Demo.no_tables.

(** A test dataset of two views and three crops on [Demo.manifest3]. *)
Definition test_config : Cfg := Demo.config "pyav" "" None None 2 3.

Definition fix_end_world (fd : Q) : World :=
  Demo.world
    {| mode := Test;
       cfg := {| DATA_PATH_PREFIX := "/data";
                 DATA_PATH_LABEL_SEPARATOR := " ";
                 DATA_DECODING_BACKEND := "ffmpeg";
                 DATA_NUM_FRAMES := 8;
                 DATA_FD := fd;
                 DATA_FIX_END := Some true;
                 TEST_NUM_ENSEMBLE_VIEWS := 2;
                 TEST_NUM_SPATIAL_CROPS := 1;
                 TRAIN_TEXT := "";
                 TRAIN_TEXT_EMB := "";
                 TRAIN_TEXT_SAMPLE := 0;
                 TRAIN_EPOCH_MUL := None;
                 MODEL_NUM_SEG := None;
                 MODEL_TEXT_MODEL := "";
                 MODEL_MIN_LEN := None;
                 MODEL_MAX_LEN := None |};
       _num_retries := 20; _num_clips := 2;
       textind := false; sample := 0;
       caps := None; labels := None; caps_emb := None;
       has_tokenizer := false; max_len := 64; min_len := None; em := None;
       _video_meta := [0; 1];
       _path_to_videos := ["/data/v0"; "/data/v0"];
       _labels := [0; 0];
       _durations := [30; 30];
       _start := [Some 10; Some 10];
       _end := [Some 20; Some 20];
       _spatial_temporal_idx := [0; 1] |}
    Demo.no_tables.

End Demo2.

(** * Properties *)

(** ** The loader on the concrete manifests *)

Example load_manifest3 :
  Demo.load (Demo.config "pyav" "" None None 1 1) Train Demo.manifest3
  = Ok (Demo.dataset3 (Demo.config "pyav" "" None None 1 1) Train).
Proof. reflexivity. Qed.

Example load_manifest3_captions :
  Demo.load (Demo.config "ffmpeg" "/caps/" None (Some 5) 1 1) Val
    Demo.manifest3
  = Ok (Demo.dataset3 (Demo.config "ffmpeg" "/caps/" None (Some 5) 1 1) Val).
Proof. reflexivity. Qed.

Example split_on_examples :
  Py.split_on "." "a.b.mp4" = ["a"; "b"; "mp4"]
  /\ Py.split_on "ab" "xabyab" = ["x"; "y"; ""]
  /\ Py.replace "<>" " " "a<>b<>" = "a b "
  /\ Py.path_join "/data/" "v/x" = "/data/v/x".
Proof. repeat split; reflexivity. Qed.

(** ** WindowPlanner *)

Section WindowFacts.

Local Open Scope Q_scope.

Lemma random_unit_range (raw : Z) :
  0 <= Py.random_unit raw /\ Py.random_unit raw < 1.
Proof.
  unfold Py.random_unit.
  assert (H := Z.mod_pos_bound raw (2 ^ 53) ltac:(reflexivity)).
  split.
  - unfold Qle; simpl. lia.
  - unfold Qlt; simpl. rewrite Z.mul_1_r.
    change (Z.pos (Z.to_pos (2 ^ 53))) with (2 ^ 53)%Z. lia.
Qed.

Lemma uniform_range (a b : Q) (raw : Z) :
  a <= b -> a <= Py.uniform a b raw /\ Py.uniform a b raw <= b.
Proof.
  intros Hab. unfold Py.uniform.
  destruct (random_unit_range raw) as [H0 H1].
  split; nra.
Qed.

(** C1.  For every video size, clip size and positive number of clips,
    [get_start_end_idx] returns a window; for a clip index [>= 0] its
    start is [max(video_size - clip_size, 0) * clip_idx / num_clips];
    for the clip index [-1] its start lies in
    [[0, max(video_size - clip_size, 0)]] whatever the generator draws;
    in both cases the end is [start + clip_size - 1]. *)
Theorem get_start_end_idx_spec
    (video_size clip_size : Q) (clip_idx num_clips raw : Z) :
  (0 < num_clips)%Z ->
  exists start end_,
    get_start_end_idx video_size clip_size clip_idx num_clips raw
    = Some (start, end_)
    /\ ((0 <= clip_idx)%Z ->
        start == Qmax (video_size - clip_size) 0 * inject_Z clip_idx
                 / inject_Z num_clips)
    /\ (clip_idx = (-1)%Z ->
        0 <= start /\ start <= Qmax (video_size - clip_size) 0)
    /\ end_ == start + clip_size - 1.
Proof.
  intros Hn. unfold get_start_end_idx.
  destruct (clip_idx =? -1)%Z eqn:E.
  - apply Z.eqb_eq in E. subst.
    eexists; eexists; split; [reflexivity|].
    split; [intros; lia|]. split; [|reflexivity].
    intros _. apply uniform_range. apply Q.le_max_r.
  - apply Z.eqb_neq in E.
    destruct (num_clips =? 0)%Z eqn:E0; [apply Z.eqb_eq in E0; lia|].
    eexists; eexists; split; [reflexivity|].
    split; [reflexivity|]. split; [intros; lia|reflexivity].
Qed.

Lemma get_start_end_idx_spec_witness :
  (0 < 4)%Z
  /\ exists start end_,
       get_start_end_idx 100 20 2 4 0 = Some (start, end_)
       /\ ((0 <= 2)%Z ->
           start == Qmax (100 - 20) 0 * inject_Z 2 / inject_Z 4)
       /\ (2%Z = (-1)%Z -> 0 <= start /\ start <= Qmax (100 - 20) 0)
       /\ end_ == start + 20 - 1.
Proof.
  split; [lia|]. apply (get_start_end_idx_spec 100 20 2 4 0). lia.
Defined.

Example get_start_end_idx_tiling :
  exists start end_,
    get_start_end_idx 100 20 2 4 0 = Some (start, end_)
    /\ start == 40 /\ end_ == 59.
Proof. eexists; eexists; split; [reflexivity|]. split; reflexivity. Qed.

(** *** Re-centring a short window *)





(** Once a window has been re-centred the [try] block that follows
    leaves it alone. *)
Lemma rederive_after_recenter (ext : External) (tsi : Z) (s e : Q)
    (w : World) :
  1 < DATA_FD (cfg (self_ w)) -> e - s <= DATA_FD (cfg (self_ w)) ->
  rederive ext tsi s e w = (Ok (s, e), w).
Proof.
  intros Hfd Hlen. unfold rederive, bind, gets.
  replace (Qeq_bool (DATA_FD (cfg (self_ w))) 0) with false.
  2:{ symmetry. apply not_true_is_false. intros H.
      apply Qeq_bool_iff in H. lra. }
  rewrite andb_false_r.
  replace (Qle_bool (e - s) (DATA_FD (cfg (self_ w)))) with true
    by (symmetry; apply Qle_bool_iff; assumption).
  rewrite andb_false_r. reflexivity.
Qed.

End WindowFacts.

(** ** temporal_sampling *)

(** The lemmas of this section are about the interpolation computed
    exactly; [torch.linspace] works in float32. *)

Section SamplingFacts.

Local Open Scope Q_scope.

Lemma trunc_nonneg (q : Q) : 0 <= q -> Py.trunc q = Qfloor q.
Proof.
  destruct q as [a b]. unfold Qle, Py.trunc, Qfloor. simpl. intros H.
  apply Z.quot_div_nonneg; lia.
Qed.

Lemma trunc_neg (q : Q) : q <= 0 -> Py.trunc q = Qceiling q.
Proof.
  destruct q as [a b]. unfold Qle, Py.trunc, Qceiling, Qfloor. simpl.
  intros H.
  rewrite <- (Z.opp_involutive a) at 1.
  rewrite Z.quot_opp_l by lia.
  rewrite Z.quot_div_nonneg by lia. reflexivity.
Qed.

Lemma trunc_mono (x y : Q) : x <= y -> (Py.trunc x <= Py.trunc y)%Z.
Proof.
  intros Hxy.
  destruct (Qlt_le_dec x 0) as [Hx|Hx]; destruct (Qlt_le_dec y 0) as [Hy|Hy].
  - rewrite !trunc_neg by lra. apply Qceiling_resp_le; assumption.
  - rewrite (trunc_neg x) by lra. rewrite (trunc_nonneg y) by assumption.
    transitivity 0%Z.
    + change 0%Z with (Qceiling 0). apply Qceiling_resp_le. lra.
    + change 0%Z with (Qfloor 0). apply Qfloor_resp_le. assumption.
  - lra.
  - rewrite !trunc_nonneg by lra. apply Qfloor_resp_le; assumption.
Qed.

Lemma trunc_inject_Z (z : Z) : Py.trunc (inject_Z z) = z.
Proof. unfold Py.trunc. simpl. apply Z.quot_1_r. Qed.

Lemma clamp1_mono (lo hi x y : Q) :
  x <= y -> Torch.clamp1 lo hi x <= Torch.clamp1 lo hi y.
Proof.
  intros H. unfold Torch.clamp1.
  apply Q.min_le_compat_r. apply Q.max_le_compat_r. assumption.
Qed.

Lemma clamp1_range (lo hi x : Q) :
  lo <= hi -> lo <= Torch.clamp1 lo hi x /\ Torch.clamp1 lo hi x <= hi.
Proof.
  intros H. unfold Torch.clamp1. split.
  - apply Q.min_glb; [apply Q.le_max_r|assumption].
  - apply Q.le_min_r.
Qed.

Lemma nondecreasing_map_seq (f : nat -> Z) (n a : nat) :
  (forall i, (f i <= f (S i))%Z) ->
  nondecreasing (map f (seq a n)) = true.
Proof.
  intros Hf. revert a.
  induction n as [|n IH]; intros a; [reflexivity|].
  destruct n as [|n]; [reflexivity|].
  change (map f (seq a (S (S n))))
    with (f a :: f (S a) :: map f (seq (S (S a)) n)).
  cbn [nondecreasing]. apply andb_true_iff. split.
  - apply Z.leb_le. apply Hf.
  - apply (IH (S a)).
Qed.

(** The code's three tensor operations compute, position by position,
    the specification's formula. *)
Lemma temporal_sampling_index_as_map fc s e n :
  temporal_sampling_index fc s e n
  = map (interpolated_index fc s e n) (seq 0 n).
Proof.
  unfold temporal_sampling_index, Torch.long, Torch.clamp, Torch.linspace.
  rewrite !map_map. reflexivity.
Qed.

Lemma linspace_point_mono (s e : Q) (n i : nat) :
  s <= e -> (1 < n)%nat ->
  s + inject_Z (Z.of_nat i) * (e - s) / inject_Z (Z.of_nat n - 1)
  <= s + inject_Z (Z.of_nat (S i)) * (e - s) / inject_Z (Z.of_nat n - 1).
Proof.
  intros Hse Hn.
  assert (Hd : 0 < inject_Z (Z.of_nat n - 1)).
  { change 0 with (inject_Z 0). rewrite <- Zlt_Qlt. lia. }
  apply Qplus_le_r. unfold Qdiv.
  apply Qmult_le_compat_r; [|apply Qlt_le_weak, Qinv_lt_0_compat; assumption].
  apply Qmult_le_compat_r; [|lra].
  rewrite <- Zle_Qle. lia.
Qed.

Lemma interpolated_index_mono fc s e n i :
  s <= e ->
  (interpolated_index fc s e n i <= interpolated_index fc s e n (S i))%Z.
Proof.
  intros Hse. unfold interpolated_index.
  apply trunc_mono. apply (clamp1_mono 0).
  destruct (n <=? 1)%nat eqn:E.
  - apply Qle_refl.
  - apply Nat.leb_gt in E. apply linspace_point_mono; assumption.
Qed.

Lemma interpolated_index_range fc s e n i :
  (1 <= fc)%nat ->
  (0 <= interpolated_index fc s e n i <= Z.of_nat fc - 1)%Z.
Proof.
  intros Hfc. unfold interpolated_index.
  match goal with |- context [Py.trunc ?q] => set (x := q) end.
  assert (Hr : 0 <= x /\ x <= inject_Z (Z.of_nat fc - 1)).
  { apply (clamp1_range 0). change 0 with (inject_Z 0).
    rewrite <- Zle_Qle. lia. }
  destruct Hr as [H0 H1]. split.
  - change 0%Z with (Py.trunc 0). apply trunc_mono. assumption.
  - rewrite <- (trunc_inject_Z (Z.of_nat fc - 1)).
    apply trunc_mono. assumption.
Qed.

Lemma index_select_total {A : Type} (frames : list A) (index : list Z) :
  Forall (fun i => 0 <= i < Z.of_nat (List.length frames))%Z index ->
  exists out, Torch.index_select frames index = Some out
              /\ List.length out = List.length index.
Proof.
  induction 1 as [|i rest Hi _ IH]; [exists []; split; reflexivity|].
  destruct IH as (out & Hout & Hlen). cbn [Torch.index_select].
  replace ((0 <=? i)%Z && (i <? Z.of_nat (List.length frames))%Z) with true
    by (symmetry; apply andb_true_iff; split;
        [apply Z.leb_le|apply Z.ltb_lt]; lia).
  destruct (nth_error frames (Z.to_nat i)) as [f|] eqn:Hf.
  - rewrite Hout. exists (f :: out). split; [reflexivity|].
    simpl. congruence.
  - apply nth_error_None in Hf. lia.
Qed.

End SamplingFacts.

(** ** CaptionAligner: the record with the largest overlap *)

Section OverlapFacts.

Local Open Scope Q_scope.

Lemma argmax_from_spec (l pre : list Q) (bi : nat) (b : Q) :
  nth_error pre bi = Some b ->
  (forall j x, nth_error pre j = Some x -> x <= b) ->
  (forall j x, (j < bi)%nat -> nth_error pre j = Some x -> x < b) ->
  exists v,
    nth_error (pre ++ l) (Np.argmax_from bi b (List.length pre) l) = Some v
    /\ (forall j x, nth_error (pre ++ l) j = Some x -> x <= v)
    /\ (forall j x, (j < Np.argmax_from bi b (List.length pre) l)%nat ->
                    nth_error (pre ++ l) j = Some x -> x < v).
Proof.
  revert pre bi b.
  induction l as [|x l IH]; intros pre bi b Hb Hmax Hfirst;
    cbn [Np.argmax_from].
  - rewrite app_nil_r. exists b. auto.
  - assert (Hlen : List.length (pre ++ [x]) = S (List.length pre))
      by (rewrite length_app; simpl; lia).
    replace (pre ++ x :: l) with ((pre ++ [x]) ++ l)
      by (rewrite <- app_assoc; reflexivity).
    destruct (Qle_bool x b) eqn:E.
    + apply Qle_bool_iff in E.
      rewrite <- Hlen. apply IH.
      * rewrite nth_error_app1; [assumption|].
        apply nth_error_Some. congruence.
      * intros j y Hj.
        destruct (Nat.lt_ge_cases j (List.length pre)) as [Hlt|Hge].
        -- rewrite nth_error_app1 in Hj by assumption. eauto.
        -- rewrite nth_error_app2 in Hj by assumption.
           destruct (j - List.length pre)%nat as [|k]; simpl in Hj.
           ++ injection Hj as <-. assumption.
           ++ destruct k; discriminate.
      * intros j y Hlt Hj.
        assert (bi < List.length pre)%nat
          by (apply nth_error_Some; congruence).
        rewrite nth_error_app1 in Hj by lia. eauto.
    + assert (Hlt : b < x).
      { apply Qnot_le_lt. intros H. apply Qle_bool_iff in H. congruence. }
      rewrite <- Hlen. apply IH.
      * rewrite nth_error_app2 by lia. rewrite Nat.sub_diag. reflexivity.
      * intros j y Hj.
        destruct (Nat.lt_ge_cases j (List.length pre)) as [Hl|Hge].
        -- rewrite nth_error_app1 in Hj by assumption.
           apply Qlt_le_weak.
           eapply Qle_lt_trans; [eapply Hmax; eassumption|assumption].
        -- rewrite nth_error_app2 in Hj by assumption.
           destruct (j - List.length pre)%nat as [|k]; simpl in Hj.
           ++ injection Hj as <-. apply Qle_refl.
           ++ destruct k; discriminate.
      * intros j y Hl Hj.
        rewrite nth_error_app1 in Hj by assumption.
        eapply Qle_lt_trans; [eapply Hmax; eassumption|assumption].
Qed.

Lemma argmax_spec (l : list Q) :
  l <> [] ->
  exists i v,
    Np.argmax l = Some i /\ nth_error l i = Some v
    /\ (forall j x, nth_error l j = Some x -> x <= v)
    /\ (forall j x, (j < i)%nat -> nth_error l j = Some x -> x < v).
Proof.
  destruct l as [|x l]; [congruence|]. intros _.
  destruct (argmax_from_spec l [x] 0 x) as [v Hv].
  - reflexivity.
  - intros [|[|j]] y Hj; simpl in Hj; try discriminate.
    injection Hj as <-. apply Qle_refl.
  - intros j y Hj. lia.
  - exists (Np.argmax_from 0 x 1 l), v. split; [reflexivity|exact Hv].
Qed.

End OverlapFacts.

(** ** CaptionAligner: minimum-length expansion *)

Lemma getitem_in_range {A : Type} (l : list A) (i : Z) :
  0 <= i < Z.of_nat (List.length l) -> exists x, Py.getitem l i = Some x.
Proof.
  intros H. unfold Py.getitem.
  replace ((0 <=? i) && (i <? Z.of_nat (List.length l))) with true
    by (symmetry; apply andb_true_iff; split;
        [apply Z.leb_le|apply Z.ltb_lt]; lia).
  destruct (nth_error l (Z.to_nat i)) as [x|] eqn:E; [eauto|].
  apply nth_error_None in E. lia.
Qed.

Lemma getitem_Some_length {A : Type} (l : list A) (i : Z) (x : A) :
  Py.getitem l i = Some x -> 0 < Z.of_nat (List.length l).
Proof.
  unfold Py.getitem. intros H.
  destruct l; [|simpl; lia].
  exfalso. revert H. cbn [List.length Z.of_nat].
  repeat match goal with
         | |- context [if ?b then _ else _] => destruct b
         end;
    try rewrite nth_error_nil; discriminate.
Qed.

Lemma pull_before_ok cap ind st :
  in_table cap ind -> 0 <= m_mi st ->
  exists st', pull_before cap ind st = Some st'
              /\ m_mi st' = m_mi st
              /\ (Forall (in_table cap) (m_reads st) ->
                  Forall (in_table cap) (m_reads st')).
Proof.
  intros Hind Hmi. unfold pull_before.
  destruct (0 <? ind - m_mi st) eqn:E; [|eauto].
  apply Z.ltb_lt in E.
  assert (Hi : in_table cap (ind - m_mi st)) by (unfold in_table in *; lia).
  destruct (getitem_in_range cap _ Hi) as [r ->].
  destruct (cap_text r); eexists; (split; [reflexivity|]);
    split; try reflexivity;
    cbn [m_reads]; intros HF; apply Forall_app; auto.
Qed.

Lemma pull_after_ok cap ind st :
  in_table cap ind -> 0 <= m_mi st ->
  exists st', pull_after cap ind st = Some st'
              /\ m_mi st' = m_mi st
              /\ (Forall (in_table cap) (m_reads st) ->
                  Forall (in_table cap) (m_reads st')).
Proof.
  intros Hind Hmi. unfold pull_after.
  destruct (ind + m_mi st <? Z.of_nat (List.length cap)) eqn:E; [|eauto].
  apply Z.ltb_lt in E.
  assert (Hi : in_table cap (ind + m_mi st)) by (unfold in_table in *; lia).
  destruct (getitem_in_range cap _ Hi) as [r ->].
  destruct (cap_text r); eexists; (split; [reflexivity|]);
    split; try reflexivity;
    cbn [m_reads]; intros HF; apply Forall_app; auto.
Qed.

Lemma merge_loop_safe cap ind min_len :
  in_table cap ind ->
  forall fuel st,
    (0 < fuel)%nat -> 0 <= m_mi st ->
    Z.max ind (Z.of_nat (List.length cap) - ind) - m_mi st < Z.of_nat fuel ->
    Forall (in_table cap) (m_reads st) ->
    exists st',
      merge_loop fuel cap ind min_len st = Finished st'
      /\ Forall (in_table cap) (m_reads st')
      /\ (min_len <= word_count (m_q st')
          \/ exhausted cap ind (m_mi st') = true).
Proof.
  intros Hind. induction fuel as [|fuel IH];
    intros st Hf Hmi Hfuel Hreads; [lia|].
  cbn [merge_loop].
  destruct (word_count (m_q st) <? min_len) eqn:Hw.
  - destruct (pull_before_ok cap ind st Hind Hmi) as (st1 & -> & Hmi1 & Hr1).
    assert (Hmi1' : 0 <= m_mi st1) by lia.
    destruct (pull_after_ok cap ind st1 Hind Hmi1')
      as (st2 & -> & Hmi2 & Hr2).
    destruct (exhausted cap ind (m_mi (next_mi st2))) eqn:Hex.
    + eexists. split; [reflexivity|].
      split; [cbn [next_mi m_reads]; auto|]. right. exact Hex.
    + apply IH.
      * unfold exhausted in Hex. cbn [next_mi m_mi] in *.
        apply andb_false_iff in Hex.
        destruct Hex as [Hex|Hex]; apply negb_false_iff in Hex;
          apply Z.ltb_lt in Hex; lia.
      * cbn [next_mi m_mi]. lia.
      * cbn [next_mi m_mi]. lia.
      * cbn [next_mi m_reads]. auto.
  - exists st. split; [reflexivity|]. split; [assumption|].
    left. apply Z.ltb_ge. assumption.
Qed.

(** What does hold of the expansion: started on a record of the table it
    ends, every subscript it reads is inside the table, and it stops with
    the word count reached or with the loop's own test
    [not ind - mi > 0 and not ind + mi < len(cap)] true. *)
Lemma min_len_merge_safe cap ind min_len :
  in_table cap ind ->
  exists st,
    min_len_merge cap ind min_len = Finished st
    /\ Forall (in_table cap) (m_reads st)
    /\ (min_len <= word_count (m_q st) \/ exhausted cap ind (m_mi st) = true).
Proof.
  intros Hind. unfold min_len_merge.
  destruct (getitem_in_range cap ind Hind) as [r ->].
  apply merge_loop_safe; try assumption.
  - unfold merge_fuel. lia.
  - cbn [m_mi]. lia.
  - cbn [m_mi]. unfold merge_fuel. unfold in_table in Hind. lia.
  - cbn [m_reads]. constructor; [assumption|constructor].
Qed.

Lemma merge_loop_fuel cap ind min_len :
  forall fuel st,
    (0 < fuel)%nat ->
    Z.max ind (Z.of_nat (List.length cap) - ind) - m_mi st < Z.of_nat fuel ->
    merge_loop fuel cap ind min_len st <> OutOfFuel.
Proof.
  induction fuel as [|fuel IH]; intros st Hf Hfuel; [lia|].
  cbn [merge_loop].
  destruct (word_count (m_q st) <? min_len); [|discriminate].
  destruct (pull_before cap ind st) as [st1|] eqn:E1; [|discriminate].
  destruct (pull_after cap ind st1) as [st2|] eqn:E2; [|discriminate].
  assert (H1 : m_mi st1 = m_mi st).
  { unfold pull_before in E1. destruct (0 <? _); [|congruence].
    destruct (Py.getitem _ _) as [r|]; [|discriminate].
    destruct (cap_text r); injection E1 as <-; reflexivity. }
  assert (H2 : m_mi st2 = m_mi st1).
  { unfold pull_after in E2. destruct (_ <? _); [|congruence].
    destruct (Py.getitem _ _) as [r|]; [|discriminate].
    destruct (cap_text r); injection E2 as <-; reflexivity. }
  destruct (exhausted cap ind (m_mi (next_mi st2))) eqn:Hex; [discriminate|].
  unfold exhausted in Hex. cbn [next_mi m_mi] in *.
  apply IH; cbn [next_mi m_mi].
  - apply andb_false_iff in Hex.
    destruct Hex as [Hex|Hex]; apply negb_false_iff in Hex;
      apply Z.ltb_lt in Hex; lia.
  - lia.
Qed.

(** The rounds given to the loop always suffice. *)
Lemma min_len_merge_terminates cap ind min_len :
  min_len_merge cap ind min_len <> OutOfFuel.
Proof.
  unfold min_len_merge. destruct (Py.getitem cap ind); [|discriminate].
  apply merge_loop_fuel; unfold merge_fuel; cbn [m_mi]; lia.
Qed.

(** C5.  The code at the table [(0,1,"x y z"), (1,2,"a b")], record 1
    selected, [min_len = 7]: the first round ([mi = 0]) adds the selected
    record's own text on both sides, the loop then stops with 6 words,
    fewer than [min_len], and the preceding record ["x y z"] at index 0
    is never read, because [ind - mi > 0] excludes index 0.  The merged
    window stays [(1, 2)]. *)
Theorem min_len_merge_skips_record_zero :
  min_len_merge Demo.rows_xa 1 7
  = Finished {| m_mi := 1; m_q := "a b a b a b"; m_s := 1; m_e := 2;
                m_reads := [1; 1; 1] |}
  /\ word_count "a b a b a b" = 6
  /\ option_map cap_text (Py.getitem Demo.rows_xa 0) = Some (Some "x y z")
  /\ min_len_merge Demo.rows_xa 1 5 = min_len_merge Demo.rows_xa 1 7.
Proof. repeat split; reflexivity. Qed.

(** ** ManifestStore: the stored path *)

Lemma string_of_list_ascii_snoc (l : list ascii) (c : ascii) :
  string_of_list_ascii (l ++ [c])
  = (string_of_list_ascii l ++ String c "")%string.
Proof.
  induction l as [|a l IH]; simpl; [reflexivity|]. rewrite IH. reflexivity.
Qed.

Lemma string_append_assoc (a b c : string) :
  ((a ++ b) ++ c = a ++ (b ++ c))%string.
Proof.
  induction a as [|x a IH]; simpl; [reflexivity|]. rewrite IH. reflexivity.
Qed.

Lemma string_append_nil_r (a : string) : (a ++ "" = a)%string.
Proof.
  induction a as [|x a IH]; simpl; [reflexivity|]. rewrite IH. reflexivity.
Qed.

Lemma prefix_dot (c : ascii) (s : string) :
  String.prefix "." (String c s) = Ascii.eqb c ".".
Proof.
  change (String.prefix "." (String c s))
    with (if ascii_dec "." c then String.prefix "" s else false).
  destruct (ascii_dec "." c) as [<-|H].
  - rewrite Ascii.eqb_refl. destruct s; reflexivity.
  - symmetry. apply Ascii.eqb_neq. congruence.
Qed.

Lemma split_aux_dot_hd (s : string) (cur : list ascii) :
  hd "" (Py.split_aux "." 0 cur s)
  = (string_of_list_ascii (rev cur) ++ before_first_dot s)%string.
Proof.
  revert cur. induction s as [|c s IH]; intros cur.
  - simpl. rewrite string_append_nil_r. reflexivity.
  - cbn [Py.split_aux before_first_dot]. rewrite prefix_dot.
    destruct (Ascii.eqb c ".").
    + simpl. rewrite string_append_nil_r. reflexivity.
    + rewrite IH. simpl rev.
      rewrite string_of_list_ascii_snoc, string_append_assoc. reflexivity.
Qed.

Lemma before_first_dot_no_dot s : has_dot (before_first_dot s) = false.
Proof.
  induction s as [|c s IH]; simpl; [reflexivity|].
  destruct (Ascii.eqb c ".") eqn:E; simpl; [reflexivity|].
  rewrite E. exact IH.
Qed.

Lemma before_first_dot_prefix s :
  exists rest, s = (before_first_dot s ++ rest)%string
               /\ (rest = "" \/ exists r, rest = String "." r).
Proof.
  induction s as [|c s (rest & Heq & Hrest)]; simpl.
  - exists "". split; [reflexivity|left; reflexivity].
  - destruct (Ascii.eqb c ".") eqn:E.
    + apply Ascii.eqb_eq in E. subst c. exists (String "." s).
      split; [reflexivity|]. right. eexists; reflexivity.
    + exists rest. split; [simpl; congruence|assumption].
Qed.

Lemma has_dot_count s : has_dot s = false <-> count_dots s = 0%nat.
Proof.
  induction s as [|c s IH]; simpl; [tauto|].
  destruct (Ascii.eqb c "."); simpl; [split; intros; discriminate|exact IH].
Qed.

Lemma single_dot_agree s :
  (count_dots s <= 1)%nat -> before_first_dot s = without_extension s.
Proof.
  induction s as [|c s IH]; simpl; [reflexivity|].
  destruct (Ascii.eqb c ".") eqn:E; simpl; intros H.
  - assert (Hs : has_dot s = false) by (apply has_dot_count; lia).
    rewrite Hs. reflexivity.
  - rewrite IH by assumption. destruct (has_dot s); reflexivity.
Qed.

(** Each clip of a row stores the prefix joined with the stripped path. *)
Lemma add_clip_path int_of_str int_of_float_str c nc ci fields path acc idx
      acc' :
  add_clip int_of_str int_of_float_str c nc ci fields path acc idx = Ok acc' ->
  l_path_to_videos acc'
  = l_path_to_videos acc ++ [Py.path_join (DATA_PATH_PREFIX c) path].
Proof.
  unfold add_clip, obind, of_option. intros H.
  repeat match type of H with
         | context [match ?x with _ => _ end] => destruct x; try discriminate
         end;
    injection H as <-; reflexivity.
Qed.

(** C9, as the specification states it, fails: for ["a.b.mp4"] the code
    keeps ["a"], the text before the first dot, where removing the
    trailing extension gives ["a.b"]; the row ["a.b.mp4 0 30"] is stored
    as ["/data/a"]. *)
Lemma strip_path_not_last_extension :
  strip_path "a.b.mp4" = "a"
  /\ without_extension "a.b.mp4" = "a.b"
  /\ ~ (forall path, strip_path path = without_extension path)
  /\ obind (Demo.load (Demo.config "pyav" "" None None 1 1) Train
              ["a.b.mp4 0 30"])
       (fun self => Ok (_path_to_videos self))
     = Ok ["/data/a"].
Proof.
  repeat split; try reflexivity.
  intros H. specialize (H "a.b.mp4"). vm_compute in H. discriminate.
Qed.

(** C9 (amended).  The stored path is built from the text of the original
    path before its first ['.']: that text has no dot, the original path
    is that text followed by nothing or by a dot and the rest, and for a
    path with at most one dot it is the path without its trailing
    extension. *)
Theorem strip_path_first_dot (path : string) :
  strip_path path = before_first_dot path
  /\ has_dot (strip_path path) = false
  /\ (exists rest, path = (strip_path path ++ rest)%string
                   /\ (rest = "" \/ exists r, rest = String "." r))
  /\ ((count_dots path <= 1)%nat -> strip_path path = without_extension path).
Proof.
  assert (H : strip_path path = before_first_dot path)
    by (unfold strip_path, Py.split_on; apply split_aux_dot_hd).
  rewrite H. split; [reflexivity|].
  split; [apply before_first_dot_no_dot|].
  split; [apply before_first_dot_prefix|apply single_dot_agree].
Qed.

Lemma strip_path_first_dot_witness :
  (count_dots "videos/x_1.mp4" <= 1)%nat
  /\ strip_path "videos/x_1.mp4" = without_extension "videos/x_1.mp4".
Proof.
  assert (H : (count_dots "videos/x_1.mp4" <= 1)%nat) by (vm_compute; lia).
  split; [exact H|].
  exact (proj2 (proj2 (proj2 (strip_path_first_dot "videos/x_1.mp4"))) H).
Defined.

(** ** Epoch multiplier *)

Lemma wrap_index_mod (self : Howto100m) (m index : Z) :
  em self = Some m -> 1 < m -> 0 < num_videos self ->
  wrap_index self index = Ok (index mod num_videos self).
Proof.
  intros Hem Hm Hn. unfold wrap_index. rewrite Hem.
  replace (1 <? m) with true by (symmetry; apply Z.ltb_lt; assumption).
  replace (num_videos self =? 0) with false
    by (symmetry; apply Z.eqb_neq; lia).
  reflexivity.
Qed.

(** ** RetryOrchestrator *)

(** *** What a call leaves untouched *)

Section Frame.

Context {X : Type} (proj : World -> X).

Lemma keeps_ret {A} (a : A) : keeps proj (ret a).
Proof. intros w. reflexivity. Qed.

Lemma keeps_raise {A} (e : PyExn) : keeps proj (@raise A e).
Proof. intros w. reflexivity. Qed.

Lemma keeps_gets {A} (f : World -> A) : keeps proj (gets f).
Proof. intros w. reflexivity. Qed.

Lemma keeps_lift {A} (e : PyExn) (o : option A) : keeps proj (lift e o).
Proof. destruct o; [apply keeps_ret|apply keeps_raise]. Qed.

Lemma keeps_bind {A B} (m : M A) (k : A -> M B) :
  keeps proj m -> (forall a, keeps proj (k a)) -> keeps proj (bind m k).
Proof.
  intros Hm Hk w. unfold bind. specialize (Hm w).
  destruct (m w) as [[a|e] w']; simpl in *.
  - rewrite Hk. exact Hm.
  - exact Hm.
Qed.

Lemma keeps_try {A} (m : M A) : keeps proj m -> keeps proj (try_ m).
Proof.
  intros Hm w. unfold try_. specialize (Hm w).
  destruct (m w) as [[a|e] w']; exact Hm.
Qed.

Lemma keeps_modify (f : World -> World) :
  (forall w, proj (f w) = proj w) -> keeps proj (modify f).
Proof. intros Hf w. apply Hf. Qed.

(** The component is neither the generator's position nor the log. *)
Hypothesis proj_rng : forall n w, proj (set_rng_pos n w) = proj w.
Hypothesis proj_log : forall r w, proj (add_log r w) = proj w.

Variable ext : External.

Lemma keeps_draw : keeps proj (draw ext).
Proof. intros w. apply proj_rng. Qed.

Ltac keeps_step :=
  match goal with
  | |- keeps _ (bind _ _) => apply keeps_bind; [|intros]
  | |- keeps _ (ret _) => apply keeps_ret
  | |- keeps _ (raise _) => apply keeps_raise
  | |- keeps _ (lift _ _) => apply keeps_lift
  | |- keeps _ (gets _) => apply keeps_gets
  | |- keeps _ (try_ _) => apply keeps_try
  | |- keeps _ (draw _) => apply keeps_draw
  | |- keeps _ (modify (add_log _)) => apply keeps_modify, proj_log
  | |- keeps _ (match ?x with _ => _ end) => destruct x
  end.

Lemma keeps_randint a b : keeps proj (randint ext a b).
Proof. unfold randint. repeat keeps_step. Qed.

Lemma keeps_call_get_start_end_idx vs cs ci nc :
  keeps proj (call_get_start_end_idx ext vs cs ci nc).
Proof. unfold call_get_start_end_idx. repeat keeps_step. Qed.

Lemma keeps_on_open_failure i index :
  keeps proj (on_open_failure ext i index).
Proof.
  unfold on_open_failure.
  repeat first [apply keeps_randint | keeps_step].
Qed.

Lemma keeps_on_decode_failure i index :
  keeps proj (on_decode_failure ext i index).
Proof.
  unfold on_decode_failure.
  repeat first [apply keeps_randint | keeps_step].
Qed.

(** The caption block: the table it edits is the copy it has read. *)
Lemma keeps_align_caption index s e :
  keeps proj (align_caption ext index s e).
Proof.
  unfold align_caption.
  repeat first [apply keeps_randint | keeps_step].
Qed.

Lemma keeps_rederive tsi s e : keeps proj (rederive ext tsi s e).
Proof.
  unfold rederive.
  repeat first [apply keeps_call_get_start_end_idx | keeps_step].
Qed.

Lemma keeps_fix_end tsi index s e : keeps proj (fix_end ext tsi index s e).
Proof.
  unfold fix_end.
  repeat first [apply keeps_call_get_start_end_idx | keeps_step].
Qed.

Lemma keeps_plan_window tsi index : keeps proj (plan_window ext tsi index).
Proof.
  unfold plan_window.
  repeat first [apply keeps_call_get_start_end_idx
               | apply keeps_align_caption
               | apply keeps_rederive | apply keeps_fix_end | keeps_step].
Qed.

Lemma keeps_attempt tsi ssi sci i index :
  keeps proj (attempt ext tsi ssi sci i index).
Proof.
  unfold attempt.
  repeat first [apply keeps_on_open_failure | apply keeps_on_decode_failure
               | apply keeps_plan_window | keeps_step].
Qed.

(** ... nor the count of rounds. *)
Hypothesis proj_trial : forall w, proj (add_trial w) = proj w.

Lemma keeps_retry_loop tsi ssi sci n :
  forall i index, keeps proj (retry_loop ext tsi ssi sci n i index).
Proof.
  induction n as [|n IH]; intros i index; cbn [retry_loop].
  - apply keeps_ret.
  - apply keeps_bind; [apply keeps_modify, proj_trial|intros _].
    apply keeps_bind; [apply keeps_attempt|intros [idx|r]].
    + apply IH.
    + apply keeps_ret.
Qed.

Lemma keeps_getitem index sci : keeps proj (__getitem__ ext index sci).
Proof.
  unfold __getitem__.
  apply keeps_bind; [apply keeps_gets|intros self].
  destruct (obind _ _) as [[idx [tsi ssi]]|e].
  - apply keeps_retry_loop.
  - apply keeps_raise.
Qed.

End Frame.

(** C10.  A call of [__getitem__] ends, with a result or an exception,
    in a world whose dataset object is the one it started with, in
    particular the six arrays built at load time, and whose caption
    tables on disk are unchanged: the rows that the minimum-length merge
    overwrites belong to the table read within the call. *)
Theorem getitem_frame (ext : External) (index : Z) (sci : option Z)
    (w : World) :
  let w' := snd (__getitem__ ext index sci w) in
  self_ w' = self_ w
  /\ (_path_to_videos (self_ w') = _path_to_videos (self_ w)
      /\ _labels (self_ w') = _labels (self_ w)
      /\ _durations (self_ w') = _durations (self_ w)
      /\ _start (self_ w') = _start (self_ w)
      /\ _end (self_ w') = _end (self_ w)
      /\ _spatial_temporal_idx (self_ w') = _spatial_temporal_idx (self_ w))
  /\ disk w' = disk w.
Proof.
  intros w'.
  assert (Hself : self_ w' = self_ w)
    by (apply (keeps_getitem self_); reflexivity).
  assert (Hdisk : disk w' = disk w)
    by (apply (keeps_getitem disk); reflexivity).
  rewrite Hself. repeat split; try reflexivity. exact Hdisk.
Qed.

(** On the two-row table the merge rewrites row 1 of its copy to
    ["a b a b a b"]; the file still holds ["a b"], and a second call
    returns what the first one did. *)
Example caption_merge_is_local :
  let first := __getitem__ Demo.working 0 None Demo.ffmpeg_val_captions in
  let second := __getitem__ Demo.working 0 None (snd first) in
  option_map (fun r => option_map p_text (r_text r))
    match fst first with Ok r => r | Raise _ => None end
  = Some (Some (Some "a b a b a b"))
  /\ disk (snd first) "/caps/v0.csv" = Some Demo.rows_xa
  /\ fst second = fst first.
Proof. repeat split; reflexivity. Qed.

(** *** The retry budget *)

Section Retry.

Variable ext : External.

Lemma retry_loop_S tsi ssi sci n i index w :
  retry_loop ext tsi ssi sci (S n) i index w
  = match attempt ext tsi ssi sci i index (add_trial w) with
    | (Ok (Continue index'), w') =>
        retry_loop ext tsi ssi sci n (S i) index' w'
    | (Ok (Return r), w') => (Ok (Some r), w')
    | (Raise e, w') => (Raise e, w')
    end.
Proof.
  cbn [retry_loop]. unfold bind at 1. unfold modify at 1.
  unfold bind at 1.
  destruct (attempt ext tsi ssi sci i index (add_trial w))
    as [[[idx|r]|e] w']; reflexivity.
Qed.

Lemma attempt_keeps_trials tsi ssi sci i index :
  keeps trials (attempt ext tsi ssi sci i index).
Proof. apply keeps_attempt; reflexivity. Qed.

Lemma retry_loop_trials tsi ssi sci n :
  forall i index w,
    (trials (snd (retry_loop ext tsi ssi sci n i index w))
     <= trials w + n)%nat.
Proof.
  induction n as [|n IH]; intros i index w.
  - simpl. lia.
  - rewrite retry_loop_S.
    pose proof (attempt_keeps_trials tsi ssi sci i index (add_trial w))
      as Hk.
    destruct (attempt ext tsi ssi sci i index (add_trial w))
      as [[[idx|r]|e] w']; simpl in Hk; simpl snd.
    + specialize (IH (S i) idx w'). lia.
    + lia.
    + lia.
Qed.

Lemma retry_loop_exhausted tsi ssi sci n :
  forall i index w,
    every_attempt_fails ext tsi ssi sci n i index w ->
    exists w',
      retry_loop ext tsi ssi sci n i index w = (Ok None, w')
      /\ trials w' = (trials w + n)%nat.
Proof.
  induction n as [|n IH]; intros i index w H.
  - exists w. split; [reflexivity|lia].
  - destruct H as (idx & w1 & Hat & Hrest).
    rewrite retry_loop_S, Hat.
    destruct (IH _ _ _ Hrest) as (w' & Hrun & Htr).
    exists w'. split; [assumption|].
    pose proof (attempt_keeps_trials tsi ssi sci i index (add_trial w))
      as Hk.
    rewrite Hat in Hk. simpl in Hk. lia.
Qed.

Lemma getitem_unfold index sci w index' tsi ssi :
  wrap_index (self_ w) index = Ok index' ->
  sample_indices (self_ w) index' = Ok (tsi, ssi) ->
  __getitem__ ext index sci w
  = retry_loop ext tsi ssi sci (Z.to_nat (_num_retries (self_ w))) 0
      index' w.
Proof.
  intros Hw Hs. unfold __getitem__, bind, gets. rewrite Hw. cbn [obind].
  rewrite Hs. reflexivity.
Qed.

Lemma getitem_trials index sci w :
  (trials (snd (__getitem__ ext index sci w))
   <= trials w + Z.to_nat (_num_retries (self_ w)))%nat.
Proof.
  unfold __getitem__, bind, gets.
  destruct (obind _ _) as [[idx [tsi ssi]]|e].
  - apply retry_loop_trials.
  - simpl. lia.
Qed.

(** C6.  The default budget is 20; a call enters the loop body at most
    [num_retries] times; and when every one of the [num_retries] rounds
    ends in [continue] the call returns Python's [None], raising
    nothing, after exactly [num_retries] rounds. *)
Theorem getitem_retry_budget (index : Z) (sci : option Z) (w : World) :
  let n := Z.to_nat (_num_retries (self_ w)) in
  default_num_retries = 20
  /\ (trials (snd (__getitem__ ext index sci w)) <= trials w + n)%nat
  /\ (forall index' tsi ssi,
        wrap_index (self_ w) index = Ok index' ->
        sample_indices (self_ w) index' = Ok (tsi, ssi) ->
        every_attempt_fails ext tsi ssi sci n 0 index' w ->
        exists w',
          __getitem__ ext index sci w = (Ok None, w')
          /\ trials w' = (trials w + n)%nat).
Proof.
  intros n. split; [reflexivity|]. split; [apply getitem_trials|].
  intros index' tsi ssi Hw Hs Hall.
  rewrite (getitem_unfold _ _ _ _ _ _ Hw Hs).
  apply retry_loop_exhausted. exact Hall.
Qed.

(** *** Index substitution after a failure *)

Lemma randint_draw (w : World) (n : Z) :
  0 < n ->
  randint ext 0 (n - 1) w
  = (Ok (entropy ext (rng_pos w) mod n), set_rng_pos (S (rng_pos w)) w).
Proof.
  intros Hn. unfold randint, Py.randint.
  replace (n - 1 <? 0) with false by (symmetry; apply Z.ltb_ge; lia).
  unfold bind, draw, lift, ret. simpl.
  replace (n - 1 - 0 + 1) with n by lia. reflexivity.
Qed.

(** A round whose container cannot be opened ends with what
    [on_open_failure] decides. *)
Lemma attempt_open_failure tsi ssi sci i index w path :
  String.eqb (DATA_DECODING_BACKEND (cfg (self_ w))) "ffmpeg" = false ->
  Py.getitem (_path_to_videos (self_ w)) index = Some path ->
  get_video_container ext i path = None ->
  attempt ext tsi ssi sci i index w
  = match on_open_failure ext i index w with
    | (Ok index', w') => (Ok (Continue index'), w')
    | (Raise e, w') => (Raise e, w')
    end.
Proof.
  intros Hb Hp Hc. unfold attempt. unfold bind at 1. unfold gets at 1.
  cbv beta iota. rewrite Hb, Hp, Hc. unfold bind at 1. unfold ret at 1.
  cbv beta iota. unfold bind at 1.
  destruct (on_open_failure ext i index w) as [[idx|e] w']; reflexivity.
Qed.

(** What the two handlers return, in any world. *)
Lemma failure_handlers (w : World) (i_try : nat) (index : Z)
    (path : string) :
  let self := self_ w in
  let half := _num_retries self / 2 in
  let drawn := entropy ext (rng_pos w) mod num_videos self in
  Py.getitem (_path_to_videos self) index = Some path ->
  0 <= drawn < num_videos self
  /\ (mode self <> Test ->
      on_decode_failure ext i_try index w
      = (Ok drawn,
         set_rng_pos (S (rng_pos w))
           (add_log (FailedDecode index i_try) w)))
  /\ (mode self = Test -> half < Z.of_nat i_try ->
      on_decode_failure ext i_try index w
      = (Ok drawn,
         set_rng_pos (S (rng_pos w))
           (add_log (FailedDecode index i_try) w)))
  /\ (mode self = Test -> Z.of_nat i_try <= half ->
      on_decode_failure ext i_try index w
      = (Ok index, add_log (FailedDecode index i_try) w))
  /\ (mode self <> Test -> half < Z.of_nat i_try ->
      on_open_failure ext i_try index w
      = (Ok drawn,
         set_rng_pos (S (rng_pos w))
           (add_log (FailedMetaLoad index i_try) w)))
  /\ (mode self = Test \/ Z.of_nat i_try <= half ->
      on_open_failure ext i_try index w
      = (Ok index, add_log (FailedMetaLoad index i_try) w)).
Proof.
  intros self half drawn Hpath.
  assert (HN : 0 < num_videos self)
    by (eapply getitem_Some_length; exact Hpath).
  split; [apply Z.mod_pos_bound; assumption|].
  unfold on_decode_failure, on_open_failure, bind, gets, modify.
  fold self. rewrite Hpath. simpl lift. unfold ret at 1 3 5 7 9.
  cbv beta iota.
  repeat split.
  - intros Hm. destruct (mode self) eqn:E; try congruence; simpl;
      rewrite randint_draw by assumption; reflexivity.
  - intros Hm Hi. rewrite Hm. simpl.
    replace (_num_retries self / 2 <? Z.of_nat i_try) with true
      by (symmetry; apply Z.ltb_lt; assumption).
    unfold ret. rewrite randint_draw by assumption. reflexivity.
  - intros Hm Hi. rewrite Hm. simpl.
    replace (_num_retries self / 2 <? Z.of_nat i_try) with false
      by (symmetry; apply Z.ltb_ge; assumption).
    reflexivity.
  - intros Hm Hi.
    replace (_num_retries self / 2 <? Z.of_nat i_try) with true
      by (symmetry; apply Z.ltb_lt; assumption).
    destruct (mode self) eqn:E; try congruence; simpl;
      rewrite randint_draw by assumption; reflexivity.
  - intros [Hm|Hi].
    + rewrite Hm. reflexivity.
    + replace (_num_retries self / 2 <? Z.of_nat i_try) with false
        by (symmetry; apply Z.ltb_ge; assumption).
      rewrite andb_false_r. reflexivity.
Qed.


(** A round that decodes no frames ends with what [on_decode_failure]
    decides, in the world that planning the window has left. *)
Lemma attempt_decode_failure tsi ssi sci i index w w2 :
  decode_fails ext tsi i index w w2 ->
  attempt ext tsi ssi sci i index w
  = match on_decode_failure ext i index w2 with
    | (Ok index', w') => (Ok (Continue index'), w')
    | (Raise e, w') => (Raise e, w')
    end.
Proof.
  intros (path & duration & start & end_ & al & Hp & Hd & Hplan & Hdec).
  pose proof (keeps_plan_window self_ ltac:(reflexivity) ext tsi index w)
    as Ks.
  rewrite Hplan in Ks. cbn [fst snd] in Ks.
  unfold attempt. unfold bind at 1. unfold gets at 1. cbv beta iota.
  unfold bind at 1. rewrite Hp.
  destruct (String.eqb (DATA_DECODING_BACKEND (cfg (self_ w))) "ffmpeg").
  - unfold ret at 1. cbv beta iota. unfold bind at 1. rewrite Hplan.
    cbv beta iota. unfold bind at 1. rewrite Hd. cbn [lift]. unfold ret at 1.
    cbv beta iota. unfold bind at 1. rewrite Hdec. unfold ret at 1.
    cbv beta iota. unfold bind at 1.
    destruct (on_decode_failure ext i index w2) as [[idx|e] w']; reflexivity.
  - destruct Hdec as (vc & Hvc & Hmeta & Hnone). rewrite Hvc.
    unfold ret at 1. cbv beta iota. unfold bind at 1. rewrite Hplan.
    cbv beta iota. unfold bind at 1. rewrite Hd. cbn [lift]. unfold ret at 1.
    cbv beta iota. unfold bind at 1. rewrite Hmeta, Hnone. unfold ret at 1.
    cbv beta iota. unfold bind at 1.
    destruct (on_decode_failure ext i index w2) as [[idx|e] w']; reflexivity.
Qed.

(** C2 (amended).  With the index in range, a round of the loop that
    fails hands the next round its index as follows.  After a decode
    that gave no frames, a train or val dataset replaces the index at
    once by the draw [entropy mod N], which lies in [[0, N-1]], and a
    test dataset does so only when [i_try > num_retries // 2] and
    otherwise keeps the index; after a container that could not be
    opened, the index is replaced only for a train or val dataset and
    only when [i_try > num_retries // 2], and kept otherwise.  The draw
    is read where the generator stands when the handler runs: after the
    window has been planned on the decode path. *)
Theorem failure_substitution (tsi ssi : Z) (sci : option Z) (n i_try : nat)
    (index : Z) (path : string) (w w2 : World) :
  let self := self_ w in
  let half := _num_retries self / 2 in
  let drawn w1 := entropy ext (rng_pos w1) mod num_videos self in
  let after_draw rec w1 := set_rng_pos (S (rng_pos w1)) (add_log rec w1) in
  let this_round := retry_loop ext tsi ssi sci (S n) i_try index w in
  let next_round := retry_loop ext tsi ssi sci n (S i_try) in
  Py.getitem (_path_to_videos self) index = Some path ->
  (forall w1, 0 <= drawn w1 < num_videos self)
  /\ (decode_fails ext tsi i_try index (add_trial w) w2 ->
      (mode self <> Test ->
       this_round
       = next_round (drawn w2) (after_draw (FailedDecode index i_try) w2))
      /\ (mode self = Test -> half < Z.of_nat i_try ->
          this_round
          = next_round (drawn w2) (after_draw (FailedDecode index i_try) w2))
      /\ (mode self = Test -> Z.of_nat i_try <= half ->
          this_round
          = next_round index (add_log (FailedDecode index i_try) w2)))
  /\ (open_fails ext i_try index (add_trial w) ->
      (mode self <> Test -> half < Z.of_nat i_try ->
       this_round
       = next_round (drawn (add_trial w))
           (after_draw (FailedMetaLoad index i_try) (add_trial w)))
      /\ (mode self = Test \/ Z.of_nat i_try <= half ->
          this_round
          = next_round index
              (add_log (FailedMetaLoad index i_try) (add_trial w))))
  /\ (mode self <> Test ->
      on_decode_failure ext i_try index w
      = (Ok (drawn w), after_draw (FailedDecode index i_try) w))
  /\ (mode self = Test -> half < Z.of_nat i_try ->
      on_decode_failure ext i_try index w
      = (Ok (drawn w), after_draw (FailedDecode index i_try) w))
  /\ (mode self = Test -> Z.of_nat i_try <= half ->
      on_decode_failure ext i_try index w
      = (Ok index, add_log (FailedDecode index i_try) w))
  /\ (mode self <> Test -> half < Z.of_nat i_try ->
      on_open_failure ext i_try index w
      = (Ok (drawn w), after_draw (FailedMetaLoad index i_try) w))
  /\ (mode self = Test \/ Z.of_nat i_try <= half ->
      on_open_failure ext i_try index w
      = (Ok index, add_log (FailedMetaLoad index i_try) w)).
Proof.
  intros self half drawn after_draw this_round next_round Hpath.
  assert (HN : 0 < num_videos self)
    by (eapply getitem_Some_length; exact Hpath).
  destruct (failure_handlers w i_try index path Hpath)
    as (_ & D1 & D2 & D3 & O1 & O2).
  split; [intros w1; apply Z.mod_pos_bound; exact HN|].
  split; [|split; [|repeat split; assumption]].
  - intros Hdec.
    assert (Ks : self_ w2 = self).
    { destruct Hdec as (p0 & d0 & s0 & e0 & al & _ & _ & Hplan & _).
      pose proof (keeps_plan_window self_ ltac:(reflexivity) ext tsi index
                    (add_trial w)) as Ks.
      rewrite Hplan in Ks. exact Ks. }
    assert (Hp2 : Py.getitem (_path_to_videos (self_ w2)) index = Some path)
      by (rewrite Ks; exact Hpath).
    destruct (failure_handlers w2 i_try index path Hp2)
      as (_ & E1 & E2 & E3 & _). rewrite Ks in E1, E2, E3.
    subst this_round. rewrite retry_loop_S.
    rewrite (attempt_decode_failure _ _ _ _ _ _ _ Hdec).
    split; [|split].
    + intros Hm. rewrite (E1 Hm). reflexivity.
    + intros Hm Hi. rewrite (E2 Hm Hi). reflexivity.
    + intros Hm Hi. rewrite (E3 Hm Hi). reflexivity.
  - intros (Hb & p0 & Hp0 & Hvc).
    assert (Hp1 : Py.getitem (_path_to_videos (self_ (add_trial w))) index
                  = Some path) by exact Hpath.
    destruct (failure_handlers (add_trial w) i_try index path Hp1)
      as (_ & _ & _ & _ & P1 & P2).
    subst this_round. rewrite retry_loop_S.
    rewrite (attempt_open_failure _ _ _ _ _ _ p0 Hb Hp0 Hvc).
    split.
    + intros Hm Hi. rewrite (P1 Hm Hi). reflexivity.
    + intros H. rewrite (P2 H). reflexivity.
Qed.

End Retry.

(** C2, as the specification states it, fails on a container that cannot
    be opened: a train dataset at trial 0 keeps index 0 and draws
    nothing, although a draw would have given index 1; over the whole
    call the index stays 0 through trial 11. *)
Lemma open_failure_keeps_index :
  mode (self_ Demo.pyav_train) = Train
  /\ attempt Demo.broken (-1) (-1) None 0 0 Demo.pyav_train
     = (Ok (Continue 0), add_log (FailedMetaLoad 0 0) Demo.pyav_train)
  /\ rng_pos (add_log (FailedMetaLoad 0 0) Demo.pyav_train)
     = rng_pos Demo.pyav_train
  /\ Py.randint 0 (num_videos (self_ Demo.pyav_train) - 1)
       (entropy Demo.broken (rng_pos Demo.pyav_train)) = Some 1
  /\ log (snd (__getitem__ Demo.broken 0 None Demo.pyav_train))
     = [FailedMetaLoad 0 0; FailedMetaLoad 0 1; FailedMetaLoad 0 2;
        FailedMetaLoad 0 3; FailedMetaLoad 0 4; FailedMetaLoad 0 5;
        FailedMetaLoad 0 6; FailedMetaLoad 0 7; FailedMetaLoad 0 8;
        FailedMetaLoad 0 9; FailedMetaLoad 0 10; FailedMetaLoad 0 11;
        FailedMetaLoad 1 12; FailedMetaLoad 1 13; FailedMetaLoad 1 14;
        FailedMetaLoad 1 15; FailedMetaLoad 1 16; FailedMetaLoad 1 17;
        FailedMetaLoad 1 18; FailedMetaLoad 1 19].
Proof. repeat split; reflexivity. Qed.

Lemma failure_substitution_witness :
  let w := Demo2.ffmpeg_train in
  let w2 := set_rng_pos 1 (add_trial w) in
  Py.getitem (_path_to_videos (self_ w)) 0 = Some "/data/v0"
  /\ decode_fails Demo.broken (-1) 0 0 (add_trial w) w2
  /\ mode (self_ w) <> Test
  /\ retry_loop Demo.broken (-1) (-1) None 1 0 0 w
     = retry_loop Demo.broken (-1) (-1) None 0 1
         (entropy Demo.broken (rng_pos w2) mod num_videos (self_ w))
         (set_rng_pos (S (rng_pos w2)) (add_log (FailedDecode 0 0) w2)).
Proof.
  cbv zeta.
  assert (H : Py.getitem (_path_to_videos (self_ Demo2.ffmpeg_train)) 0
              = Some "/data/v0") by reflexivity.
  assert (Hd : decode_fails Demo.broken (-1) 0 0
                 (add_trial Demo2.ffmpeg_train)
                 (set_rng_pos 1 (add_trial Demo2.ffmpeg_train))).
  { exists "/data/v0", 30.
    eexists. eexists. eexists.
    split; [reflexivity|]. split; [reflexivity|].
    split; [vm_compute; reflexivity|]. reflexivity. }
  assert (Hm : mode (self_ Demo2.ffmpeg_train) <> Test) by discriminate.
  split; [exact H|]. split; [exact Hd|]. split; [exact Hm|].
  exact (proj1 (proj1 (proj2
           (failure_substitution Demo.broken (-1) (-1) None 0 0 0 "/data/v0"
              Demo2.ffmpeg_train
              (set_rng_pos 1 (add_trial Demo2.ffmpeg_train)) H)) Hd) Hm).
Defined.

Lemma every_attempt_fails_step ext tsi ssi sci n i index w index' w' :
  attempt ext tsi ssi sci i index (add_trial w) = (Ok (Continue index'), w') ->
  every_attempt_fails ext tsi ssi sci n (S i) index' w' ->
  every_attempt_fails ext tsi ssi sci (S n) i index w.
Proof. intros H1 H2. exists index', w'. split; assumption. Qed.

Lemma getitem_retry_budget_witness :
  (wrap_index (self_ Demo.pyav_train) 0 = Ok 0
   /\ sample_indices (self_ Demo.pyav_train) 0 = Ok (-1, -1)
   /\ every_attempt_fails Demo.broken (-1) (-1) None 20 0 0 Demo.pyav_train)
  /\ exists w',
       __getitem__ Demo.broken 0 None Demo.pyav_train = (Ok None, w')
       /\ trials w' = (trials Demo.pyav_train + 20)%nat.
Proof.
  assert (H1 : wrap_index (self_ Demo.pyav_train) 0 = Ok 0) by reflexivity.
  assert (H2 : sample_indices (self_ Demo.pyav_train) 0 = Ok (-1, -1))
    by reflexivity.
  assert (H3 : every_attempt_fails Demo.broken (-1) (-1) None 20 0 0
                 Demo.pyav_train).
  { repeat (eapply every_attempt_fails_step; [vm_compute; reflexivity|]).
    exact I. }
  split; [repeat split; assumption|].
  exact (proj2 (proj2 (getitem_retry_budget Demo.broken 0 None Demo.pyav_train))
           0 (-1) (-1) H1 H2 H3).
Defined.

(** * Further properties *)

(** ** Subscripts *)

Lemma set_nth_same {A : Type} (l : list A) (k : nat) (x : A) :
  nth_error l k = Some x -> Py.set_nth l k x = l.
Proof.
  revert k. induction l as [|h t IH]; intros [|k] H; simpl in *;
    try discriminate.
  - congruence.
  - rewrite IH by assumption. reflexivity.
Qed.

Lemma getitem_nth_error {A : Type} (l : list A) (i : Z) (x : A) :
  Py.getitem l i = Some x ->
  nth_error l (Z.to_nat (if i <? 0 then Z.of_nat (List.length l) + i else i))
  = Some x.
Proof.
  unfold Py.getitem. intros H.
  destruct ((0 <=? i) && (i <? Z.of_nat (List.length l))) eqn:E1.
  - apply andb_true_iff in E1. destruct E1 as [E1 _]. apply Z.leb_le in E1.
    replace (i <? 0) with false by (symmetry; apply Z.ltb_ge; lia).
    exact H.
  - destruct ((- Z.of_nat (List.length l) <=? i) && (i <? 0)) eqn:E2;
      [|discriminate].
    apply andb_true_iff in E2. destruct E2 as [_ E2]. rewrite E2. exact H.
Qed.

Lemma getitem_out_of_range {A : Type} (l : list A) (i : Z) :
  i < - Z.of_nat (List.length l) \/ Z.of_nat (List.length l) <= i ->
  Py.getitem l i = None.
Proof.
  intros H. unfold Py.getitem.
  replace ((0 <=? i) && (i <? Z.of_nat (List.length l))) with false.
  2:{ symmetry. apply andb_false_iff.
      destruct (Z.le_gt_cases 0 i); [right; apply Z.ltb_ge|left; apply Z.leb_gt];
        lia. }
  replace ((- Z.of_nat (List.length l) <=? i) && (i <? 0)) with false;
    [reflexivity|].
  symmetry. apply andb_false_iff.
  destruct (Z.le_gt_cases 0 i); [right; apply Z.ltb_ge|left; apply Z.leb_gt];
    lia.
Qed.


(** ** ManifestStore: what a constructed dataset looks like *)

Section LoaderFacts.

Variable int_of_str : string -> option Z.
Variable int_of_float_str : string -> option Z.

Lemma add_clip_fields c nc ci fields path acc idx acc' :
  add_clip int_of_str int_of_float_str c nc ci fields path acc idx = Ok acc' ->
  exists p lab dur s e,
    l_path_to_videos acc' = l_path_to_videos acc ++ [p]
    /\ l_labels acc' = l_labels acc ++ [lab]
    /\ l_durations acc' = l_durations acc ++ [dur]
    /\ l_start acc' = l_start acc ++ [s]
    /\ l_end acc' = l_end acc ++ [e]
    /\ l_spatial_temporal_idx acc' = l_spatial_temporal_idx acc ++ [idx]
    /\ l_video_meta acc' = dict_set_key (l_video_meta acc) (ci * nc + idx).
Proof.
  unfold add_clip, obind, of_option. intros H.
  repeat match type of H with
         | context [match ?x with _ => _ end] => destruct x; try discriminate
         end;
    injection H as <-; cbn; repeat eexists.
Qed.

Lemma existsb_seq_fresh (k : nat) :
  existsb (Z.eqb (Z.of_nat k)) (map Z.of_nat (seq 0 k)) = false.
Proof.
  apply not_true_is_false. intros H. apply existsb_exists in H.
  destruct H as (x & Hin & Hx). apply Z.eqb_eq in Hx. subst x.
  apply in_map_iff in Hin. destruct Hin as (j & Hj & Hin).
  apply in_seq in Hin. lia.
Qed.

Lemma add_clip_aligned c (n : nat) ci fields path acc (idx : nat) acc' :
  (idx < n)%nat ->
  loaded_aligned (Z.of_nat n) (ci * n + idx) acc ->
  add_clip int_of_str int_of_float_str c (Z.of_nat n) (Z.of_nat ci) fields
    path acc (Z.of_nat idx) = Ok acc' ->
  loaded_aligned (Z.of_nat n) (ci * n + S idx) acc'.
Proof.
  intros Hidx (H1 & H2 & H3 & H4 & H5 & H6 & H7) Hadd.
  destruct (add_clip_fields _ _ _ _ _ _ _ _ Hadd)
    as (p & lab & dur & s & e & E1 & E2 & E3 & E4 & E5 & E6 & E7).
  replace (ci * n + S idx)%nat with (S (ci * n + idx)) by lia.
  unfold loaded_aligned.
  rewrite E1, E2, E3, E4, E5, E6, E7, !length_app, H1, H2, H3, H4, H5, H6, H7.
  cbn [List.length].
  repeat split; try lia.
  - rewrite seq_S, map_app. cbn [map Nat.add]. f_equal. f_equal.
    rewrite Nat2Z.inj_add, Nat2Z.inj_mul.
    rewrite Z.add_comm, Z.mod_add by lia.
    symmetry. apply Z.mod_small. lia.
  - unfold dict_set_key.
    replace (Z.of_nat ci * Z.of_nat n + Z.of_nat idx)
      with (Z.of_nat (ci * n + idx)) by lia.
    rewrite existsb_seq_fresh, seq_S, map_app. reflexivity.
Qed.

Lemma add_clips_aligned c (n : nat) ci fields path :
  forall (m a : nat) acc acc',
    (a + m <= n)%nat ->
    loaded_aligned (Z.of_nat n) (ci * n + a) acc ->
    add_clips int_of_str int_of_float_str c (Z.of_nat n) (Z.of_nat ci) fields
      path (seq a m) acc = Ok acc' ->
    loaded_aligned (Z.of_nat n) (ci * n + (a + m)) acc'.
Proof.
  induction m as [|m IH]; intros a acc acc' Hle Hinv Hrun.
  - cbn in Hrun. injection Hrun as <-. rewrite Nat.add_0_r. assumption.
  - cbn [seq add_clips] in Hrun. unfold obind in Hrun at 1.
    destruct (add_clip _ _ _ _ _ _ _ _ _) as [acc1|] eqn:E; [|discriminate].
    apply (add_clip_aligned c n ci fields path acc a acc1) in E;
      [|lia|assumption].
    replace (a + S m)%nat with (S a + m)%nat by lia.
    apply (IH (S a) acc1); [lia|assumption|assumption].
Qed.

Lemma add_line_aligned c nc ci line acc acc' :
  loaded_aligned nc (ci * Z.to_nat nc) acc ->
  add_line int_of_str int_of_float_str c nc acc ci line = Ok acc' ->
  loaded_aligned nc (S ci * Z.to_nat nc) acc'
  /\ row_ok (DATA_PATH_LABEL_SEPARATOR c) line.
Proof.
  intros Hinv Hrun. unfold add_line, obind, of_option in Hrun.
  destruct (Py.split (DATA_PATH_LABEL_SEPARATOR c) line) as [fields|] eqn:Es;
    [|discriminate].
  destruct (negb _) eqn:En; [discriminate|].
  apply negb_false_iff in En.
  split.
  - destruct (Z.le_gt_cases 0 nc) as [Hnc|Hnc].
    + rewrite <- (Z2Nat.id nc Hnc) in Hrun, Hinv |- * at 1.
      rewrite Nat2Z.id in *.
      replace (S ci * Z.to_nat nc)%nat
        with (ci * Z.to_nat nc + (0 + Z.to_nat nc))%nat by lia.
      eapply add_clips_aligned; [| |exact Hrun]; [lia|].
      rewrite Nat.add_0_r. exact Hinv.
    + replace (Z.to_nat nc) with 0%nat in * by lia.
      cbn in Hrun. injection Hrun as <-.
      rewrite Nat.mul_0_r in *. exact Hinv.
  - exists fields. split; [exact Es|].
    apply orb_true_iff in En. destruct En as [En|En];
      [apply orb_true_iff in En; destruct En as [En|En]|];
      apply Nat.eqb_eq in En; auto.
Qed.

Lemma add_lines_aligned c nc :
  forall lines ci acc acc',
    loaded_aligned nc (ci * Z.to_nat nc) acc ->
    add_lines int_of_str int_of_float_str c nc ci lines acc = Ok acc' ->
    loaded_aligned nc ((ci + List.length lines) * Z.to_nat nc) acc'
    /\ Forall (row_ok (DATA_PATH_LABEL_SEPARATOR c)) lines.
Proof.
  induction lines as [|line lines IH]; intros ci acc acc' Hinv Hrun.
  - cbn in Hrun. injection Hrun as <-. cbn [List.length].
    rewrite Nat.add_0_r. split; [assumption|constructor].
  - cbn [add_lines] in Hrun. unfold obind in Hrun at 1.
    destruct (add_line _ _ _ _ _ _ _) as [acc1|] eqn:E; [|discriminate].
    destruct (add_line_aligned _ _ _ _ _ _ Hinv E) as [Hinv1 Hrow].
    destruct (IH (S ci) acc1 acc' Hinv1 Hrun) as [Hinv2 Hrows].
    split; [|constructor; assumption].
    cbn [List.length]. replace (ci + S (List.length lines))%nat
      with (S ci + List.length lines)%nat by lia.
    exact Hinv2.
Qed.

Lemma construct_loader_aligned c nc file l :
  _construct_loader int_of_str int_of_float_str c nc file = Ok l ->
  exists lines,
    file = Some lines
    /\ loaded_aligned nc (List.length lines * Z.to_nat nc) l
    /\ (0 < List.length lines * Z.to_nat nc)%nat
    /\ Forall (row_ok (DATA_PATH_LABEL_SEPARATOR c)) lines.
Proof.
  unfold _construct_loader, obind. intros H.
  destruct file as [lines|]; [|discriminate].
  destruct (add_lines _ _ _ _ _ _ _) as [l1|] eqn:E; [|discriminate].
  destruct (0 <? List.length (l_path_to_videos l1))%nat eqn:Epos;
    [|discriminate].
  injection H as <-.
  destruct (add_lines_aligned c nc lines 0%nat empty_loaded l1) as [Hinv Hrows].
  - repeat split; reflexivity.
  - exact E.
  - exists lines. split; [reflexivity|]. cbn [Nat.add] in Hinv.
    split; [exact Hinv|]. split; [|exact Hrows].
    apply Nat.ltb_lt in Epos. destruct Hinv as (H1 & _). lia.
Qed.

(** Everything [__init__] guarantees about the arrays it has built. *)
Lemma init_loaded c m nr file self :
  __init__ int_of_str int_of_float_str c m nr file = Ok self ->
  exists lines,
    file = Some lines
    /\ (0 < List.length lines * Z.to_nat (_num_clips self))%nat
    /\ loaded_aligned (_num_clips self)
         (List.length lines * Z.to_nat (_num_clips self))
         {| l_path_to_videos := _path_to_videos self;
            l_labels := _labels self;
            l_durations := _durations self;
            l_start := _start self;
            l_end := _end self;
            l_spatial_temporal_idx := _spatial_temporal_idx self;
            l_tmp := [];
            l_video_meta := _video_meta self |}
    /\ mode self = m
    /\ TEST_NUM_SPATIAL_CROPS (cfg self) = TEST_NUM_SPATIAL_CROPS c
    /\ _num_clips self
       = match m with
         | Train | Val => 1
         | Test => TEST_NUM_ENSEMBLE_VIEWS c * TEST_NUM_SPATIAL_CROPS c
         end.
Proof.
  unfold __init__, obind. intros H.
  destruct (_construct_loader _ _ _ _ _) as [l|] eqn:E; [|discriminate].
  injection H as <-. cbn.
  destruct (construct_loader_aligned _ _ _ _ E)
    as (lines & -> & Hal & Hpos & _).
  exists lines. split; [reflexivity|]. split; [exact Hpos|].
  split; [exact Hal|]. split; [reflexivity|]. split; [|reflexivity].
  destruct (MODEL_NUM_SEG c) as [seg|]; [|reflexivity].
  destruct (0 <? seg); reflexivity.
Qed.

(** X1.  A dataset that [__init__] returns is not empty, and its six
    arrays have one length: the number of manifest rows times
    [_num_clips]. *)
Theorem init_arrays_aligned c m nr file self :
  __init__ int_of_str int_of_float_str c m nr file = Ok self ->
  exists lines,
    file = Some lines
    /\ (0 < List.length lines * Z.to_nat (_num_clips self))%nat
    /\ List.length (_path_to_videos self)
       = (List.length lines * Z.to_nat (_num_clips self))%nat
    /\ List.length (_labels self) = List.length (_path_to_videos self)
    /\ List.length (_durations self) = List.length (_path_to_videos self)
    /\ List.length (_start self) = List.length (_path_to_videos self)
    /\ List.length (_end self) = List.length (_path_to_videos self)
    /\ List.length (_spatial_temporal_idx self)
       = List.length (_path_to_videos self).
Proof.
  intros H. destruct (init_loaded _ _ _ _ _ H)
    as (lines & Hf & Hpos & (H1 & H2 & H3 & H4 & H5 & H6 & H7) & _).
  cbn in *. exists lines. split; [exact Hf|]. split; [exact Hpos|].
  rewrite H6, length_map, length_seq. repeat split; congruence.
Qed.

(** X2.  In a dataset that [__init__] returns, sample [j] carries the
    clip number [j mod _num_clips], which lies in [[0, _num_clips)], and
    the keys of [_video_meta] are exactly the sample positions. *)
Theorem init_sample_positions c m nr file self :
  __init__ int_of_str int_of_float_str c m nr file = Ok self ->
  _spatial_temporal_idx self
  = map (fun j : nat => Z.of_nat j mod _num_clips self)
      (seq 0 (List.length (_path_to_videos self)))
  /\ _video_meta self
     = map Z.of_nat (seq 0 (List.length (_path_to_videos self)))
  /\ Forall (fun sti => 0 <= sti < _num_clips self)
            (_spatial_temporal_idx self).
Proof.
  intros H. destruct (init_loaded _ _ _ _ _ H)
    as (lines & Hf & Hpos & (H1 & H2 & H3 & H4 & H5 & H6 & H7) & _).
  cbn in *. rewrite H1. split; [exact H6|]. split; [exact H7|].
  rewrite H6. apply Forall_map, Forall_forall. intros j _.
  apply Z.mod_pos_bound. destruct (Z.to_nat (_num_clips self)) eqn:E; lia.
Qed.

(** X3.  [_construct_loader] raises [AssertionError] when the manifest
    file is missing, and returns only for a manifest that has rows, a
    positive number of clips, a non-empty separator and 3, 5 or 6 fields
    in every row. *)
Theorem construct_loader_rejects c nc :
  _construct_loader int_of_str int_of_float_str c nc None
  = Raise AssertionError
  /\ (forall lines l,
        _construct_loader int_of_str int_of_float_str c nc (Some lines)
        = Ok l ->
        lines <> [] /\ 0 < nc
        /\ DATA_PATH_LABEL_SEPARATOR c <> ""
        /\ Forall (row_ok (DATA_PATH_LABEL_SEPARATOR c)) lines).
Proof.
  split; [reflexivity|].
  intros lines l H.
  destruct (construct_loader_aligned _ _ _ _ H)
    as (lines' & Hf & _ & Hpos & Hrows).
  injection Hf as <-.
  assert (Hne : lines <> []) by (intros ->; cbn in Hpos; lia).
  split; [exact Hne|]. split; [lia|]. split; [|exact Hrows].
  destruct lines as [|line rest]; [congruence|].
  inversion Hrows as [|? ? (fields & Hs & _) _]. subst.
  intros Hsep. unfold Py.split in Hs. rewrite Hsep in Hs. discriminate.
Qed.

(** X4.  In a test dataset that [__init__] returns, with a positive
    number of spatial crops, every stored clip number splits into a
    temporal index in [[0, NUM_ENSEMBLE_VIEWS)] and a spatial index:
    for more than one crop [sti = tsi * crops + ssi] with
    [0 <= ssi < crops]; for one crop the spatial index is [1]. *)
Theorem init_test_sample_indices c nr file self index sti :
  __init__ int_of_str int_of_float_str c Test nr file = Ok self ->
  0 < TEST_NUM_SPATIAL_CROPS c ->
  Py.getitem (_spatial_temporal_idx self) index = Some sti ->
  exists tsi ssi,
    sample_indices self index = Ok (tsi, ssi)
    /\ 0 <= tsi < TEST_NUM_ENSEMBLE_VIEWS c
    /\ (1 < TEST_NUM_SPATIAL_CROPS c ->
        sti = tsi * TEST_NUM_SPATIAL_CROPS c + ssi
        /\ 0 <= ssi < TEST_NUM_SPATIAL_CROPS c)
    /\ (TEST_NUM_SPATIAL_CROPS c = 1 -> tsi = sti /\ ssi = 1).
Proof.
  intros H Hc Hg. destruct (init_loaded _ _ _ _ _ H)
    as (lines & Hf & Hpos & (H1 & H2 & H3 & H4 & H5 & H6 & H7)
        & Hm & Hcr & Hnc).
  cbn in H1, H6.
  assert (Hr : 0 <= sti < _num_clips self).
  { apply getitem_nth_error in Hg. apply nth_error_In in Hg.
    rewrite H6 in Hg. apply in_map_iff in Hg. destruct Hg as (j & <- & _).
    apply Z.mod_pos_bound. destruct (Z.to_nat (_num_clips self)) eqn:E; lia. }
  rewrite Hnc in Hr.
  set (crops := TEST_NUM_SPATIAL_CROPS c) in *.
  unfold sample_indices. rewrite Hm, Hg, Hcr. fold crops. cbn [of_option obind].
  replace (crops =? 0) with false by (symmetry; apply Z.eqb_neq; lia).
  eexists; eexists. split; [reflexivity|].
  split.
  { split; [apply Z.div_pos; lia|].
    apply Z.div_lt_upper_bound; [lia|]. lia. }
  split.
  - intros H1c.
    replace (1 <? crops) with true by (symmetry; apply Z.ltb_lt; lia).
    split; [|apply Z.mod_pos_bound; lia].
    rewrite Z.mul_comm. apply Z.div_mod. lia.
  - intros E1. rewrite E1. cbn. split; [apply Z.div_1_r|reflexivity].
Qed.

End LoaderFacts.

Lemma init_arrays_aligned_witness :
  let c := Demo.config "pyav" "" None None 1 1 in
  let self := Demo.dataset3 c Train in
  Demo.load c Train Demo.manifest3 = Ok self
  /\ exists lines,
       Some Demo.manifest3 = Some lines
       /\ (0 < List.length lines * Z.to_nat (_num_clips self))%nat
       /\ List.length (_path_to_videos self)
          = (List.length lines * Z.to_nat (_num_clips self))%nat
       /\ List.length (_labels self) = List.length (_path_to_videos self)
       /\ List.length (_durations self) = List.length (_path_to_videos self)
       /\ List.length (_start self) = List.length (_path_to_videos self)
       /\ List.length (_end self) = List.length (_path_to_videos self)
       /\ List.length (_spatial_temporal_idx self)
          = List.length (_path_to_videos self).
Proof.
  split; [reflexivity|].
  apply (init_arrays_aligned Demo.int_of_digits Demo.int_of_digits
           (Demo.config "pyav" "" None None 1 1) Train None
           (Some Demo.manifest3)).
  reflexivity.
Defined.

Lemma init_sample_positions_witness :
  exists self,
    Demo.load Demo2.test_config Test Demo.manifest3 = Ok self
    /\ _spatial_temporal_idx self
       = [0; 1; 2; 3; 4; 5; 0; 1; 2; 3; 4; 5; 0; 1; 2; 3; 4; 5]
    /\ _spatial_temporal_idx self
       = map (fun j : nat => Z.of_nat j mod _num_clips self)
           (seq 0 (List.length (_path_to_videos self)))
    /\ _video_meta self
       = map Z.of_nat (seq 0 (List.length (_path_to_videos self)))
    /\ Forall (fun sti => 0 <= sti < _num_clips self)
              (_spatial_temporal_idx self).
Proof.
  eexists. split; [vm_compute; reflexivity|]. split; [reflexivity|].
  apply (init_sample_positions Demo.int_of_digits Demo.int_of_digits
           Demo2.test_config Test None (Some Demo.manifest3)).
  reflexivity.
Defined.

Lemma init_test_sample_indices_witness :
  exists self,
    Demo.load Demo2.test_config Test Demo.manifest3 = Ok self
    /\ 0 < TEST_NUM_SPATIAL_CROPS Demo2.test_config
    /\ Py.getitem (_spatial_temporal_idx self) 10 = Some 4
    /\ sample_indices self 10 = Ok (1, 1)
    /\ exists tsi ssi,
         sample_indices self 10 = Ok (tsi, ssi)
         /\ 0 <= tsi < TEST_NUM_ENSEMBLE_VIEWS Demo2.test_config
         /\ (1 < TEST_NUM_SPATIAL_CROPS Demo2.test_config ->
             4 = tsi * TEST_NUM_SPATIAL_CROPS Demo2.test_config + ssi
             /\ 0 <= ssi < TEST_NUM_SPATIAL_CROPS Demo2.test_config)
         /\ (TEST_NUM_SPATIAL_CROPS Demo2.test_config = 1 ->
             tsi = 4 /\ ssi = 1).
Proof.
  eexists. split; [vm_compute; reflexivity|]. split; [reflexivity|].
  split; [reflexivity|]. split; [reflexivity|].
  apply (init_test_sample_indices Demo.int_of_digits Demo.int_of_digits
           Demo2.test_config None (Some Demo.manifest3) _ 10 4);
    reflexivity.
Defined.

(** ** ManifestStore: what the arrays hold *)

Section LoaderRows.

Variable int_of_str : string -> option Z.
Variable int_of_float_str : string -> option Z.

Lemma appended_nil n acc : appended [] n acc acc.
Proof. unfold appended. cbn. rewrite !app_nil_r. repeat split. Qed.

Lemma appended_app rows1 rows2 n a b c :
  appended rows1 n a b -> appended rows2 n b c ->
  appended (rows1 ++ rows2) n a c.
Proof.
  unfold appended. intros (A1 & A2 & A3 & A4 & A5 & A6)
    (B1 & B2 & B3 & B4 & B5 & B6).
  rewrite B1, B2, B3, B4, B5, B6, A1, A2, A3, A4, A5, A6.
  rewrite !flat_map_app, !app_assoc. repeat split.
Qed.

Lemma appended_S r m a b c :
  appended [r] 1 a b -> appended [r] m b c -> appended [r] (S m) a c.
Proof.
  unfold appended. cbn [flat_map repeat]. rewrite !app_nil_r.
  intros (A1 & A2 & A3 & A4 & A5 & A6) (B1 & B2 & B3 & B4 & B5 & B6).
  rewrite B1, B2, B3, B4, B5, B6, A1, A2, A3, A4, A5, A6.
  rewrite <- !app_assoc. cbn [app].
  repeat split. destruct (row_text r); cbn [repeat app];
    rewrite <- ?app_assoc; reflexivity.
Qed.

Lemma add_clip_row c nc ci fields acc idx acc' :
  add_clip int_of_str int_of_float_str c nc ci fields
    (strip_path (nth 0 fields "")) acc idx = Ok acc' ->
  exists r,
    row_of_fields int_of_str int_of_float_str c fields = Some r
    /\ appended [r] 1 acc acc'.
Proof.
  unfold add_clip, row_of_fields, obind, of_option. intros H.
  destruct (int_of_str (nth 1 fields "")) as [lab|]; [|discriminate].
  destruct (int_of_float_str (nth 2 fields "")) as [dur|]; [|discriminate].
  destruct (List.length fields =? 3)%nat eqn:E3.
  - injection H as <-. eexists. split; [reflexivity|].
    unfold appended. cbn. rewrite !app_nil_r.
    apply Nat.eqb_eq in E3. rewrite E3. cbn. rewrite app_nil_r.
    repeat split.
  - destruct (int_of_float_str (nth 3 fields "")) as [s|]; [|discriminate].
    destruct (int_of_float_str (nth 4 fields "")) as [e|]; [|discriminate].
    injection H as <-. eexists. split; [reflexivity|].
    unfold appended. cbn. rewrite !app_nil_r.
    destruct (List.length fields =? 6)%nat; cbn; rewrite ?app_nil_r;
      repeat split.
Qed.

Lemma add_clips_row c nc ci fields :
  forall idxs acc acc',
    add_clips int_of_str int_of_float_str c nc ci fields
      (strip_path (nth 0 fields "")) idxs acc = Ok acc' ->
    idxs <> [] ->
    exists r,
      row_of_fields int_of_str int_of_float_str c fields = Some r
      /\ appended [r] (List.length idxs) acc acc'.
Proof.
  induction idxs as [|idx idxs IH]; intros acc acc' H Hne; [congruence|].
  cbn [add_clips] in H. unfold obind in H at 1.
  destruct (add_clip _ _ _ _ _ _ _ _ _) as [acc1|] eqn:E; [|discriminate].
  destruct (add_clip_row _ _ _ _ _ _ _ E) as (r & Hr & Ha).
  exists r. split; [exact Hr|]. cbn [List.length].
  destruct idxs as [|idx' idxs].
  - cbn in H. injection H as <-. exact Ha.
  - destruct (IH acc1 acc' H ltac:(discriminate)) as (r' & Hr' & Ha').
    assert (r' = r) by congruence. subst r'.
    eapply appended_S; eassumption.
Qed.

Lemma add_line_row c nc ci line acc acc' :
  0 < nc ->
  add_line int_of_str int_of_float_str c nc acc ci line = Ok acc' ->
  exists r,
    parse_row int_of_str int_of_float_str c line = Some r
    /\ appended [r] (Z.to_nat nc) acc acc'.
Proof.
  intros Hnc H. unfold add_line, parse_row, obind, of_option in *.
  destruct (Py.split (DATA_PATH_LABEL_SEPARATOR c) line) as [fields|];
    [|discriminate].
  destruct ((List.length fields =? 3)%nat || (List.length fields =? 5)%nat
            || (List.length fields =? 6)%nat); [|discriminate].
  cbn [negb] in H.
  apply add_clips_row in H.
  - rewrite length_seq in H. exact H.
  - destruct (Z.to_nat nc) eqn:E; [lia|discriminate].
Qed.

Lemma add_lines_rows c nc :
  0 < nc ->
  forall lines ci acc acc',
    add_lines int_of_str int_of_float_str c nc ci lines acc = Ok acc' ->
    exists rows,
      map (parse_row int_of_str int_of_float_str c) lines = map Some rows
      /\ appended rows (Z.to_nat nc) acc acc'.
Proof.
  intros Hnc. induction lines as [|line lines IH]; intros ci acc acc' H.
  - cbn in H. injection H as <-. exists []. split; [reflexivity|].
    apply appended_nil.
  - cbn [add_lines] in H. unfold obind in H at 1.
    destruct (add_line _ _ _ _ _ _ _) as [acc1|] eqn:E; [|discriminate].
    destruct (add_line_row _ _ _ _ _ _ Hnc E) as (r & Hr & Ha).
    destruct (IH _ _ _ H) as (rows & Hrows & Has).
    exists (r :: rows). split; [cbn [map]; rewrite Hr, Hrows; reflexivity|].
    change (r :: rows) with ([r] ++ rows).
    eapply appended_app; eassumption.
Qed.

(** X5.  The arrays of a dataset that [__init__] returns hold the
    manifest row by row: every line parses to a row (path up to its
    first dot under [PATH_PREFIX], label, duration, and the window when
    the line has five or six fields), and each array is the
    concatenation, in manifest order, of [_num_clips] copies of the
    row's entry; [labels] holds the texts of the six-field rows in the
    same way, and is [None] when there is none. *)
Theorem init_rows_replicated c m nr file self :
  __init__ int_of_str int_of_float_str c m nr file = Ok self ->
  exists lines rows,
    file = Some lines
    /\ map (parse_row int_of_str int_of_float_str c) lines = map Some rows
    /\ 0 < _num_clips self
    /\ let rep {B : Type} (f : Row -> B) :=
         flat_map (fun r => repeat (f r) (Z.to_nat (_num_clips self))) rows in
       _path_to_videos self = rep row_path
       /\ _labels self = rep row_label
       /\ _durations self = rep row_duration
       /\ _start self = rep row_start
       /\ _end self = rep row_end
       /\ labels self
          = match flat_map (fun r => match row_text r with
                                     | Some t =>
                                         repeat t (Z.to_nat (_num_clips self))
                                     | None => []
                                     end) rows with
            | [] => None
            | t :: ts => Some (t :: ts)
            end.
Proof.
  unfold __init__, obind. intros H.
  destruct (_construct_loader _ _ _ _ _) as [l|] eqn:E; [|discriminate].
  injection H as <-. cbn [_num_clips _path_to_videos _labels _durations
                          _start _end labels].
  set (nc := match m with
             | Train | Val => 1
             | Test => TEST_NUM_ENSEMBLE_VIEWS c * TEST_NUM_SPATIAL_CROPS c
             end) in *.
  destruct (construct_loader_aligned _ _ _ _ _ _ E)
    as (lines & -> & _ & Hpos & _).
  assert (Hnc : 0 < nc) by (destruct (Z.to_nat nc) eqn:En; lia).
  unfold _construct_loader, obind in E.
  destruct (add_lines _ _ _ _ _ _ _) as [l1|] eqn:El; [|discriminate].
  destruct (0 <? List.length (l_path_to_videos l1))%nat; [|discriminate].
  injection E as ->.
  destruct (add_lines_rows _ _ Hnc _ _ _ _ El)
    as (rows & Hrows & (A1 & A2 & A3 & A4 & A5 & A6)).
  cbn in A1, A2, A3, A4, A5, A6.
  exists lines, rows. split; [reflexivity|].
  split.
  { rewrite <- Hrows. apply map_ext. intros line.
    unfold parse_row, row_of_fields.
    destruct (MODEL_NUM_SEG c) as [seg|]; [|reflexivity].
    destruct (0 <? seg); reflexivity. }
  split; [exact Hnc|].
  cbv zeta. rewrite A1, A2, A3, A4, A5, A6.
  repeat split.
  match goal with
  | |- context [List.length ?l] => destruct l; reflexivity
  end.
Qed.

End LoaderRows.

Lemma init_rows_replicated_witness :
  exists self,
    Demo.load Demo2.test_config Test Demo.manifest3 = Ok self
    /\ _durations self
       = [30; 30; 30; 30; 30; 30; 40; 40; 40; 40; 40; 40;
          50; 50; 50; 50; 50; 50]
    /\ exists lines rows,
         Some Demo.manifest3 = Some lines
         /\ map (parse_row Demo.int_of_digits Demo.int_of_digits
                   Demo2.test_config) lines
            = map Some rows
         /\ 0 < _num_clips self
         /\ _path_to_videos self
            = flat_map (fun r => repeat (row_path r)
                                   (Z.to_nat (_num_clips self))) rows
         /\ _labels self
            = flat_map (fun r => repeat (row_label r)
                                   (Z.to_nat (_num_clips self))) rows
         /\ _durations self
            = flat_map (fun r => repeat (row_duration r)
                                   (Z.to_nat (_num_clips self))) rows
         /\ _start self
            = flat_map (fun r => repeat (row_start r)
                                   (Z.to_nat (_num_clips self))) rows
         /\ _end self
            = flat_map (fun r => repeat (row_end r)
                                   (Z.to_nat (_num_clips self))) rows
         /\ labels self
            = match flat_map
                      (fun r => match row_text r with
                                | Some t =>
                                    repeat t (Z.to_nat (_num_clips self))
                                | None => []
                                end) rows with
              | [] => None
              | t :: ts => Some (t :: ts)
              end.
Proof.
  eexists. split; [vm_compute; reflexivity|]. split; [reflexivity|].
  apply (init_rows_replicated Demo.int_of_digits Demo.int_of_digits
           Demo2.test_config Test None (Some Demo.manifest3)).
  reflexivity.
Defined.

(** X6.  Every index below the length that [__len__] reports addresses
    a stored sample, once [__getitem__] has wrapped it. *)
Theorem len_indices_valid (self : Howto100m) (i : Z) :
  0 < num_videos self -> 0 <= i < __len__ self ->
  exists index,
    wrap_index self i = Ok index /\ 0 <= index < num_videos self.
Proof.
  intros Hn Hi. unfold wrap_index, __len__ in *.
  fold (num_videos self) in Hi.
  destruct (em self) as [m|].
  - destruct (1 <? m) eqn:Em.
    + replace (num_videos self =? 0) with false
        by (symmetry; apply Z.eqb_neq; lia).
      eexists. split; [reflexivity|]. apply Z.mod_pos_bound. assumption.
    + cbn [andb] in Hi. eexists. split; [reflexivity|]. assumption.
  - eexists. split; [reflexivity|]. assumption.
Qed.

Lemma len_indices_valid_witness :
  0 < num_videos Demo.train_em3 /\ 0 <= 7 < __len__ Demo.train_em3
  /\ exists index,
       wrap_index Demo.train_em3 7 = Ok index
       /\ 0 <= index < num_videos Demo.train_em3.
Proof.
  split; [reflexivity|]. split; [vm_compute; split; [discriminate|reflexivity]|].
  apply (len_indices_valid Demo.train_em3 7); vm_compute;
    [reflexivity|split; [discriminate|reflexivity]].
Defined.

(** ** WindowPlanner: where a window lies *)

Section WindowBounds.

Local Open Scope Q_scope.

Lemma tiling_fraction (delta : Q) (ci nc : Z) :
  0 <= delta -> (0 <= ci <= nc)%Z -> (0 < nc)%Z ->
  0 <= delta * inject_Z ci / inject_Z nc
  /\ delta * inject_Z ci / inject_Z nc <= delta.
Proof.
  intros Hd Hci Hnc.
  assert (Hn : 0 < inject_Z nc)
    by (change 0 with (inject_Z 0); rewrite <- Zlt_Qlt; lia).
  assert (Hc0 : 0 <= inject_Z ci)
    by (change 0 with (inject_Z 0); rewrite <- Zle_Qle; lia).
  assert (Hc1 : inject_Z ci <= inject_Z nc) by (rewrite <- Zle_Qle; lia).
  split.
  - apply Qle_shift_div_l; [assumption|]. nra.
  - apply Qle_shift_div_r; [assumption|]. nra.
Qed.

(** The start of a window lies within the slack, for a random clip and
    for a clip index up to [num_clips]. *)
Lemma get_start_end_idx_slack
    (video_size clip_size : Q) (clip_idx num_clips raw : Z) (s e : Q) :
  get_start_end_idx video_size clip_size clip_idx num_clips raw = Some (s, e) ->
  (clip_idx = (-1)%Z \/ (0 <= clip_idx <= num_clips)%Z) ->
  0 <= s /\ s <= Qmax (video_size - clip_size) 0 /\ e == s + clip_size - 1.
Proof.
  unfold get_start_end_idx. intros H Hci.
  set (delta := Qmax (video_size - clip_size) 0) in *.
  assert (Hd : 0 <= delta) by (apply Q.le_max_r).
  destruct (clip_idx =? -1)%Z eqn:E1.
  - injection H as <- <-.
    destruct (uniform_range 0 delta raw Hd).
    split; [assumption|]. split; [assumption|reflexivity].
  - apply Z.eqb_neq in E1.
    destruct (num_clips =? 0)%Z eqn:E0; [discriminate|].
    apply Z.eqb_neq in E0. injection H as <- <-.
    destruct (tiling_fraction delta clip_idx num_clips Hd) as [? ?];
      [lia|lia|].
    split; [assumption|]. split; [assumption|reflexivity].
Qed.

(** X7.  A window that [get_start_end_idx] returns for a random clip, or
    for a clip index in [[0, num_clips]], lies inside the video,
    [0 <= start] and [end <= video_size - 1], when the clip is no longer
    than the video; when the video is no longer than the clip the window
    is [(0, clip_size - 1)], which ends beyond the video. *)
Theorem get_start_end_idx_in_video
    (video_size clip_size : Q) (clip_idx num_clips raw : Z) (s e : Q) :
  get_start_end_idx video_size clip_size clip_idx num_clips raw = Some (s, e) ->
  (clip_idx = (-1)%Z \/ (0 <= clip_idx <= num_clips)%Z) ->
  (clip_size <= video_size -> 0 <= s /\ e <= video_size - 1)
  /\ (video_size <= clip_size -> s == 0 /\ e == clip_size - 1).
Proof.
  intros H Hci.
  destruct (get_start_end_idx_slack _ _ _ _ _ _ _ H Hci) as (Hs0 & Hs1 & He).
  pose proof (Q.max_spec (video_size - clip_size) 0) as Hmax.
  set (delta := Qmax (video_size - clip_size) 0) in *. clearbody delta.
  split; intros Hsz; destruct Hmax as [[? ?]|[? ?]]; split; lra.
Qed.

Lemma get_start_end_idx_in_video_witness :
  exists s e,
    get_start_end_idx 100 20 3 4 0 = Some (s, e)
    /\ ((3 = -1)%Z \/ (0 <= 3 <= 4)%Z)
    /\ (20 <= 100 -> 0 <= s /\ e <= 100 - 1)
    /\ (100 <= 20 -> s == 0 /\ e == 20 - 1).
Proof.
  eexists; eexists. split; [vm_compute; reflexivity|].
  split; [right; lia|].
  apply (get_start_end_idx_in_video 100 20 3 4 0);
    [vm_compute; reflexivity|right; lia].
Defined.

(** X8.  [check_time] is never negative, is symmetric in its two
    intervals, is [0] for intervals that do not overlap, never exceeds
    the length of either interval, and is the length of the first
    interval when the second contains it. *)
Theorem check_time_overlap (s1 e1 s2 e2 : Q) :
  0 <= check_time s1 e1 s2 e2
  /\ check_time s1 e1 s2 e2 == check_time s2 e2 s1 e1
  /\ (e1 <= s2 \/ e2 <= s1 -> s1 <= e1 -> s2 <= e2 ->
      check_time s1 e1 s2 e2 == 0)
  /\ (s1 <= e1 -> s2 <= e2 ->
      check_time s1 e1 s2 e2 <= e1 - s1
      /\ check_time s1 e1 s2 e2 <= e2 - s2)
  /\ (s2 <= s1 -> e1 <= e2 -> s1 <= e1 ->
      check_time s1 e1 s2 e2 == e1 - s1).
Proof.
  unfold check_time.
  pose proof (Q.min_spec e1 e2) as A. set (a := Qmin e1 e2) in *.
  pose proof (Q.max_spec s1 s2) as B. set (b := Qmax s1 s2) in *.
  pose proof (Q.min_spec e2 e1) as A'. set (a' := Qmin e2 e1) in *.
  pose proof (Q.max_spec s2 s1) as B'. set (b' := Qmax s2 s1) in *.
  clearbody a b a' b'.
  pose proof (Q.max_spec (a - b) 0) as C. set (c := Qmax (a - b) 0) in *.
  pose proof (Q.max_spec (a' - b') 0) as C'. set (c' := Qmax (a' - b') 0) in *.
  clearbody c c'.
  repeat split; intros;
    destruct A as [[? ?]|[? ?]], B as [[? ?]|[? ?]],
             A' as [[? ?]|[? ?]], B' as [[? ?]|[? ?]],
             C as [[? ?]|[? ?]], C' as [[? ?]|[? ?]];
    try match goal with H : _ \/ _ |- _ => destruct H end; lra.
Qed.

End WindowBounds.

(** ** temporal_sampling: which frames come back *)

Section SamplingFrames.

Local Open Scope Q_scope.

Lemma trunc_Qeq (x y : Q) : x == y -> Py.trunc x = Py.trunc y.
Proof.
  intros H. apply Z.le_antisymm; apply trunc_mono; rewrite H; apply Qle_refl.
Qed.

Lemma interpolated_index_no_frames s e n i :
  interpolated_index 0 s e n i = (-1)%Z.
Proof.
  unfold interpolated_index.
  match goal with |- Py.trunc (Qmin (Qmax ?x 0) _) = _ => set (y := x) end.
  change (-1)%Z with (Py.trunc (inject_Z (-1))).
  apply trunc_Qeq. apply Q.min_r.
  change (inject_Z (Z.of_nat 0 - 1)) with (-1 # 1).
  pose proof (Q.le_max_r y 0). change (inject_Z (-1)) with (-1 # 1) in *. lra.
Qed.



(** X9.  On a tensor without frames [temporal_sampling] returns only
    when no sample is asked for: the clamp to [[0, -1]] gives the index
    [-1], which [index_select] refuses. *)
Theorem temporal_sampling_no_frames (A : Type) (s e : Q) (n : nat) :
  @temporal_sampling A [] s e n = if (n =? 0)%nat then Some [] else None.
Proof.
  unfold temporal_sampling. rewrite temporal_sampling_index_as_map.
  destruct n as [|n]; [reflexivity|].
  cbn [seq map Nat.eqb List.length]. rewrite interpolated_index_no_frames.
  reflexivity.
Qed.


Lemma interpolated_last (len n : nat) :
  (1 <= len)%nat -> (2 <= n)%nat ->
  interpolated_index len 0 (inject_Z (Z.of_nat len)) n (n - 1)
  = (Z.of_nat len - 1)%Z.
Proof.
  intros Hlen Hn. unfold interpolated_index.
  replace (n <=? 1)%nat with false by (symmetry; apply Nat.leb_gt; lia).
  rewrite <- (trunc_inject_Z (Z.of_nat len - 1)) at 2. apply trunc_Qeq.
  replace (Z.of_nat (n - 1)) with (Z.of_nat n - 1)%Z by lia.
  assert (Hd : ~ inject_Z (Z.of_nat n - 1) == 0).
  { change 0 with (inject_Z 0). rewrite inject_Z_injective. lia. }
  match goal with |- Qmin (Qmax ?x 0) _ == _ =>
    assert (Hx : x == inject_Z (Z.of_nat len)) by (field; exact Hd) end.
  rewrite Hx.
  assert (H0 : 0 <= inject_Z (Z.of_nat len))
    by (change 0 with (inject_Z 0); rewrite <- Zle_Qle; lia).
  rewrite Q.max_l by assumption.
  apply Q.min_r. rewrite <- Zle_Qle. lia.
Qed.

End SamplingFrames.

(** ** get_video *)

Section GetVideo.

Local Open Scope Q_scope.

Variable ext : External.


End GetVideo.


(** The rate is the ceiling of the rounded quotient.  Eight frames over
    the window [(0, 2.6666666666666665)]: the exact quotient is just
    above [3], the binary64 quotient is [3], and the pipeline is run at
    3 frames per second. *)
Example get_video_rounded_rate :
  let e := Float64.round (26666666666666665 # 10000000000000000) in
  (3 < 8 / e)%Q
  /\ Float64.round (8 / e) = 3%Q
  /\ get_video Demo2.rate3 0 "/data/v0" 0 e 8 = Some (repeat tt 8)
  /\ get_video Demo2.rate3 0 "/data/v0" 0 3 8 = Some (repeat tt 8)
  /\ get_video Demo2.rate3 0 "/data/v0" 0 2 8 = None.
Proof. repeat split; reflexivity. Qed.

(** ** CaptionAligner: what the merge reads and writes *)

(** X13.  A selected caption that already has [min_len] words is left as
    it is: the loop body is never entered, only the selected row is
    read, and the three stores write back what the row held. *)
Theorem min_len_merge_enough_words (cap : list CapRow) (ind ml : Z)
    (r : CapRow) (t : string) :
  Py.getitem cap ind = Some r -> cap_text r = Some t ->
  ml <= word_count t ->
  exists st,
    min_len_merge cap ind ml = Finished st
    /\ m_q st = t /\ m_reads st = [ind]
    /\ store_merged cap ind st = cap.
Proof.
  intros Hr Ht Hml. unfold min_len_merge. rewrite Hr, Ht.
  unfold merge_fuel. cbn [merge_loop m_q].
  replace (word_count t <? ml) with false by (symmetry; apply Z.ltb_ge; lia).
  eexists. split; [reflexivity|]. split; [reflexivity|].
  split; [reflexivity|].
  unfold store_merged. cbn [m_s m_e m_q].
  apply set_nth_same. rewrite (getitem_nth_error _ _ _ Hr).
  destruct r as [rs re rt]. cbn in *. congruence.
Qed.

Lemma min_len_merge_enough_words_witness :
  Py.getitem Demo.rows_xa 0
  = Some {| cap_start := 0; cap_end := 1; cap_text := Some "x y z" |}
  /\ 3 <= word_count "x y z"
  /\ exists st,
       min_len_merge Demo.rows_xa 0 3 = Finished st
       /\ m_q st = "x y z" /\ m_reads st = [0]
       /\ store_merged Demo.rows_xa 0 st = Demo.rows_xa.
Proof.
  split; [reflexivity|]. split; [vm_compute; discriminate|].
  apply (min_len_merge_enough_words Demo.rows_xa 0 3
           {| cap_start := 0; cap_end := 1; cap_text := Some "x y z" |}
           "x y z");
    [reflexivity|reflexivity|vm_compute; discriminate].
Defined.

Lemma set_nth_length {A : Type} (l : list A) (k : nat) (x : A) :
  List.length (Py.set_nth l k x) = List.length l.
Proof.
  revert k. induction l as [|h t IH]; intros [|k]; simpl; auto.
Qed.

Lemma set_nth_other {A : Type} (l : list A) (k j : nat) (x : A) :
  j <> k -> nth_error (Py.set_nth l k x) j = nth_error l j.
Proof.
  revert k j. induction l as [|h t IH]; intros [|k] [|j] H; simpl; auto;
    congruence.
Qed.

Lemma set_nth_at {A : Type} (l : list A) (k : nat) (x : A) :
  (k < List.length l)%nat -> nth_error (Py.set_nth l k x) k = Some x.
Proof.
  revert k. induction l as [|h t IH]; intros [|k] H; simpl in *;
    try lia; auto.
  apply IH. lia.
Qed.

(** X15.  Started on a row of the table, the minimum-length merge ends,
    reads only rows of the table, and its three stores change row [ind]
    alone: the table keeps its length, every other row is what it was,
    and row [ind] holds the merged start, end and text. *)
Theorem min_len_merge_writes_one_row (cap : list CapRow) (ind ml : Z) :
  in_table cap ind ->
  exists st,
    min_len_merge cap ind ml = Finished st
    /\ Forall (in_table cap) (m_reads st)
    /\ List.length (store_merged cap ind st) = List.length cap
    /\ (forall j, j <> Z.to_nat ind ->
          nth_error (store_merged cap ind st) j = nth_error cap j)
    /\ Py.getitem (store_merged cap ind st) ind
       = Some {| cap_start := m_s st; cap_end := m_e st;
                 cap_text := Some (m_q st) |}.
Proof.
  intros Hind. destruct (min_len_merge_safe cap ind ml Hind)
    as (st & Hst & Hreads & _).
  exists st. split; [exact Hst|]. split; [exact Hreads|].
  unfold in_table in Hind. unfold store_merged.
  replace (ind <? 0) with false by (symmetry; apply Z.ltb_ge; lia).
  split; [apply set_nth_length|].
  split; [intros j Hj; apply set_nth_other; exact Hj|].
  unfold Py.getitem. rewrite set_nth_length.
  replace ((0 <=? ind) && (ind <? Z.of_nat (List.length cap))) with true.
  2:{ symmetry. apply andb_true_iff. split; [apply Z.leb_le|apply Z.ltb_lt];
        lia. }
  apply set_nth_at. lia.
Qed.

Lemma min_len_merge_writes_one_row_witness :
  in_table Demo.rows_xa 1
  /\ exists st,
       min_len_merge Demo.rows_xa 1 5 = Finished st
       /\ Forall (in_table Demo.rows_xa) (m_reads st)
       /\ List.length (store_merged Demo.rows_xa 1 st)
          = List.length Demo.rows_xa
       /\ (forall j, j <> Z.to_nat 1 ->
             nth_error (store_merged Demo.rows_xa 1 st) j
             = nth_error Demo.rows_xa j)
       /\ Py.getitem (store_merged Demo.rows_xa 1 st) 1
          = Some {| cap_start := m_s st; cap_end := m_e st;
                    cap_text := Some (m_q st) |}.
Proof.
  split; [vm_compute; split; [discriminate|reflexivity]|].
  apply (min_len_merge_writes_one_row Demo.rows_xa 1 5).
  vm_compute. split; [discriminate|reflexivity].
Defined.

(** ** WindowPlanner inside [__getitem__] *)

Section Rederive.

Local Open Scope Q_scope.

Variable ext : External.

Lemma call_get_start_end_idx_result vs cs ci nc w r w' :
  call_get_start_end_idx ext vs cs ci nc w = (Ok r, w') ->
  exists raw, get_start_end_idx vs cs ci nc raw = Some r.
Proof.
  unfold call_get_start_end_idx, bind, draw, lift. intros H.
  destruct (ci =? -1)%Z.
  - destruct (get_start_end_idx vs cs ci nc (entropy ext (rng_pos w)))
      as [p|] eqn:E; [|discriminate].
    injection H as <- _. eauto.
  - destruct (get_start_end_idx vs cs ci nc 0) as [p|] eqn:E;
      [|discriminate].
    injection H as <- _. eauto.
Qed.

Lemma call_get_start_end_idx_returns vs cs ci nc w :
  (ci = (-1)%Z \/ nc <> 0%Z) ->
  exists s e w',
    call_get_start_end_idx ext vs cs ci nc w = (Ok (s, e), w')
    /\ e == s + cs - 1.
Proof.
  intros H. unfold call_get_start_end_idx, bind, draw, lift,
    get_start_end_idx.
  destruct (ci =? -1)%Z eqn:E.
  - do 3 eexists. split; [reflexivity|]. cbn. reflexivity.
  - apply Z.eqb_neq in E. destruct H as [H|H]; [contradiction|].
    replace (nc =? 0)%Z with false by (symmetry; apply Z.eqb_neq; exact H).
    do 3 eexists. split; [reflexivity|]. cbn. reflexivity.
Qed.

(** X16.  The [try] block of lines 441-458 never raises; for a random
    clip or a temporal index in [[0, NUM_ENSEMBLE_VIEWS]], and a frame
    count that is not negative, the window it leaves lies inside the
    window it was given. *)
Theorem rederive_window (tsi : Z) (s e : Q) (w : World) :
  (exists r w', rederive ext tsi s e w = (Ok r, w'))
  /\ (tsi = (-1)%Z
      \/ (0 <= tsi <= TEST_NUM_ENSEMBLE_VIEWS (cfg (self_ w)))%Z ->
      (0 <= DATA_NUM_FRAMES (cfg (self_ w)))%Z ->
      forall s' e' w',
        rederive ext tsi s e w = (Ok (s', e'), w') ->
        s <= s' /\ e' <= e).
Proof.
  unfold rederive, bind, gets.
  set (c := cfg (self_ w)).
  set (fd := DATA_FD c). set (nf := inject_Z (DATA_NUM_FRAMES c)).
  destruct (negb (Qle_bool (e - s) nf) && Qeq_bool fd 0) eqn:E1.
  - split; [eexists; eexists; reflexivity|].
    intros _ Hnf s' e' w' H. unfold ret in H. injection H as <- <- _.
    apply andb_true_iff in E1. destruct E1 as [E1 _].
    apply negb_true_iff in E1.
    assert (Hlt : nf < e - s).
    { apply Qnot_le_lt. intros Hle. apply Qle_bool_iff in Hle. congruence. }
    unfold Qdiv. change (/ 2) with (1 # 2). split; lra.
  - destruct (negb (Qle_bool fd 0) && negb (Qle_bool (e - s) fd)) eqn:E2.
    + unfold try_.
      destruct (call_get_start_end_idx ext (e - s) fd tsi
                  (TEST_NUM_ENSEMBLE_VIEWS c) w) as [[[s1 e1]|err] w1] eqn:Ec.
      * split; [eexists; eexists; reflexivity|].
        intros Htsi _ s' e' w' H. unfold ret in H. injection H as <- <- _.
        apply andb_true_iff in E2. destruct E2 as [_ E2].
        apply negb_true_iff in E2.
        assert (Hlt : fd < e - s).
        { apply Qnot_le_lt. intros Hle. apply Qle_bool_iff in Hle.
          congruence. }
        destruct (call_get_start_end_idx_result _ _ _ _ _ _ _ Ec) as [raw Hg].
        destruct (get_start_end_idx_slack _ _ _ _ _ _ _ Hg Htsi)
          as (H0 & H1 & H2).
        rewrite Q.max_l in H1 by lra. split; lra.
      * split; [eexists; eexists; reflexivity|].
        intros _ _ s' e' w' H. unfold ret in H. injection H as <- <- _.
        split; apply Qle_refl.
    + split; [eexists; eexists; reflexivity|].
      intros _ _ s' e' w' H. unfold ret in H. injection H as <- <- _.
      split; apply Qle_refl.
Qed.

(** X18.  [FIX_END] discards the window planned so far.  With a manifest
    window [(s0, e0)] no longer than [FD] the window is [(s0, e0)] and
    no random number is read; with a longer one, and a random clip or a
    temporal index in [[0, NUM_ENSEMBLE_VIEWS]] with views to split
    over, it is a window of length [FD - 1] inside
    [[0, (e0 - s0) - 1]]: measured from [0], the manifest start is not
    added back. *)
Theorem fix_end_window (tsi index : Z) (s e : Q) (w : World) (s0 e0 : Z) :
  DATA_FIX_END (cfg (self_ w)) = Some true ->
  Py.getitem (_start (self_ w)) index = Some (Some s0) ->
  Py.getitem (_end (self_ w)) index = Some (Some e0) ->
  (tsi = (-1)%Z
   \/ (0 <= tsi <= TEST_NUM_ENSEMBLE_VIEWS (cfg (self_ w)))%Z
      /\ TEST_NUM_ENSEMBLE_VIEWS (cfg (self_ w)) <> 0%Z) ->
  let fd := DATA_FD (cfg (self_ w)) in
  let len := inject_Z e0 - inject_Z s0 in
  exists s' e' w',
    fix_end ext tsi index s e w = (Ok (s', e'), w')
    /\ (len <= fd -> s' = inject_Z s0 /\ e' = inject_Z e0 /\ w' = w)
    /\ (fd < len ->
        0 <= s' /\ s' <= len - fd /\ e' == s' + fd - 1 /\ e' <= len - 1).
Proof.
  intros Hfix Hs He Htsi fd len.
  unfold fix_end, bind, gets. rewrite Hfix, Hs, He. cbn [lift ret].
  fold fd. fold len.
  destruct (Qle_bool len fd) eqn:E.
  - apply Qle_bool_iff in E. cbn [negb].
    do 3 eexists. split; [reflexivity|].
    split; [intros _; repeat split|intros H; lra].
  - assert (Hlt : fd < len).
    { apply Qnot_le_lt. intros Hle. apply Qle_bool_iff in Hle. congruence. }
    cbn [negb].
    destruct (call_get_start_end_idx_returns len fd tsi
                (TEST_NUM_ENSEMBLE_VIEWS (cfg (self_ w))) w)
      as (s1 & e1 & w1 & Hc & He1).
    { destruct Htsi as [?|[_ ?]]; auto. }
    exists s1, e1, w1. split; [exact Hc|].
    split; [intros H; lra|]. intros _.
    destruct (call_get_start_end_idx_result _ _ _ _ _ _ _ Hc) as [raw Hg].
    assert (Hci : tsi = (-1)%Z
                  \/ (0 <= tsi <= TEST_NUM_ENSEMBLE_VIEWS (cfg (self_ w)))%Z)
      by (destruct Htsi as [?|[? _]]; auto).
    destruct (get_start_end_idx_slack _ _ _ _ _ _ _ Hg Hci)
      as (H0 & H1 & H2).
    rewrite Q.max_l in H1 by lra.
    repeat split; try assumption. lra.
Qed.

End Rederive.

Lemma fix_end_window_witness :
  let w := Demo2.fix_end_world 4 in
  DATA_FIX_END (cfg (self_ w)) = Some true
  /\ Py.getitem (_start (self_ w)) 0 = Some (Some 10)
  /\ Py.getitem (_end (self_ w)) 0 = Some (Some 20)
  /\ match fst (fix_end Demo.working 1 0 13 16 w) with
     | Ok (s', e') => (s' == 3 /\ e' == 6)%Q
     | Raise _ => False
     end
  /\ exists s' e' w',
       fix_end Demo.working 1 0 13 16 w = (Ok (s', e'), w')
       /\ ((inject_Z 20 - inject_Z 10 <= DATA_FD (cfg (self_ w)))%Q ->
           s' = inject_Z 10 /\ e' = inject_Z 20 /\ w' = w)
       /\ ((DATA_FD (cfg (self_ w)) < inject_Z 20 - inject_Z 10)%Q ->
           (0 <= s')%Q
           /\ (s' <= inject_Z 20 - inject_Z 10 - DATA_FD (cfg (self_ w)))%Q
           /\ (e' == s' + DATA_FD (cfg (self_ w)) - 1)%Q
           /\ (e' <= inject_Z 20 - inject_Z 10 - 1)%Q).
Proof.
  cbv zeta. split; [reflexivity|]. split; [reflexivity|].
  split; [reflexivity|]. split; [vm_compute; split; reflexivity|].
  apply (fix_end_window Demo.working 1 0 13 16 (Demo2.fix_end_world 4) 10 20);
    [reflexivity|reflexivity|reflexivity|].
  right. split; [split; [discriminate|discriminate]|discriminate].
Defined.

(** ** RetryOrchestrator: how a call ends *)

Lemma bind_Ok_inv {A B : Type} (m : M A) (k : A -> M B) w b w' :
  bind m k w = (Ok b, w') ->
  exists a w1, m w = (Ok a, w1) /\ k a w1 = (Ok b, w').
Proof.
  unfold bind. destruct (m w) as [[a|e] w1]; [eauto|discriminate].
Qed.

Lemma lift_Ok_inv {A : Type} (e : PyExn) (o : option A) w a w' :
  lift e o w = (Ok a, w') -> o = Some a /\ w' = w.
Proof.
  destruct o; cbn; intros H; [injection H as <- <-; auto|discriminate].
Qed.

Section FetchInversion.
Variable ext : External.

Lemma randint_Ok_inv (n : Z) w v w' :
  randint ext 0 (n - 1) w = (Ok v, w') ->
  0 <= v < n /\ log w' = log w /\ self_ w' = self_ w /\ trials w' = trials w.
Proof.
  unfold randint, Py.randint. destruct (n - 1 <? 0) eqn:E; [discriminate|].
  apply Z.ltb_ge in E. unfold bind, draw, lift, ret. cbn.
  intros H. injection H as <- <-. cbn.
  split; [|auto].
  replace (n - 1 - 0 + 1) with n by lia.
  pose proof (Z.mod_pos_bound (entropy ext (rng_pos w)) n). lia.
Qed.

Lemma on_open_failure_inv i index w v w' :
  on_open_failure ext i index w = (Ok v, w') ->
  log w' = log w ++ [FailedMetaLoad index i]
  /\ self_ w' = self_ w /\ trials w' = trials w
  /\ (v = index \/ 0 <= v < num_videos (self_ w)).
Proof.
  unfold on_open_failure. intros H.
  apply bind_Ok_inv in H. destruct H as (self & w0 & H0 & H).
  unfold gets in H0. injection H0 as <- <-.
  apply bind_Ok_inv in H. destruct H as (p & w1 & H1 & H).
  apply lift_Ok_inv in H1. destruct H1 as [_ ->].
  apply bind_Ok_inv in H. destruct H as ([] & w2 & H2 & H).
  unfold modify in H2. injection H2 as <-.
  destruct (negb _ && _).
  - apply randint_Ok_inv in H. destruct H as (Hv & Hl & Hs & Ht).
    rewrite Hl, Hs, Ht. cbn. auto.
  - unfold ret in H. injection H as <- <-. cbn. auto.
Qed.

Lemma on_decode_failure_inv i index w v w' :
  on_decode_failure ext i index w = (Ok v, w') ->
  log w' = log w ++ [FailedDecode index i]
  /\ self_ w' = self_ w /\ trials w' = trials w
  /\ (v = index \/ 0 <= v < num_videos (self_ w)).
Proof.
  unfold on_decode_failure. intros H.
  apply bind_Ok_inv in H. destruct H as (self & w0 & H0 & H).
  unfold gets in H0. injection H0 as <- <-.
  apply bind_Ok_inv in H. destruct H as (p & w1 & H1 & H).
  apply lift_Ok_inv in H1. destruct H1 as [_ ->].
  apply bind_Ok_inv in H. destruct H as ([] & w2 & H2 & H).
  unfold modify in H2. injection H2 as <-.
  apply bind_Ok_inv in H. destruct H as (v1 & w3 & H3 & H).
  assert (A : log w3 = log w ++ [FailedDecode index i]
              /\ self_ w3 = self_ w /\ trials w3 = trials w
              /\ (v1 = index \/ 0 <= v1 < num_videos (self_ w))).
  { destruct (negb _).
    - apply randint_Ok_inv in H3. destruct H3 as (Hv & Hl & Hs & Ht).
      rewrite Hl, Hs, Ht. cbn. auto.
    - unfold ret in H3. injection H3 as <- <-. cbn. auto. }
  destruct A as (Al & As & At & Av).
  destruct (_ && _).
  - apply randint_Ok_inv in H. destruct H as (Hv & Hl & Hs & Ht).
    rewrite Hl, Hs, Ht. cbn in *. auto.
  - unfold ret in H. injection H as <- <-. auto.
Qed.

(** How a round can end without an exception. *)
Lemma attempt_Ok_inv tsi ssi sci i index w step w' :
  attempt ext tsi ssi sci i index w = (Ok step, w') ->
  self_ w' = self_ w /\ trials w' = trials w
  /\ match step with
     | Continue index' =>
         (exists rec, log w' = log w ++ [rec]
                      /\ record_index rec = index /\ record_trial rec = i)
         /\ (index' = index \/ 0 <= index' < num_videos (self_ w))
     | Return r =>
         log w' = log w /\ r_index r = index
         /\ Py.getitem (_labels (self_ w)) index = Some (r_label r)
     end.
Proof.
  unfold attempt. intros H.
  apply bind_Ok_inv in H. destruct H as (self & w0 & H0 & H).
  unfold gets in H0. injection H0 as <- <-.
  apply bind_Ok_inv in H. destruct H as (vc & w1 & H1 & H).
  assert (Hw1 : w1 = w).
  { destruct (String.eqb _ _); [injection H1 as _ <-; reflexivity|].
    destruct (Py.getitem _ _); [|discriminate].
    destruct (get_video_container _ _ _); injection H1 as _ <-; reflexivity. }
  subst w1. clear H1.
  destruct vc as [video_container|].
  - apply bind_Ok_inv in H. destruct H as (plan & w2 & H2 & H).
    pose proof (keeps_plan_window log ltac:(reflexivity) ext tsi index w)
      as Kl.
    pose proof (keeps_plan_window self_ ltac:(reflexivity) ext tsi index w)
      as Ks.
    pose proof (keeps_plan_window trials ltac:(reflexivity) ext tsi index w)
      as Kt.
    rewrite H2 in Kl, Ks, Kt. cbn in Kl, Ks, Kt.
    destruct plan as [[start end_] al].
    apply bind_Ok_inv in H. destruct H as (duration & w3 & H3 & H).
    apply lift_Ok_inv in H3. destruct H3 as [_ ->].
    apply bind_Ok_inv in H. destruct H as (frames & w4 & H4 & H).
    assert (Hw4 : w4 = w2).
    { destruct video_container.
      - destruct (existsb _ _); [|discriminate].
        injection H4 as _ <-. reflexivity.
      - injection H4 as _ <-. reflexivity. }
    subst w4. clear H4.
    destruct frames as [frames|].
    + apply bind_Ok_inv in H. destruct H as (label & w5 & H5 & H).
      apply lift_Ok_inv in H5. destruct H5 as [Hl ->].
      unfold ret in H. injection H as <- <-. cbn.
      repeat split; assumption.
    + apply bind_Ok_inv in H. destruct H as (v & w5 & H5 & H).
      unfold ret in H. injection H as <- <-.
      apply on_decode_failure_inv in H5.
      destruct H5 as (Hl & Hs & Ht & Hv).
      rewrite Ks in Hv. rewrite Hl, Hs, Ht, Kl, Ks, Kt.
      split; [reflexivity|]. split; [reflexivity|].
      split; [eexists; split; [reflexivity|]; split; reflexivity|exact Hv].
  - apply bind_Ok_inv in H. destruct H as (v & w5 & H5 & H).
    unfold ret in H. injection H as <- <-.
    apply on_open_failure_inv in H5.
    destruct H5 as (Hl & Hs & Ht & Hv).
    split; [assumption|]. split; [assumption|].
    split; [eexists; split; [exact Hl|]; split; reflexivity|exact Hv].
Qed.

(** What a run of the loop that ends without an exception has done. *)
Lemma retry_loop_Ok_inv tsi ssi sci n :
  forall i index w res w',
    retry_loop ext tsi ssi sci n i index w = (Ok res, w') ->
    exists recs,
      log w' = log w ++ recs
      /\ map record_trial recs = seq i (List.length recs)
      /\ Forall (fun rec => record_index rec = index
                            \/ 0 <= record_index rec < num_videos (self_ w))
                recs
      /\ match res with
         | None => List.length recs = n /\ trials w' = (trials w + n)%nat
         | Some r =>
             (List.length recs < n)%nat
             /\ (r_index r = index
                 \/ 0 <= r_index r < num_videos (self_ w))
             /\ Py.getitem (_labels (self_ w)) (r_index r) = Some (r_label r)
         end.
Proof.
  induction n as [|n IH]; intros i index w res w' H.
  - cbn in H. injection H as <- <-. exists []. rewrite app_nil_r.
    repeat split; try constructor; lia.
  - rewrite retry_loop_S in H.
    destruct (attempt ext tsi ssi sci i index (add_trial w))
      as [[[index1|r]|e] w1] eqn:Ea; [| |discriminate].
    + apply attempt_Ok_inv in Ea.
      destruct Ea as (Hs & Ht & (rec & Hl & Hri & Hrt) & Hidx).
      cbn in Hs, Ht, Hl, Hidx.
      apply IH in H. destruct H as (recs & Hl2 & Htr & Hin & Hres).
      exists (rec :: recs). rewrite Hs in *.
      split; [rewrite Hl2, Hl, <- app_assoc; reflexivity|].
      split; [cbn; rewrite Hrt, Htr; reflexivity|].
      split.
      { constructor; [left; assumption|].
        eapply Forall_impl; [|exact Hin]. cbn. intros a [Ha|Ha]; [|auto].
        destruct Hidx as [->|Hidx]; [auto|right; lia]. }
      destruct res as [r|].
      * destruct Hres as (Hlen & Hr & Hlab).
        split; [cbn; lia|]. split; [|assumption].
        destruct Hr as [Hr|Hr]; [|auto].
        destruct Hidx as [->|Hidx]; [auto|right; lia].
      * destruct Hres as (Hlen & Htrials). cbn [List.length].
        split; [lia|]. lia.
    + apply attempt_Ok_inv in Ea.
      destruct Ea as (Hs & Ht & Hl & Hri & Hlab).
      cbn in Hs, Ht, Hl, Hlab. injection H as <- <-.
      exists []. rewrite app_nil_r.
      split; [assumption|]. split; [reflexivity|]. split; [constructor|].
      split; [cbn; lia|]. split; [left; assumption|].
      rewrite Hri. assumption.
Qed.

End FetchInversion.

(** ** Epoch multiplier: the index a call works on *)

(** C8.  With a multiplier [em > 1] a train dataset reports [em] times its
    number of logical samples, and [__getitem__] reduces the index
    modulo that number before use: the temporal and spatial indices are
    read at [index mod n], the retry loop starts on [index mod n], a
    call on [index] is the call on [index mod n], and every sample it
    returns and every warning it logs carries an index in [[0, n)].  A
    dataset of any other mode reports the number of its logical samples
    whatever the multiplier; the 10-row manifest with [em = 3] has
    length 30 for train and 10 for val and for test with one view and
    one crop. *)
Theorem epoch_multiplier_spec :
  (forall (self : Howto100m) (m : Z),
      em self = Some m -> 1 < m -> mode self = Train ->
      __len__ self = num_videos self * m)
  /\ (forall self : Howto100m,
        mode self <> Train -> __len__ self = num_videos self)
  /\ (forall (self : Howto100m) (m index : Z),
        em self = Some m -> 1 < m -> 0 < num_videos self ->
        let n := num_videos self in
        wrap_index self index = Ok (index mod n)
        /\ 0 <= index mod n < n
        /\ forall ext sci w,
             self_ w = self ->
             __getitem__ ext index sci w
             = match sample_indices self (index mod n) with
               | Ok (tsi, ssi) =>
                   retry_loop ext tsi ssi sci
                     (Z.to_nat (_num_retries self)) 0 (index mod n) w
               | Raise e => (Raise e, w)
               end
             /\ __getitem__ ext index sci w
                = __getitem__ ext (index mod n) sci w
             /\ (forall r w',
                   __getitem__ ext index sci w = (Ok (Some r), w') ->
                   0 <= r_index r < n)
             /\ (forall res w',
                   __getitem__ ext index sci w = (Ok res, w') ->
                   exists recs,
                     log w' = log w ++ recs
                     /\ Forall (fun rec => 0 <= record_index rec < n) recs))
  /\ (obind (Demo.load (Demo.config "pyav" "" (Some 3) None 1 1) Train
               Demo.manifest10) (fun self => Ok (__len__ self)) = Ok 30
      /\ obind (Demo.load (Demo.config "pyav" "" (Some 3) None 1 1) Val
                  Demo.manifest10) (fun self => Ok (__len__ self)) = Ok 10
      /\ obind (Demo.load (Demo.config "pyav" "" (Some 3) None 1 1) Test
                  Demo.manifest10) (fun self => Ok (__len__ self)) = Ok 10).
Proof.
  split; [|split; [|split]].
  - intros self m Hem Hm Hmode. unfold __len__, num_videos.
    rewrite Hem, Hmode.
    replace (1 <? m) with true by (symmetry; apply Z.ltb_lt; assumption).
    reflexivity.
  - intros self Hmode. unfold __len__, num_videos.
    destruct (em self) as [m|]; [|reflexivity].
    destruct (mode self); [congruence| |]; rewrite andb_false_r; reflexivity.
  - intros self m index Hem Hm Hn n. subst n.
    set (n := num_videos self) in *.
    assert (Hr : 0 <= index mod n < n) by (apply Z.mod_pos_bound; exact Hn).
    split; [apply (wrap_index_mod self m); assumption|].
    split; [exact Hr|].
    intros ext sci w Hw.
    assert (Hrun : __getitem__ ext index sci w
                   = match sample_indices self (index mod n) with
                     | Ok (tsi, ssi) =>
                         retry_loop ext tsi ssi sci
                           (Z.to_nat (_num_retries self)) 0 (index mod n) w
                     | Raise e => (Raise e, w)
                     end).
    { unfold __getitem__, bind, gets. rewrite Hw.
      rewrite (wrap_index_mod self m index) by assumption. cbn [obind].
      fold n. destruct (sample_indices self (index mod n)) as [[tsi ssi]|e];
        reflexivity. }
    split; [exact Hrun|].
    split.
    { unfold __getitem__, bind, gets. rewrite Hw.
      rewrite !(wrap_index_mod self m) by assumption. fold n.
      rewrite Z.mod_mod by lia. reflexivity. }
    assert (Hinv : forall res w',
              __getitem__ ext index sci w = (Ok res, w') ->
              exists recs,
                log w' = log w ++ recs
                /\ Forall (fun rec => 0 <= record_index rec < n) recs
                /\ match res with
                   | Some r => 0 <= r_index r < n
                   | None => True
                   end).
    { intros res w' H. rewrite Hrun in H.
      destruct (sample_indices self (index mod n)) as [[tsi ssi]|e];
        [|discriminate].
      apply retry_loop_Ok_inv in H.
      destruct H as (recs & Hl & _ & Hin & Hres). rewrite Hw in Hin, Hres.
      fold n in Hin, Hres.
      exists recs. split; [exact Hl|]. split.
      - eapply Forall_impl; [|exact Hin]. cbn. intros rec [->|H]; assumption.
      - destruct res as [r|]; [|exact I].
        destruct Hres as (_ & [->|H] & _); assumption. }
    split.
    + intros r w' H. destruct (Hinv _ _ H) as (_ & _ & _ & Hres). exact Hres.
    + intros res w' H. destruct (Hinv _ _ H) as (recs & Hl & Hin & _).
      exists recs. split; assumption.
  - repeat split; reflexivity.
Qed.

Lemma epoch_multiplier_spec_witness :
  (em Demo.train_em3 = Some 3 /\ 1 < 3 /\ mode Demo.train_em3 = Train
   /\ 0 < num_videos Demo.train_em3)
  /\ __len__ Demo.train_em3 = num_videos Demo.train_em3 * 3
  /\ wrap_index Demo.train_em3 7 = Ok (7 mod num_videos Demo.train_em3)
  /\ __getitem__ Demo.working 7 None
       (Demo.world Demo.train_em3 Demo.no_tables)
     = retry_loop Demo.working (-1) (-1) None 20 0 1
         (Demo.world Demo.train_em3 Demo.no_tables).
Proof.
  assert (H1 : em Demo.train_em3 = Some 3) by reflexivity.
  assert (H2 : 1 < 3) by lia.
  assert (H3 : mode Demo.train_em3 = Train) by reflexivity.
  assert (H4 : 0 < num_videos Demo.train_em3) by (vm_compute; reflexivity).
  split; [repeat split; assumption|].
  destruct epoch_multiplier_spec as (Hlen & _ & Hwrap & _).
  split; [exact (Hlen Demo.train_em3 3 H1 H2 H3)|].
  destruct (Hwrap Demo.train_em3 3 7 H1 H2 H4) as (Hw & _ & Hget).
  split; [exact Hw|].
  exact (proj1 (Hget Demo.working None
                  (Demo.world Demo.train_em3 Demo.no_tables) eq_refl)).
Defined.

(** ** CaptionAligner: the record selected for a known window *)

Section KnownWindow.

Local Open Scope Q_scope.

(** Between the table read and the result, the caption block leaves the
    world as it is. *)
Lemma align_caption_known (ext : External) (index : Z) (s e : Q)
    (w w' : World) (al : Aligned ext) :
  align_caption ext index (Some s) (Some e) w = (Ok al, w') ->
  exists path dir cap i row,
    Py.getitem (_path_to_videos (self_ w)) index = Some path
    /\ caps (self_ w) = Some dir
    /\ disk w (dir ++ vidid_of path ++ ".csv")%string = Some cap
    /\ select_by_overlap s e cap = Some i
    /\ Py.getitem (merged_table (self_ w) cap (Z.of_nat i)) (Z.of_nat i)
       = Some row
    /\ a_start ext al = Some (cap_start row)
    /\ a_end ext al = Some (cap_end row)
    /\ w' = w.
Proof.
  unfold align_caption. intros H.
  apply bind_Ok_inv in H. destruct H as (self & w0 & H0 & H).
  unfold gets in H0. injection H0 as <- <-.
  apply bind_Ok_inv in H. destruct H as (path & w1 & H1 & H).
  apply lift_Ok_inv in H1. destruct H1 as [Hp ->].
  apply bind_Ok_inv in H. destruct H as (dir & w1 & H1 & H).
  apply lift_Ok_inv in H1. destruct H1 as [Hc ->].
  apply bind_Ok_inv in H. destruct H as (table & w1 & H1 & H).
  unfold gets in H1. injection H1 as <- <-.
  apply bind_Ok_inv in H. destruct H as (cap & w1 & H1 & H).
  apply lift_Ok_inv in H1. destruct H1 as [Hd ->].
  apply bind_Ok_inv in H. destruct H as (ind & w1 & H1 & H).
  assert (Hi : exists i, select_by_overlap s e cap = Some i
                         /\ ind = Z.of_nat i /\ w1 = w).
  { destruct cap as [|r0 cap0]; [discriminate|].
    apply bind_Ok_inv in H1. destruct H1 as (e1 & w2 & H2 & H1).
    apply lift_Ok_inv in H2. destruct H2 as [He1 ->].
    injection He1 as <-.
    apply bind_Ok_inv in H1. destruct H1 as (i & w2 & H2 & H1).
    apply lift_Ok_inv in H2. destruct H2 as [Hs ->].
    unfold ret in H1. injection H1 as <- <-.
    exists i. split; [exact Hs|split; reflexivity]. }
  destruct Hi as (i & Hsel & -> & ->). clear H1.
  apply bind_Ok_inv in H. destruct H as (cap_emb & w1 & H1 & H).
  assert (Hw1 : w1 = w).
  { destruct (caps_emb (self_ w)) as [emb_dir|].
    - apply bind_Ok_inv in H1. destruct H1 as (rows & w2 & H2 & H1).
      apply lift_Ok_inv in H2. destruct H2 as [_ ->].
      apply bind_Ok_inv in H1. destruct H1 as (v & w2 & H2 & H1).
      apply lift_Ok_inv in H2. destruct H2 as [_ ->].
      unfold ret in H1. injection H1 as _ <-. reflexivity.
    - unfold ret in H1. injection H1 as _ <-. reflexivity. }
  subst w1. clear H1.
  apply bind_Ok_inv in H. destruct H as (cap' & w1 & H1 & H).
  assert (Hm : cap' = merged_table (self_ w) cap (Z.of_nat i) /\ w1 = w).
  { unfold merged_table. destruct (min_len (self_ w)) as [ml|].
    - destruct (0 <? ml)%Z.
      + destruct (min_len_merge cap (Z.of_nat i) ml); try discriminate.
        unfold ret in H1. injection H1 as <- <-. auto.
      + unfold ret in H1. injection H1 as <- <-. auto.
    - unfold ret in H1. injection H1 as <- <-. auto. }
  destruct Hm as [-> ->]. clear H1.
  apply bind_Ok_inv in H. destruct H as (row & w1 & H1 & H).
  apply lift_Ok_inv in H1. destruct H1 as [Hrow ->].
  apply bind_Ok_inv in H. destruct H as (text & w1 & H1 & H).
  assert (Hw1 : w1 = w).
  { destruct (_ || _).
    - destruct (has_tokenizer (self_ w)); [|discriminate].
      unfold ret in H1. injection H1 as _ <-. reflexivity.
    - unfold ret in H1. injection H1 as _ <-. reflexivity. }
  subst w1. unfold ret in H. injection H as <- <-.
  exists path, dir, cap, i, row. cbn [a_start a_end].
  repeat split; assumption.
Qed.

(** C4.  With a known window the aligner takes the record that
    [np.argmax] picks in the list of overlaps
    [max(min(end, r.end) - max(start, r.start), 0)], the difference
    being the binary64 one: a record of largest overlap, every record
    before it having a strictly smaller overlap (the first of equal
    maxima wins).  [align_caption], called with a window, reads the
    table of the video, selects that record and returns the window of
    its row (the row as the minimum-length merge has left it).  For the
    records [(0,5,"a"), (4,10,"b"), (20,25,"c")] and the window [(3, 6)]
    the overlaps are [2, 2, 0] and record ["a"] is picked. *)
Theorem select_by_overlap_spec :
  (forall (start end_ : Q) (cap : list CapRow),
      cap <> [] ->
      exists i r,
        select_by_overlap start end_ cap = Some i
        /\ nth_error cap i = Some r
        /\ (forall j r', nth_error cap j = Some r' ->
                         overlap_of start end_ r' <= overlap_of start end_ r)
        /\ (forall j r', (j < i)%nat -> nth_error cap j = Some r' ->
                         overlap_of start end_ r' < overlap_of start end_ r))
  /\ (forall (ext : External) (index : Z) (start end_ : Q) (w w' : World)
             (al : Aligned ext),
        align_caption ext index (Some start) (Some end_) w = (Ok al, w') ->
        exists path dir cap i r row,
          Py.getitem (_path_to_videos (self_ w)) index = Some path
          /\ caps (self_ w) = Some dir
          /\ disk w (dir ++ vidid_of path ++ ".csv")%string = Some cap
          /\ select_by_overlap start end_ cap = Some i
          /\ nth_error cap i = Some r
          /\ (forall j r', nth_error cap j = Some r' ->
                overlap_of start end_ r' <= overlap_of start end_ r)
          /\ (forall j r', (j < i)%nat -> nth_error cap j = Some r' ->
                overlap_of start end_ r' < overlap_of start end_ r)
          /\ Py.getitem (merged_table (self_ w) cap (Z.of_nat i))
                (Z.of_nat i) = Some row
          /\ (min_len (self_ w) = None -> row = r)
          /\ a_start ext al = Some (cap_start row)
          /\ a_end ext al = Some (cap_end row))
  /\ overlaps 3 6 Demo.rows_abc = [2; 2; 0]
  /\ select_by_overlap 3 6 Demo.rows_abc = Some 0%nat
  /\ option_map cap_text (nth_error Demo.rows_abc 0) = Some (Some "a").
Proof.
  assert (Hsel : forall (start end_ : Q) (cap : list CapRow),
      cap <> [] ->
      exists i r,
        select_by_overlap start end_ cap = Some i
        /\ nth_error cap i = Some r
        /\ (forall j r', nth_error cap j = Some r' ->
                         overlap_of start end_ r' <= overlap_of start end_ r)
        /\ (forall j r', (j < i)%nat -> nth_error cap j = Some r' ->
                         overlap_of start end_ r' < overlap_of start end_ r)).
  { intros start end_ cap Hne.
    destruct (argmax_spec (overlaps start end_ cap))
      as (i & v & Hi & Hv & Hmax & Hfirst).
    { destruct cap; [congruence|discriminate]. }
    unfold overlaps in Hv, Hmax, Hfirst.
    rewrite nth_error_map in Hv.
    destruct (nth_error cap i) as [r|] eqn:Hr; [|discriminate].
    injection Hv as <-.
    exists i, r. split; [exact Hi|]. split; [exact Hr|].
    split.
    - intros j r' Hj. apply (Hmax j). rewrite nth_error_map, Hj. reflexivity.
    - intros j r' Hlt Hj. apply (Hfirst j); [assumption|].
      rewrite nth_error_map, Hj. reflexivity. }
  split; [exact Hsel|]. split; [|repeat split; reflexivity].
  intros ext index start end_ w w' al H.
  destruct (align_caption_known _ _ _ _ _ _ _ H)
    as (path & dir & cap & i & row & Hp & Hc & Hd & Hi & Hrow & Hs & He & _).
  assert (Hne : cap <> []).
  { intros ->. discriminate Hi. }
  destruct (Hsel start end_ cap Hne) as (i' & r & Hi' & Hr & Hmax & Hfirst).
  assert (i' = i) by congruence. subst i'.
  exists path, dir, cap, i, r, row.
  repeat split; try assumption.
  intros Hml. unfold merged_table in Hrow. rewrite Hml in Hrow.
  assert (Hlt : (i < List.length cap)%nat)
    by (apply nth_error_Some; congruence).
  unfold Py.getitem in Hrow.
  replace ((0 <=? Z.of_nat i) && (Z.of_nat i <? Z.of_nat (List.length cap)))%Z
    with true in Hrow
    by (symmetry; apply andb_true_iff; split;
        [apply Z.leb_le|apply Z.ltb_lt]; lia).
  rewrite Nat2Z.id in Hrow. congruence.
Qed.

Lemma select_by_overlap_spec_witness :
  Demo.rows_abc <> []
  /\ exists i r,
       select_by_overlap 3 6 Demo.rows_abc = Some i
       /\ nth_error Demo.rows_abc i = Some r
       /\ (forall j r', nth_error Demo.rows_abc j = Some r' ->
                        overlap_of 3 6 r' <= overlap_of 3 6 r)
       /\ (forall j r', (j < i)%nat -> nth_error Demo.rows_abc j = Some r' ->
                        overlap_of 3 6 r' < overlap_of 3 6 r).
Proof.
  assert (H : Demo.rows_abc <> []) by discriminate.
  split; [exact H|].
  exact (proj1 select_by_overlap_spec 3 6 Demo.rows_abc H).
Defined.

(** Rounding decides ties.  For the window [(0, 5)] and the rows
    [(0, 1)] and [(0.1, 1.1)], read as binary64 numbers, the second
    difference is [1 + 3 * 2^-55] before rounding and [1] after it: the
    overlaps are equal and the first record is picked. *)
Example select_by_overlap_rounded_tie :
  let near :=
    [ {| cap_start := 0; cap_end := 1; cap_text := Some "a" |};
      {| cap_start := Float64.round (1 # 10);
         cap_end := Float64.round (11 # 10); cap_text := Some "b" |} ] in
  Float64.round (1 # 10) = 3602879701896397 # 36028797018963968
  /\ Float64.round (11 # 10) = 2476979795053773 # 2251799813685248
  /\ 1 < Float64.round (11 # 10) - Float64.round (1 # 10)
  /\ overlaps 0 5 near = [1; 1]
  /\ select_by_overlap 0 5 near = Some 0%nat.
Proof. repeat split; reflexivity. Qed.

(** On the two-row table and the window [(1, 2)] the second record is
    selected, with overlaps [0] and [1]; the result carries the window
    and the text of its row as the merge to five words has left it. *)
Example align_caption_selects :
  overlaps 1 2 Demo.rows_xa = [0; 1]
  /\ select_by_overlap 1 2 Demo.rows_xa = Some 1%nat
  /\ match fst (align_caption Demo.working 0 (Some 1) (Some 2)
                  Demo.ffmpeg_val_captions) with
     | Ok al =>
         a_start Demo.working al = Some 1
         /\ a_end Demo.working al = Some 2
         /\ a_text Demo.working al = Some "a b a b a b"
     | Raise _ => False
     end.
Proof. repeat split; reflexivity. Qed.

End KnownWindow.

Section FetchErrors.
Variable ext : External.

(** X20.  A sample that [__getitem__] returns carries the label stored
    for the index it reports, and that index is the wrapped index asked
    for or an index inside the arrays. *)
Theorem getitem_result_label (index : Z) (sci : option Z) (w w' : World)
    (r : Result ext) :
  __getitem__ ext index sci w = (Ok (Some r), w') ->
  Py.getitem (_labels (self_ w)) (r_index r) = Some (r_label r)
  /\ exists index0,
       wrap_index (self_ w) index = Ok index0
       /\ (r_index r = index0 \/ 0 <= r_index r < num_videos (self_ w)).
Proof.
  unfold __getitem__. intros H.
  apply bind_Ok_inv in H. destruct H as (self & w0 & H0 & H).
  unfold gets in H0. injection H0 as <- <-.
  destruct (wrap_index (self_ w) index) as [index0|] eqn:Ew;
    [|discriminate].
  cbn [obind] in H.
  destruct (sample_indices (self_ w) index0) as [[tsi ssi]|] eqn:Es;
    [|discriminate].
  cbn [obind] in H.
  apply retry_loop_Ok_inv in H.
  destruct H as (recs & _ & _ & _ & _ & Hidx & Hlab).
  split; [exact Hlab|]. exists index0. split; [reflexivity|exact Hidx].
Qed.

(** X21.  When [__getitem__] falls off the end of its loop and returns
    [None], it has run [_num_retries] rounds and every round has logged
    one warning: the trials [0 .. _num_retries - 1], in order. *)
Theorem getitem_none_exhausted (index : Z) (sci : option Z) (w w' : World) :
  __getitem__ ext index sci w = (Ok None, w') ->
  let n := Z.to_nat (_num_retries (self_ w)) in
  trials w' = (trials w + n)%nat
  /\ exists recs,
       log w' = log w ++ recs
       /\ List.length recs = n
       /\ map record_trial recs = seq 0 n.
Proof.
  unfold __getitem__. intros H.
  apply bind_Ok_inv in H. destruct H as (self & w0 & H0 & H).
  unfold gets in H0. injection H0 as <- <-.
  destruct (wrap_index (self_ w) index) as [index0|] eqn:Ew;
    [|discriminate].
  cbn [obind] in H.
  destruct (sample_indices (self_ w) index0) as [[tsi ssi]|] eqn:Es;
    [|discriminate].
  cbn [obind] in H.
  apply retry_loop_Ok_inv in H.
  destruct H as (recs & Hl & Htr & _ & Hlen & Htrials).
  cbv zeta. split; [exact Htrials|].
  exists recs. split; [exact Hl|]. split; [exact Hlen|].
  rewrite Htr, Hlen. reflexivity.
Qed.

Lemma attempt_plan_raise tsi ssi sci i index w e w1 :
  container_ready ext (self_ w) i index ->
  plan_window ext tsi index w = (Raise e, w1) ->
  attempt ext tsi ssi sci i index w = (Raise e, w1).
Proof.
  intros Hc Hp. unfold attempt. unfold bind at 1. unfold gets at 1.
  cbv beta iota. unfold bind at 1.
  destruct Hc as [Hf|(path & vc & Hpath & Hvc)].
  - rewrite Hf. unfold ret at 1. cbv beta iota.
    unfold bind at 1. rewrite Hp. reflexivity.
  - destruct (String.eqb _ _).
    + unfold ret at 1. cbv beta iota. unfold bind at 1. rewrite Hp.
      reflexivity.
    + rewrite Hpath, Hvc. unfold ret at 1. cbv beta iota.
      unfold bind at 1. rewrite Hp. reflexivity.
Qed.

Lemma getitem_first_round_raise index sci w index0 tsi ssi e w1 :
  0 < _num_retries (self_ w) ->
  wrap_index (self_ w) index = Ok index0 ->
  sample_indices (self_ w) index0 = Ok (tsi, ssi) ->
  attempt ext tsi ssi sci 0 index0 (add_trial w) = (Raise e, w1) ->
  __getitem__ ext index sci w = (Raise e, w1).
Proof.
  intros Hn Hw Hs Ha.
  rewrite (getitem_unfold ext _ _ _ _ _ _ Hw Hs).
  destruct (Z.to_nat (_num_retries (self_ w))) as [|n] eqn:En; [lia|].
  rewrite retry_loop_S, Ha. reflexivity.
Qed.

Lemma plan_window_caption_error tsi index w path duration s0 e0 :
  Py.getitem (_path_to_videos (self_ w)) index = Some path ->
  Py.getitem (_durations (self_ w)) index = Some duration ->
  Py.getitem (_start (self_ w)) index = Some s0 ->
  Py.getitem (_end (self_ w)) index = Some e0 ->
  (caps (self_ w) = None -> labels (self_ w) <> None -> s0 = None ->
   plan_window ext tsi index w = (Raise TypeError, w))
  /\ (forall dir,
        caps (self_ w) = Some dir ->
        (disk w (dir ++ vidid_of path ++ ".csv")%string = None ->
         plan_window ext tsi index w = (Raise FileNotFoundError, w))
        /\ (disk w (dir ++ vidid_of path ++ ".csv")%string = Some [] ->
            plan_window ext tsi index w = (Raise ValueError, w))).
Proof.
  intros Hp Hd Hs He.
  split; [|intros dir Hc; split].
  - intros Hc Hl ->. unfold plan_window, bind, gets.
    rewrite Hd, Hs, He. cbn [lift ret option_map]. rewrite Hc.
    destruct (labels (self_ w)); [|congruence]. cbn [orb andb negb].
    unfold align_caption, bind, gets. rewrite Hp, Hc. reflexivity.
  - intros Hdisk. unfold plan_window, bind, gets.
    rewrite Hd, Hs, He. cbn [lift ret]. rewrite Hc.
    rewrite orb_true_r. cbn [andb negb].
    unfold align_caption, bind, gets. rewrite Hp, Hc. cbn [lift ret].
    rewrite Hdisk. reflexivity.
  - intros Hdisk. unfold plan_window, bind, gets.
    rewrite Hd, Hs, He. cbn [lift ret]. rewrite Hc.
    rewrite orb_true_r. cbn [andb negb].
    unfold align_caption, bind, gets. rewrite Hp, Hc. cbn [lift ret].
    rewrite Hdisk. cbn [lift ret].
    destruct (option_map inject_Z s0); reflexivity.
Qed.

(** X22.  A caption table that cannot be read ends the call with an
    exception in its first round, without a retry or a warning:
    [TypeError] without a caption directory when labels are set and the
    manifest has no window, [FileNotFoundError] for a missing table,
    [ValueError] for a table without rows. *)
Theorem getitem_caption_error (index : Z) (sci : option Z) (w : World)
    (index0 tsi ssi : Z) (path : string) (duration : Z)
    (s0 e0 : option Z) :
  0 < _num_retries (self_ w) ->
  wrap_index (self_ w) index = Ok index0 ->
  sample_indices (self_ w) index0 = Ok (tsi, ssi) ->
  container_ready ext (self_ w) 0 index0 ->
  Py.getitem (_path_to_videos (self_ w)) index0 = Some path ->
  Py.getitem (_durations (self_ w)) index0 = Some duration ->
  Py.getitem (_start (self_ w)) index0 = Some s0 ->
  Py.getitem (_end (self_ w)) index0 = Some e0 ->
  let ends_with e :=
    fst (__getitem__ ext index sci w) = Raise e
    /\ log (snd (__getitem__ ext index sci w)) = log w
    /\ trials (snd (__getitem__ ext index sci w)) = S (trials w) in
  (caps (self_ w) = None -> labels (self_ w) <> None -> s0 = None ->
   ends_with TypeError)
  /\ (forall dir,
        caps (self_ w) = Some dir ->
        (disk w (dir ++ vidid_of path ++ ".csv")%string = None ->
         ends_with FileNotFoundError)
        /\ (disk w (dir ++ vidid_of path ++ ".csv")%string = Some [] ->
            ends_with ValueError)).
Proof.
  intros Hn Hw Hsi Hc Hp Hd Hs He ends_with.
  destruct (plan_window_caption_error tsi index0 (add_trial w) path duration
              s0 e0 Hp Hd Hs He) as [HT HF].
  assert (Hend : forall e,
            plan_window ext tsi index0 (add_trial w)
            = (Raise e, add_trial w) ->
            ends_with e).
  { intros e Hplan. unfold ends_with.
    assert (Ha : attempt ext tsi ssi sci 0 index0 (add_trial w)
                 = (Raise e, add_trial w))
      by (apply attempt_plan_raise; [exact Hc|exact Hplan]).
    rewrite (getitem_first_round_raise index sci w index0 tsi ssi e
               (add_trial w) Hn Hw Hsi Ha).
    repeat split. }
  split; [|intros dir Hcaps; destruct (HF dir Hcaps) as [HF1 HF2]; split].
  - intros H1 H2 H3. apply Hend, HT; assumption.
  - intros H1. apply Hend, HF1; assumption.
  - intros H1. apply Hend, HF2; assumption.
Qed.

(** X23.  An index outside the arrays, which the epoch multiplier does
    not wrap, raises [IndexError] in the first round: it is not replaced
    by a random index, and nothing is logged. *)
Theorem getitem_index_error (index : Z) (sci : option Z) (w : World) :
  let self := self_ w in
  let n := num_videos self in
  0 < _num_retries self ->
  wrap_index self index = Ok index ->
  List.length (_durations self) = List.length (_path_to_videos self) ->
  List.length (_spatial_temporal_idx self)
  = List.length (_path_to_videos self) ->
  index < - n \/ n <= index ->
  fst (__getitem__ ext index sci w) = Raise IndexError
  /\ log (snd (__getitem__ ext index sci w)) = log w.
Proof.
  intros self n Hn Hw Hld Hls Hout.
  assert (Hp : Py.getitem (_path_to_videos self) index = None)
    by (apply getitem_out_of_range; exact Hout).
  assert (Hd : Py.getitem (_durations self) index = None)
    by (apply getitem_out_of_range; rewrite Hld; exact Hout).
  assert (Hs : Py.getitem (_spatial_temporal_idx self) index = None)
    by (apply getitem_out_of_range; rewrite Hls; exact Hout).
  destruct (sample_indices self index) as [[tsi ssi]|e] eqn:Esi.
  - assert (Ha : attempt ext tsi ssi sci 0 index (add_trial w)
                 = (Raise IndexError, add_trial w)).
    { unfold attempt. unfold bind at 1. unfold gets at 1. cbv beta iota.
      change (self_ (add_trial w)) with self.
      unfold bind at 1. rewrite Hp.
      destruct (String.eqb _ _); [|reflexivity].
      unfold ret at 1. cbv beta iota. unfold bind at 1.
      unfold plan_window. unfold bind at 1. unfold gets at 1.
      cbv beta iota. change (self_ (add_trial w)) with self.
      unfold bind at 1. rewrite Hd. reflexivity. }
    rewrite (getitem_first_round_raise _ _ _ _ _ _ _ _ Hn Hw Esi Ha).
    repeat split; reflexivity.
  - unfold __getitem__, bind, gets. fold self. rewrite Hw. cbn [obind].
    rewrite Esi. cbn [obind raise fst snd].
    split; [|reflexivity].
    unfold sample_indices in Esi. fold self in Esi.
    destruct (mode self); try discriminate.
    rewrite Hs in Esi. cbn in Esi. congruence.
Qed.

End FetchErrors.

Lemma getitem_result_label_witness :
  exists r w',
    __getitem__ Demo.working 0 None Demo.ffmpeg_val_captions
    = (Ok (Some r), w')
    /\ r_label r = 0 /\ r_index r = 0
    /\ Py.getitem (_labels (self_ Demo.ffmpeg_val_captions)) (r_index r)
       = Some (r_label r)
    /\ exists index0,
         wrap_index (self_ Demo.ffmpeg_val_captions) 0 = Ok index0
         /\ (r_index r = index0
             \/ 0 <= r_index r
                < num_videos (self_ Demo.ffmpeg_val_captions)).
Proof.
  eexists. eexists. split; [vm_compute; reflexivity|].
  split; [reflexivity|]. split; [reflexivity|].
  eapply (getitem_result_label Demo.working 0 None Demo.ffmpeg_val_captions).
  vm_compute. reflexivity.
Defined.

Lemma getitem_none_exhausted_witness :
  exists w',
    __getitem__ Demo.broken 0 None Demo.pyav_train = (Ok None, w')
    /\ trials w' = (trials Demo.pyav_train + 20)%nat
    /\ exists recs,
         log w' = log Demo.pyav_train ++ recs
         /\ List.length recs = 20%nat
         /\ map record_trial recs = seq 0 20.
Proof.
  eexists. split; [vm_compute; reflexivity|].
  apply (getitem_none_exhausted Demo.broken 0 None Demo.pyav_train).
  vm_compute. reflexivity.
Defined.

Lemma getitem_caption_error_witness :
  let w := Demo2.captions_missing in
  0 < _num_retries (self_ w)
  /\ wrap_index (self_ w) 1 = Ok 1
  /\ sample_indices (self_ w) 1 = Ok (-1, -1)
  /\ Py.getitem (_path_to_videos (self_ w)) 1 = Some "/data/v1"
  /\ caps (self_ w) = Some "/caps/"
  /\ disk w ("/caps/" ++ vidid_of "/data/v1" ++ ".csv")%string = None
  /\ fst (__getitem__ Demo.working 1 None w) = Raise FileNotFoundError
  /\ log (snd (__getitem__ Demo.working 1 None w)) = log w
  /\ trials (snd (__getitem__ Demo.working 1 None w)) = S (trials w).
Proof.
  cbv zeta. split; [reflexivity|]. split; [reflexivity|].
  split; [reflexivity|]. split; [reflexivity|]. split; [reflexivity|].
  split; [reflexivity|].
  refine (proj1 (proj2
            (getitem_caption_error Demo.working 1 None Demo2.captions_missing
               1 (-1) (-1) "/data/v1" 40 None None
               eq_refl eq_refl eq_refl (or_introl eq_refl)
               eq_refl eq_refl eq_refl eq_refl)
            "/caps/" eq_refl) eq_refl).
Defined.

Lemma getitem_index_error_witness :
  let w := Demo.pyav_train in
  0 < _num_retries (self_ w)
  /\ wrap_index (self_ w) 5 = Ok 5
  /\ num_videos (self_ w) <= 5
  /\ fst (__getitem__ Demo.working 5 None w) = Raise IndexError
  /\ log (snd (__getitem__ Demo.working 5 None w)) = log w.
Proof.
  cbv zeta. split; [reflexivity|]. split; [reflexivity|].
  split; [discriminate|].
  apply (getitem_index_error Demo.working 5 None Demo.pyav_train);
    [reflexivity|reflexivity|reflexivity|reflexivity|right; discriminate].
Defined.

(** ** RetryOrchestrator: what a returned sample holds *)

Section FetchResult.

Variable ext : External.




End FetchResult.


(** ** RetryOrchestrator: when the generator is read *)

Section TestDraws.

Variable ext : External.

Lemma keeps_at {X A : Type} (proj : World -> X) (m : M A) :
  keeps proj m -> forall w, proj (snd (m w)) = proj w.
Proof. intros H. exact H. Qed.

(** [bind] at one world: the continuation is entered only with what the
    first computation has returned there. *)
Lemma keeps_bind_at {X A B : Type} (proj : World -> X) (m : M A)
    (k : A -> M B) (w : World) :
  proj (snd (m w)) = proj w ->
  (forall a w1, m w = (Ok a, w1) -> proj (snd (k a w1)) = proj w1) ->
  proj (snd (bind m k w)) = proj w.
Proof.
  intros Hm Hk. unfold bind. destruct (m w) as [[a|e] w1] eqn:E.
  - cbn in Hm. rewrite (Hk a w1 eq_refl). exact Hm.
  - exact Hm.
Qed.

Ltac keeps_rng :=
  repeat first
    [ apply keeps_bind; [|intros]
    | apply keeps_ret
    | apply keeps_raise
    | apply keeps_lift
    | apply keeps_gets
    | apply keeps_try
    | match goal with
      | |- keeps _ (match ?x with _ => _ end) => destruct x
      | |- keeps _ (let '(_, _) := ?x in _) => destruct x
      end ].

Lemma keeps_rng_call vs cs ci nc :
  ci <> -1 -> keeps rng_pos (call_get_start_end_idx ext vs cs ci nc).
Proof.
  intros H. unfold call_get_start_end_idx.
  replace (ci =? -1) with false by (symmetry; apply Z.eqb_neq; exact H).
  apply keeps_lift.
Qed.

Lemma keeps_rng_rederive tsi s e :
  tsi <> -1 -> keeps rng_pos (rederive ext tsi s e).
Proof.
  intros H. unfold rederive.
  apply keeps_bind; [apply keeps_gets|intros c].
  destruct (_ && _); [apply keeps_ret|].
  destruct (_ && _); [|apply keeps_ret].
  apply keeps_bind; [apply keeps_try, keeps_rng_call, H|intros r].
  destruct r as [[s1 e1]|]; apply keeps_ret.
Qed.

Lemma keeps_rng_fix_end tsi index s e :
  tsi <> -1 -> keeps rng_pos (fix_end ext tsi index s e).
Proof.
  intros H. unfold fix_end.
  apply keeps_bind; [apply keeps_gets|intros self].
  destruct (DATA_FIX_END (cfg self)) as [[|]|]; try apply keeps_ret.
  apply keeps_bind; [apply keeps_lift|intros s1].
  apply keeps_bind; [apply keeps_lift|intros e1].
  apply keeps_bind; [apply keeps_lift|intros e2].
  apply keeps_bind; [apply keeps_lift|intros s2].
  destruct (negb _); [apply keeps_rng_call, H|apply keeps_ret].
Qed.

(** With a manifest window the caption is selected by overlap: no
    draw. *)
Lemma keeps_rng_align_given index s e :
  keeps rng_pos (align_caption ext index (Some s) e).
Proof. unfold align_caption. keeps_rng. Qed.

Lemma align_caption_no_caps index s e w :
  caps (self_ w) = None ->
  rng_pos (snd (align_caption ext index s e w)) = rng_pos w.
Proof.
  intros H. unfold align_caption, bind, gets. rewrite H.
  destruct (Py.getitem _ _); reflexivity.
Qed.

(** The window is planned without a draw when the clip is a tile of the
    video and the caption, if one is read, is selected by overlap. *)
Lemma plan_window_no_draw tsi index w :
  tsi <> -1 ->
  (caps (self_ w) = None
   \/ exists s0, Py.getitem (_start (self_ w)) index = Some (Some s0)) ->
  rng_pos (snd (plan_window ext tsi index w)) = rng_pos w.
Proof.
  intros Htsi Hcond. unfold plan_window.
  apply keeps_bind_at; [reflexivity|]. intros self w1 H.
  unfold gets in H. injection H as <- <-.
  apply keeps_bind_at; [apply keeps_at, keeps_lift|]. intros duration w1 H.
  apply lift_Ok_inv in H. destruct H as [Hd ->].
  apply keeps_bind_at; [apply keeps_at, keeps_lift|]. intros start w1 H.
  apply lift_Ok_inv in H. destruct H as [Hs ->].
  apply keeps_bind_at; [apply keeps_at, keeps_lift|]. intros end_ w1 H.
  apply lift_Ok_inv in H. destruct H as [He ->].
  apply keeps_bind_at.
  - destruct (_ && _); [|reflexivity].
    destruct Hcond as [Hc|(s0 & Hs0)].
    + apply align_caption_no_caps, Hc.
    + rewrite Hs0 in Hs. injection Hs as <-. cbn [option_map].
      apply keeps_at, keeps_rng_align_given.
  - intros al w1 _. apply keeps_at.
    apply keeps_bind.
    { destruct (a_start _ al).
      - apply keeps_ret.
      - apply keeps_bind; [apply keeps_rng_call, Htsi|intros].
        apply keeps_ret. }
    intros se.
    apply keeps_bind; [apply keeps_lift|intros e1].
    destruct (reconcile_short _ _ _ _) as [s2 e2].
    apply keeps_bind; [apply keeps_rng_rederive, Htsi|intros se2].
    apply keeps_bind; [apply keeps_rng_fix_end, Htsi|intros se3].
    apply keeps_ret.
Qed.

Lemma on_open_failure_test i index w :
  mode (self_ w) = Test ->
  rng_pos (snd (on_open_failure ext i index w)) = rng_pos w
  /\ forall v w', on_open_failure ext i index w = (Ok v, w') -> v = index.
Proof.
  intros Hm. unfold on_open_failure, bind, gets, modify. rewrite Hm.
  destruct (Py.getitem _ _); cbn; split; try reflexivity;
    intros v w' H; [injection H as <- _; reflexivity|discriminate H].
Qed.

Lemma on_decode_failure_test i index w :
  mode (self_ w) = Test ->
  Z.of_nat i <= _num_retries (self_ w) / 2 ->
  rng_pos (snd (on_decode_failure ext i index w)) = rng_pos w
  /\ forall v w', on_decode_failure ext i index w = (Ok v, w') -> v = index.
Proof.
  intros Hm Hi. unfold on_decode_failure, bind, gets, modify. rewrite Hm.
  cbn [mode_eqb negb andb add_log self_].
  replace (_num_retries (self_ w) / 2 <? Z.of_nat i) with false
    by (symmetry; apply Z.ltb_ge; exact Hi).
  destruct (Py.getitem _ _); cbn; split; try reflexivity;
    intros v w' H; [injection H as <- _; reflexivity|discriminate H].
Qed.

(** One round in test mode, in the first half of the budget. *)
Lemma attempt_test_no_draw tsi ssi sci i index w :
  mode (self_ w) = Test ->
  tsi <> -1 ->
  (caps (self_ w) = None
   \/ exists s0, Py.getitem (_start (self_ w)) index = Some (Some s0)) ->
  Z.of_nat i <= _num_retries (self_ w) / 2 ->
  exists o w2,
    attempt ext tsi ssi sci i index w = (o, w2)
    /\ rng_pos w2 = rng_pos w
    /\ forall index', o = Ok (Continue index') -> index' = index.
Proof.
  intros Hm Htsi Hcond Hi.
  pose proof (plan_window_no_draw tsi index w Htsi Hcond) as Kr.
  pose proof (keeps_plan_window self_ ltac:(reflexivity) ext tsi index w)
    as Ks.
  unfold attempt. unfold bind at 1. unfold gets at 1. cbv beta iota.
  unfold bind at 1.
  set (vcm := if String.eqb _ _ then _ else _).
  assert (Hvc : exists res, vcm w = (res, w)).
  { subst vcm. destruct (String.eqb _ _); [eexists; reflexivity|].
    destruct (Py.getitem (_path_to_videos (self_ w)) index) as [path|];
      [|eexists; reflexivity].
    destruct (get_video_container ext i path); eexists; reflexivity. }
  destruct Hvc as (res & ->). clearbody vcm.
  destruct res as [[video_container|]|e].
  - unfold bind at 1.
    destruct (plan_window ext tsi index w) as [[plan|e] w2] eqn:Ep;
      cbn [fst snd] in Kr, Ks.
    2:{ do 2 eexists. split; [reflexivity|].
        split; [exact Kr|intros; discriminate]. }
    destruct plan as [[start end_] al].
    unfold bind at 1.
    destruct (Py.getitem (_durations (self_ w)) index) as [duration|];
      cbn [lift ret raise].
    2:{ do 2 eexists. split; [reflexivity|].
        split; [exact Kr|intros; discriminate]. }
    unfold bind at 1.
    set (fm := match video_container with Some _ => _ | None => _ end).
    assert (Hf : exists res, fm w2 = (res, w2)).
    { subst fm. destruct video_container; [|eexists; reflexivity].
      destruct (existsb _ _); eexists; reflexivity. }
    destruct Hf as (res & ->). clearbody fm.
    destruct res as [[frames|]|e].
    + unfold bind at 1.
      destruct (Py.getitem (_labels (self_ w)) index);
        cbn [lift ret raise]; do 2 eexists;
        (split; [reflexivity|]); (split; [exact Kr|intros; discriminate]).
    + unfold bind at 1.
      destruct (on_decode_failure_test i index w2) as [Hr Hv];
        [rewrite Ks; exact Hm|rewrite Ks; exact Hi|].
      destruct (on_decode_failure ext i index w2) as [[v|e] w3] eqn:Eo;
        cbn [ret fst snd] in *; do 2 eexists; (split; [reflexivity|]).
      * split; [congruence|].
        intros index' H. injection H as <-. eapply Hv. reflexivity.
      * split; [congruence|intros; discriminate].
    + do 2 eexists. split; [reflexivity|].
      split; [exact Kr|intros; discriminate].
  - unfold bind at 1.
    destruct (on_open_failure_test i index w Hm) as [Hr Hv].
    destruct (on_open_failure ext i index w) as [[v|e] w3] eqn:Eo;
      cbn [ret fst snd] in *; do 2 eexists; (split; [reflexivity|]).
    + split; [exact Hr|].
      intros index' H. injection H as <-. eapply Hv. reflexivity.
    + split; [exact Hr|intros; discriminate].
  - do 2 eexists. split; [reflexivity|].
    split; [reflexivity|intros; discriminate].
Qed.

(** X25.  Testing is deterministic in the first half of the retry
    budget: in test mode, for a temporal index other than [-1] and a
    sample that has a manifest window or a dataset without a caption
    directory, the rounds with [i_try <= _num_retries // 2] read no
    random number, whether they fail, return or raise. *)
Theorem test_rounds_read_no_random (tsi ssi : Z) (sci : option Z)
    (n i : nat) (index : Z) (w : World) :
  mode (self_ w) = Test ->
  tsi <> -1 ->
  (caps (self_ w) = None
   \/ exists s0, Py.getitem (_start (self_ w)) index = Some (Some s0)) ->
  Z.of_nat (i + n) <= _num_retries (self_ w) / 2 + 1 ->
  rng_pos (snd (retry_loop ext tsi ssi sci n i index w)) = rng_pos w.
Proof.
  revert i w. induction n as [|n IH]; intros i w Hm Htsi Hcond Hi;
    [reflexivity|].
  rewrite retry_loop_S.
  pose proof (keeps_attempt self_ ltac:(reflexivity) ltac:(reflexivity)
                ext tsi ssi sci i index (add_trial w)) as Ks.
  destruct (attempt_test_no_draw tsi ssi sci i index (add_trial w))
    as (o & w1 & Ea & Hr & Hidx); try assumption;
    [cbn [add_trial self_]; lia|].
  rewrite Ea in Ks |- *. cbn [fst snd] in Ks.
  destruct o as [[index1|r]|e]; cbn [fst snd]; [|exact Hr|exact Hr].
  rewrite (Hidx index1 eq_refl).
  rewrite IH; [exact Hr| | | |].
  - rewrite Ks. exact Hm.
  - exact Htsi.
  - rewrite Ks. exact Hcond.
  - rewrite Ks. cbn [add_trial self_]. lia.
Qed.

End TestDraws.

Lemma test_rounds_read_no_random_witness :
  let w := Demo2.fix_end_world 4 in
  mode (self_ w) = Test
  /\ 1 <> -1
  /\ Py.getitem (_start (self_ w)) 1 = Some (Some 10)
  /\ Z.of_nat (0 + 11) <= _num_retries (self_ w) / 2 + 1
  /\ fst (retry_loop Demo.broken 1 1 None 11 0 1 w) = Ok None
  /\ rng_pos (snd (retry_loop Demo.broken 1 1 None 11 0 1 w)) = rng_pos w.
Proof.
  cbv zeta. split; [reflexivity|]. split; [discriminate|].
  split; [reflexivity|]. split; [vm_compute; discriminate|].
  split; [vm_compute; reflexivity|].
  apply (test_rounds_read_no_random Demo.broken 1 1 None 11 0 1
           (Demo2.fix_end_world 4));
    [reflexivity|discriminate|right; exists 10; reflexivity
    |vm_compute; discriminate].
Defined.
